(** * AI call orchestrator: the call dispatch engine

    A shallow embedding of the TypeScript sources
    (src/repositories/call.repository.ts, src/services/*.ts,
    src/controllers/call.controller.ts) and the properties of the
    specification that are checked against them.

    Conventions.
    - A JavaScript [Date] is the number of milliseconds since the epoch, a [Z].
    - The [calls] table is the list of its rows; the primary key constraint on
      [id] is the hypothesis [NoDup (map CallEntity.id tbl)] where a property
      needs it.
    - A JSON object used as a map (the [payload] column) is a
      [gmap string JsonValue].
    - The [id] column is of type uuid.  Ids are strings here; a statement
      that looks for an id that has no row fails when the id does not read as
      a uuid ([Sql.isUuid]), as it does in the database.
    - Every SQL statement is atomic; an operation of the service is a sequence
      of such statements.
    - The libraries are modelled where the code relies on them: TypeORM's
      [update] ([Sql.setColumns]) and axios' [post] ([Axios.post]). *)

From Stdlib Require Import ZArith Ascii String List Bool Lia.
From stdpp Require Import gmap strings list pretty sorting.

Local Open Scope Z_scope.

(* ===================================================================== *)
(** ** Data model (src/types/call.types.ts, src/entities/Call.entity.ts)  *)
(* ===================================================================== *)

Inductive CallStatus := PENDING | IN_PROGRESS | COMPLETED | FAILED | EXPIRED.

Definition CallStatus_eqb (a b : CallStatus) : bool :=
  match a, b with
  | PENDING, PENDING | IN_PROGRESS, IN_PROGRESS | COMPLETED, COMPLETED
  | FAILED, FAILED | EXPIRED, EXPIRED => true
  | _, _ => false
  end.

(** The enum's string values, as they appear in messages. *)
Definition CallStatus_to_string (s : CallStatus) : string :=
  match s with
  | PENDING => "PENDING"
  | IN_PROGRESS => "IN_PROGRESS"
  | COMPLETED => "COMPLETED"
  | FAILED => "FAILED"
  | EXPIRED => "EXPIRED"
  end.

(** The statuses the specification calls terminal. *)
Definition is_terminal (s : CallStatus) : bool :=
  match s with
  | COMPLETED | FAILED | EXPIRED => true
  | PENDING | IN_PROGRESS => false
  end.

(** JSON values, as stored in the [jsonb] column. *)
#[local] Unset Elimination Schemes.
Inductive JsonValue :=
| JNull
| JBool (b : bool)
| JNumber (n : Z)
| JString (s : string)
| JArray (items : list JsonValue)
| JObject (fields : list (string * JsonValue)).
#[local] Set Elimination Schemes.

(** [payload->>'to'] on a JSON string is its text; [to] is always a JSON
    string in a stored payload. *)
Definition json_text (v : JsonValue) : option string :=
  match v with
  | JString s => Some s
  | _ => None
  end.

(** The row type of the [calls] table. *)
Module CallEntity.
Record t := mk {
  id : string;
  payload : gmap string JsonValue;
  status : CallStatus;
  attempts : Z;
  lastError : option string;
  createdAt : Z;
  startedAt : option Z;
  endedAt : option Z;
  updatedAt : Z;
  externalCallId : option string
}.
End CallEntity.

(** [Partial<CallEntity>] as the services build it: [None] is a key that is
    missing or whose value is [undefined].  The column types of a partial
    entity are those of the entity ([startedAt?: Date]), so it cannot carry
    [null]. *)
Module Partial.
Record t := mk {
  payload : option (gmap string JsonValue);
  status : option CallStatus;
  attempts : option Z;
  lastError : option string;
  startedAt : option Z;
  endedAt : option Z;
  externalCallId : option string
}.
End Partial.

(** The [Call] interface returned to request callers. *)
Module Call.
Record t := mk {
  id : string;
  payload : gmap string JsonValue;
  status : CallStatus;
  attempts : Z;
  lastError : option string;
  createdAt : Z;
  startedAt : option Z;
  endedAt : option Z
}.
End Call.

Record CreateCallRequest := {
  req_to : string;
  req_scriptId : string;
  req_metadata : option JsonValue
}.

(** [UpdateCallRequest]: [payload?: Partial<CallPayload>], the keys it names
    with their new values. *)
Record UpdateCallRequest := {
  upd_payload : option (gmap string JsonValue)
}.

Record CallListQuery := {
  q_status : option CallStatus;
  q_page : option Z;
  q_limit : option Z
}.

Inductive ProviderStatus := P_COMPLETED | P_FAILED | P_BUSY | P_NO_ANSWER.

Definition ProviderStatus_to_string (s : ProviderStatus) : string :=
  match s with
  | P_COMPLETED => "COMPLETED"
  | P_FAILED => "FAILED"
  | P_BUSY => "BUSY"
  | P_NO_ANSWER => "NO_ANSWER"
  end.

(** [completedAt] is the instant its ISO string denotes, which is what
    [new Date(payload.completedAt)] yields. *)
Record WebhookCallbackPayload := {
  wh_callId : string;
  wh_status : ProviderStatus;
  wh_durationSec : option Z;
  wh_completedAt : Z
}.

(** The body of the provider's answer.  It is typed [AICallResponse] for the
    compiler only; nothing checks it at run time, and a property that the
    body lacks reads as [undefined] ([None]). *)
Record AICallResponse := {
  ai_callId : option string;
  ai_status : option string
}.

(** JavaScript errors: the class (for [instanceof]) and the message. *)
Inductive ErrorClass := PlainError | RetryableError | NonRetryableError.

Record JsError := {
  err_class : ErrorClass;
  err_message : string
}.

Definition instanceof_RetryableError (e : JsError) : bool :=
  match err_class e with
  | RetryableError => true
  | _ => false
  end.

(** An entry of the in-memory queue of QueueService. *)
Record QueueItem := {
  qi_callId : string;
  qi_scheduledAt : Z
}.

(** [CallMetrics]: a count per status, and the total. *)
Record CallMetrics := {
  m_PENDING : Z;
  m_IN_PROGRESS : Z;
  m_COMPLETED : Z;
  m_FAILED : Z;
  m_EXPIRED : Z;
  m_total : Z
}.

(** [metrics[status]]. *)
Definition metricOf (status : CallStatus) (metrics : CallMetrics) : Z :=
  match status with
  | PENDING => m_PENDING metrics
  | IN_PROGRESS => m_IN_PROGRESS metrics
  | COMPLETED => m_COMPLETED metrics
  | FAILED => m_FAILED metrics
  | EXPIRED => m_EXPIRED metrics
  end.

(* ===================================================================== *)
(** ** The store and the effects of the services                          *)
(* ===================================================================== *)

(** What the services act on: the [calls] table and the in-memory queue. *)
Record World := {
  calls : list CallEntity.t;
  queue : list QueueItem
}.

Inductive Result (A : Type) :=
| Ok (a : A)
| Throw (e : JsError).
Arguments Ok {A} a.
Arguments Throw {A} e.

(** A method of a service: it reads and writes the world, and returns or
    throws. *)
Definition M (A : Type) : Type := World -> Result A * World.

#[global] Instance M_ret : MRet M := fun A a w => (Ok a, w).

#[global] Instance M_bind : MBind M := fun A B f m w =>
  match m w with
  | (Ok a, w') => f a w'
  | (Throw e, w') => (Throw e, w')
  end.

Definition throw {A : Type} (e : JsError) : M A := fun w => (Throw e, w).

Definition getCalls : M (list CallEntity.t) := fun w => (Ok (calls w), w).

Definition putCalls (tbl : list CallEntity.t) : M unit :=
  fun w => (Ok tt, {| calls := tbl; queue := queue w |}).

Definition pushQueue (it : QueueItem) : M unit :=
  fun w => (Ok tt, {| calls := calls w; queue := queue w ++ [it] |}).

(* ===================================================================== *)
(** ** SQL statements on the table                                        *)
(* ===================================================================== *)

Module Sql.

(** The [id] column is of type [uuid] ([@PrimaryGeneratedColumn('uuid')]).
    PostgreSQL reads a text as a uuid the way [string_to_uuid] does: sixteen
    bytes of two hexadecimal digits each, a hyphen allowed after every second
    byte but the last, the whole optionally in braces. *)
Definition isxdigit (c : ascii) : bool :=
  let n := nat_of_ascii c in
  (Nat.leb 48 n && Nat.leb n 57) || (Nat.leb 65 n && Nat.leb n 70)
  || (Nat.leb 97 n && Nat.leb n 102).

Fixpoint uuidBytes (left i : nat) (src : string) : option string :=
  match left with
  | O => Some src
  | S left' =>
      match src with
      | String a (String b rest) =>
          if isxdigit a && isxdigit b then
            uuidBytes left' (S i)
              (match rest with
               | String "-" rest' =>
                   if Nat.odd i && Nat.ltb i 15 then rest' else rest
               | _ => rest
               end)
          else None
      | _ => None
      end
  end.

Definition isUuid (s : string) : bool :=
  match s with
  | String "{" src =>
      match uuidBytes 16 0 src with
      | Some rest => String.eqb rest "}"
      | None => false
      end
  | _ =>
      match uuidBytes 16 0 s with
      | Some rest => String.eqb rest ""
      | None => false
      end
  end.

(** The error of a statement that compares [id] with a text that is not a
    uuid (SQLSTATE 22P02). *)
Definition invalidUuid (i : string) : JsError :=
  let quote := String (Ascii.ascii_of_nat 34) EmptyString in
  {| err_class := PlainError;
     err_message := "invalid input syntax for type uuid: " +:+ quote +:+ i +:+ quote |}.

(** [SELECT ... WHERE id = :id], one row. *)
Definition selectById (tbl : list CallEntity.t) (i : string) : option CallEntity.t :=
  find (fun r => String.eqb (CallEntity.id r) i) tbl.

(** The [SET] clause of an update.  TypeORM's update query builder leaves
    out every property whose value is [undefined] ("it doesn't make sense to
    update undefined properties, so just skip them"), and sets the
    [@UpdateDateColumn] to the current time. *)
Definition setColumns (now : Z) (u : Partial.t) (r : CallEntity.t) : CallEntity.t :=
  {| CallEntity.id := CallEntity.id r;
     CallEntity.payload := default (CallEntity.payload r) (Partial.payload u);
     CallEntity.status := default (CallEntity.status r) (Partial.status u);
     CallEntity.attempts := default (CallEntity.attempts r) (Partial.attempts u);
     CallEntity.lastError :=
       match Partial.lastError u with
       | Some e => Some e
       | None => CallEntity.lastError r
       end;
     CallEntity.createdAt := CallEntity.createdAt r;
     CallEntity.startedAt :=
       match Partial.startedAt u with
       | Some d => Some d
       | None => CallEntity.startedAt r
       end;
     CallEntity.endedAt :=
       match Partial.endedAt u with
       | Some d => Some d
       | None => CallEntity.endedAt r
       end;
     CallEntity.updatedAt := now;
     CallEntity.externalCallId :=
       match Partial.externalCallId u with
       | Some x => Some x
       | None => CallEntity.externalCallId r
       end |}.

(** [UPDATE calls SET ... WHERE <cond>]: the new table and the number of
    affected rows. *)
Definition updateWhere (now : Z) (cond : CallEntity.t -> bool) (u : Partial.t)
           (tbl : list CallEntity.t) : list CallEntity.t * Z :=
  (map (fun r => if cond r then setColumns now u r else r) tbl,
   Z.of_nat (length (List.filter cond tbl))).

(** The first row in [ORDER BY createdAt ASC]; among rows of equal
    [createdAt], the first of the table. *)
Fixpoint oldest (rows : list CallEntity.t) : option CallEntity.t :=
  match rows with
  | [] => None
  | r :: rs =>
      match oldest rs with
      | None => Some r
      | Some r' =>
          if CallEntity.createdAt r <=? CallEntity.createdAt r' then Some r else Some r'
      end
  end.

Definition hasStatus (s : CallStatus) (r : CallEntity.t) : bool :=
  CallStatus_eqb (CallEntity.status r) s.

(** [WHERE status = :status ORDER BY createdAt ASC], one row. *)
Definition selectOldestWithStatus (s : CallStatus) (tbl : list CallEntity.t)
  : option CallEntity.t :=
  oldest (List.filter (hasStatus s) tbl).

(** Insertion into a list ordered by [createdAt DESC]. *)
Fixpoint insertDesc (r : CallEntity.t) (rows : list CallEntity.t) : list CallEntity.t :=
  match rows with
  | [] => [r]
  | r' :: rs =>
      if CallEntity.createdAt r' <? CallEntity.createdAt r
      then r :: r' :: rs
      else r' :: insertDesc r rs
  end.

Definition orderByCreatedAtDesc (rows : list CallEntity.t) : list CallEntity.t :=
  foldr insertDesc [] rows.

End Sql.

(* ===================================================================== *)
(** ** CallRepository (src/repositories/call.repository.ts)               *)
(* ===================================================================== *)

Module CallRepository.

(** [create]: [repository.create(callData)] then [save].  The database
    generates the primary key ([newId]) and fills the column defaults. *)
Definition create (newId : string) (now : Z) (callData : Partial.t) : M CallEntity.t :=
  tbl ← getCalls;
  let call :=
    {| CallEntity.id := newId;
       CallEntity.payload := default ∅ (Partial.payload callData);
       CallEntity.status := default PENDING (Partial.status callData);
       CallEntity.attempts := default 0 (Partial.attempts callData);
       CallEntity.lastError := Partial.lastError callData;
       CallEntity.createdAt := now;
       CallEntity.startedAt := Partial.startedAt callData;
       CallEntity.endedAt := Partial.endedAt callData;
       CallEntity.updatedAt := now;
       CallEntity.externalCallId := Partial.externalCallId callData |} in
  _ ← putCalls (tbl ++ [call]);
  mret call.

(** [findOne({ where: { id } })].  The rows hold uuids only, so an id that
    has a row is one; for an id that has no row the database answers with no
    row when the id reads as a uuid, and refuses the statement otherwise. *)
Definition findById (i : string) : M (option CallEntity.t) :=
  tbl ← getCalls;
  match Sql.selectById tbl i with
  | Some row => mret (Some row)
  | None => if Sql.isUuid i then mret None else throw (Sql.invalidUuid i)
  end.

(** [repository.update(id, updates)] then [findById(id)]. *)
Definition updateById (now : Z) (i : string) (updates : Partial.t)
  : M (option CallEntity.t) :=
  tbl ← getCalls;
  _ ← putCalls (fst (Sql.updateWhere now (fun r => String.eqb (CallEntity.id r) i) updates tbl));
  findById i.

(** [skip(skip).take(limit)] as the query builder renders it for PostgreSQL:
    a [LIMIT] or [OFFSET] of 0 is left out, and the database refuses a
    negative one. *)
Definition skipTake (skip limit : Z) (rows : list CallEntity.t)
  : Result (list CallEntity.t) :=
  if (skip <? 0) then
    Throw {| err_class := PlainError; err_message := "OFFSET must not be negative" |}
  else if (limit <? 0) then
    Throw {| err_class := PlainError; err_message := "LIMIT must not be negative" |}
  else
    let rest := drop (Z.to_nat skip) rows in
    Ok (if limit =? 0 then rest else take (Z.to_nat limit) rest).

Definition findWithPagination (query : CallListQuery) : M (list CallEntity.t * Z) :=
  let page := default 1 (q_page query) in
  let limit := default 10 (q_limit query) in
  let skip := (page - 1) * limit in
  tbl ← getCalls;
  let matching :=
    match q_status query with
    | Some status => List.filter (Sql.hasStatus status) tbl
    | None => tbl
    end in
  match skipTake skip limit (Sql.orderByCreatedAtDesc matching) with
  | Ok calls => mret (calls, Z.of_nat (length matching))
  | Throw e => throw e
  end.

(** The [SET] clause of the claim. *)
Definition lockSet (now : Z) : Partial.t :=
  {| Partial.payload := None;
     Partial.status := Some IN_PROGRESS;
     Partial.attempts := None;
     Partial.lastError := None;
     Partial.startedAt := Some now;
     Partial.endedAt := None;
     Partial.externalCallId := None |}.

(** The [WHERE id = :id AND status = :status] clause of the claim. *)
Definition lockWhere (i : string) (r : CallEntity.t) : bool :=
  String.eqb (CallEntity.id r) i && Sql.hasStatus PENDING r.

Definition fetchAndLockPendingCall (now : Z) : M (option CallEntity.t) :=
  tbl ← getCalls;
  match Sql.selectOldestWithStatus PENDING tbl with
  | None => mret None
  | Some pendingCall =>
      let updateResult :=
        Sql.updateWhere now (lockWhere (CallEntity.id pendingCall)) (lockSet now) tbl in
      _ ← putCalls (fst updateResult);
      if snd updateResult =? 0 then mret None
      else findById (CallEntity.id pendingCall)
  end.

Definition findByExternalCallId (externalCallId : string) : M (option CallEntity.t) :=
  tbl ← getCalls;
  mret (find (fun r =>
               match CallEntity.externalCallId r with
               | Some x => String.eqb x externalCallId
               | None => false
               end) tbl).

Definition isActiveFor (phoneNumber : string) (r : CallEntity.t) : bool :=
  (Sql.hasStatus PENDING r || Sql.hasStatus IN_PROGRESS r)
  && match CallEntity.payload r !! "to"%string ≫= json_text with
     | Some t => String.eqb t phoneNumber
     | None => false
     end.

Definition findActiveCallByPhoneNumber (phoneNumber : string) : M (option CallEntity.t) :=
  tbl ← getCalls;
  mret (find (isActiveFor phoneNumber) tbl).

(** [SELECT status, COUNT( * ) ... GROUP BY status]: one raw row per status
    that some call has. *)
Definition groupByStatus (tbl : list CallEntity.t) : list (CallStatus * Z) :=
  List.filter (fun g => 0 <? snd g)
    (map (fun status => (status, Z.of_nat (length (List.filter (Sql.hasStatus status) tbl))))
         [PENDING; IN_PROGRESS; COMPLETED; FAILED; EXPIRED]).

(** The body of the [forEach]: [metrics[status] = count; metrics.total +=
    count]. *)
Definition addGroup (metrics : CallMetrics) (g : CallStatus * Z) : CallMetrics :=
  let count := snd g in
  {| m_PENDING := match fst g with PENDING => count | _ => m_PENDING metrics end;
     m_IN_PROGRESS := match fst g with IN_PROGRESS => count | _ => m_IN_PROGRESS metrics end;
     m_COMPLETED := match fst g with COMPLETED => count | _ => m_COMPLETED metrics end;
     m_FAILED := match fst g with FAILED => count | _ => m_FAILED metrics end;
     m_EXPIRED := match fst g with EXPIRED => count | _ => m_EXPIRED metrics end;
     m_total := m_total metrics + count |}.

Definition countByStatus : M CallMetrics :=
  tbl ← getCalls;
  mret (foldl addGroup
          {| m_PENDING := 0; m_IN_PROGRESS := 0; m_COMPLETED := 0;
             m_FAILED := 0; m_EXPIRED := 0; m_total := 0 |}
          (groupByStatus tbl)).

Definition countInProgress : M Z :=
  tbl ← getCalls;
  mret (Z.of_nat (length (List.filter (Sql.hasStatus IN_PROGRESS) tbl))).

End CallRepository.

(* ===================================================================== *)
(** ** QueueService (src/services/queue.service.ts)                       *)
(* ===================================================================== *)

Module QueueService.

Definition enqueueCallWithDelay (now : Z) (callId : string) (delayMs : Z) : M unit :=
  let scheduledAt := now + delayMs in
  pushQueue {| qi_callId := callId; qi_scheduledAt := scheduledAt |}.

Definition enqueueCall (now : Z) (callId : string) : M unit :=
  pushQueue {| qi_callId := callId; qi_scheduledAt := now |}.

(** [dequeueCall]: [findIndex] of the first item that is due, and [splice] of
    that item. *)
Definition dequeueCall (now : Z) : M (option string) := fun w =>
  match list_find (fun item => qi_scheduledAt item <= now) (queue w) with
  | None => (Ok None, w)
  | Some (readyIndex, item) =>
      (Ok (Some (qi_callId item)),
       {| calls := calls w; queue := delete readyIndex (queue w) |})
  end.

Definition getQueueLength : M Z := fun w => (Ok (Z.of_nat (length (queue w))), w).

Definition getReadyCallsCount (now : Z) : M Z := fun w =>
  (Ok (Z.of_nat (length (List.filter (fun item => qi_scheduledAt item <=? now) (queue w)))), w).

End QueueService.

(* ===================================================================== *)
(** ** ConcurrencyManager (src/services/concurrency.service.ts)           *)
(* ===================================================================== *)

Module ConcurrencyManager.

Definition canAcquireSlot (maxConcurrentCalls : Z) : M bool :=
  currentInProgress ← CallRepository.countInProgress;
  mret (currentInProgress <? maxConcurrentCalls).

Definition acquireSlot (maxConcurrentCalls : Z) : M unit :=
  currentInProgress ← CallRepository.countInProgress;
  if maxConcurrentCalls <=? currentInProgress then
    throw {| err_class := PlainError;
             err_message :=
               "Cannot acquire slot: maximum concurrent calls ("
               +:+ pretty maxConcurrentCalls +:+ ") reached" |}
  else mret tt.

(** [releaseSlot] reads the count and logs it. *)
Definition releaseSlot : M unit :=
  _ ← CallRepository.countInProgress;
  mret tt.

Definition getCurrentConcurrency : M Z := CallRepository.countInProgress.

End ConcurrencyManager.

(* ===================================================================== *)
(** ** AICallService (src/services/aiCall.service.ts)                     *)
(* ===================================================================== *)

Module AICallService.

(** What the classifier reads of a caught error: [error.code],
    [error.response?.status] and [error.message]. *)
Record CaughtError := {
  code : option string;
  response_status : option Z;
  message : string
}.

(** The outcome of [axios.post]: a response that resolved, with its status and
    its body typed [AICallResponse], or a rejection. *)
Inductive AxiosOutcome :=
| Resolved (status : Z) (data : AICallResponse)
| Rejected (error : CaughtError).

Definition code_is (c : string) (error : CaughtError) : bool :=
  match code error with
  | Some c' => String.eqb c' c
  | None => false
  end.

(** [error.response?.status >= 500] and [=== 429]: both are false when there
    is no response. *)
Definition isRetryableError (error : CaughtError) : bool :=
  if code_is "ECONNREFUSED" error || code_is "ETIMEDOUT" error then true
  else if match response_status error with Some s => 500 <=? s | None => false end then true
  else if match response_status error with Some s => s =? 429 | None => false end then true
  else false.

(** The [catch] block: the error is rethrown as a [RetryableError] or a
    [NonRetryableError] with the same message. *)
Definition classify (error : CaughtError) : JsError :=
  if isRetryableError error
  then {| err_class := RetryableError; err_message := message error |}
  else {| err_class := NonRetryableError; err_message := message error |}.

Definition decimal (n : Z) : string :=
  if n <? 0 then ("-" +:+ pretty (Z.to_N (- n)))%string else pretty (Z.to_N n).

(** [initiateCall], given what [axios.post] did.  The [throw] of the [else]
    branch is inside the [try]: the plain [Error] it raises, which has neither
    [code] nor [response], goes through the classifier as well. *)
Definition initiateCall (outcome : AxiosOutcome) : Result AICallResponse :=
  match outcome with
  | Resolved status data =>
      if status =? 202 then Ok data
      else Throw (classify {| code := None;
                              response_status := None;
                              message := "Unexpected response status: " +:+ decimal status |})
  | Rejected error => Throw (classify error)
  end.

(** [timeout: 30000] of the request. *)
Definition requestTimeout : Z := 30000.

End AICallService.

(* ===================================================================== *)
(** ** axios.post (axios 1.x, the version package.json asks for)          *)
(* ===================================================================== *)

Module Axios.

(** What becomes of the request on the network: a response arrives, the
    socket fails with an error code of Node ([ECONNREFUSED], [ECONNRESET],
    [ENOTFOUND], [ETIMEDOUT], ...), or nothing arrives in time. *)
Inductive Exchange :=
| Response (status : Z) (data : AICallResponse)
| SocketError (errno message : string)
| NoResponseInTime.

(** [axios.post(url, data, { timeout })] with the default [validateStatus]:
    a response of status 2xx resolves; any other response rejects with an
    error that carries the response; an error of the socket rejects with its
    code; and when no response has arrived after [timeout] milliseconds the
    request is aborted and rejects with the code [ECONNABORTED]. *)
Definition post (timeout : Z) (x : Exchange) : AICallService.AxiosOutcome :=
  match x with
  | Response status data =>
      if (200 <=? status) && (status <? 300) then AICallService.Resolved status data
      else
        AICallService.Rejected
          {| AICallService.code :=
               if (400 <=? status) && (status <? 500) then Some "ERR_BAD_REQUEST"%string
               else if (500 <=? status) && (status <? 600) then Some "ERR_BAD_RESPONSE"%string
               else None;
             AICallService.response_status := Some status;
             AICallService.message :=
               "Request failed with status code " +:+ AICallService.decimal status |}
  | SocketError errno message =>
      AICallService.Rejected
        {| AICallService.code := Some errno;
           AICallService.response_status := None;
           AICallService.message := message |}
  | NoResponseInTime =>
      AICallService.Rejected
        {| AICallService.code := Some "ECONNABORTED"%string;
           AICallService.response_status := None;
           AICallService.message :=
             "timeout of " +:+ AICallService.decimal timeout +:+ "ms exceeded" |}
  end.

End Axios.

(* ===================================================================== *)
(** ** CallService (src/services/call.service.ts)                         *)
(* ===================================================================== *)

Module CallService.

Definition entityToCall (entity : CallEntity.t) : Call.t :=
  {| Call.id := CallEntity.id entity;
     Call.payload := CallEntity.payload entity;
     Call.status := CallEntity.status entity;
     Call.attempts := CallEntity.attempts entity;
     Call.lastError := CallEntity.lastError entity;
     Call.createdAt := CallEntity.createdAt entity;
     Call.startedAt := CallEntity.startedAt entity;
     Call.endedAt := CallEntity.endedAt entity |}.

(** The object literal [{ to, scriptId, metadata }] as it is stored: a key
    whose value is [undefined] is not serialised. *)
Definition newPayload (request : CreateCallRequest) : gmap string JsonValue :=
  let base : gmap string JsonValue :=
    <["to"%string := JString (req_to request)]>
      (<["scriptId"%string := JString (req_scriptId request)]> ∅) in
  match req_metadata request with
  | Some metadata => <["metadata"%string := metadata]> base
  | None => base
  end.

Definition createCall (newId : string) (now : Z) (request : CreateCallRequest) : M Call.t :=
  existingCall ← CallRepository.findActiveCallByPhoneNumber (req_to request);
  match existingCall with
  | Some existing =>
      throw {| err_class := PlainError;
               err_message :=
                 "Call already active for phone number: " +:+ req_to request
                 +:+ " (Status: " +:+ CallStatus_to_string (CallEntity.status existing)
                 +:+ ")" |}
  | None =>
      callEntity ← CallRepository.create newId now
        {| Partial.payload := Some (newPayload request);
           Partial.status := Some PENDING;
           Partial.attempts := Some 0;
           Partial.lastError := None;
           Partial.startedAt := None;
           Partial.endedAt := None;
           Partial.externalCallId := None |};
      mret (entityToCall callEntity)
  end.


(** [{ ...existingCall.payload, ...request.payload }]: the keys of the request
    win, the other keys of the existing payload stay; spreading [undefined]
    adds nothing. *)
Definition spread (existing : gmap string JsonValue)
           (delta : option (gmap string JsonValue)) : gmap string JsonValue :=
  default ∅ delta ∪ existing.

Definition updateCall (now : Z) (i : string) (request : UpdateCallRequest)
  : M (option Call.t) :=
  existingCall ← CallRepository.findById i;
  match existingCall with
  | None => mret None
  | Some existing =>
      if negb (CallStatus_eqb (CallEntity.status existing) PENDING) then
        throw {| err_class := PlainError;
                 err_message := "Can only update calls with PENDING status" |}
      else
        updatedEntity ← CallRepository.updateById now i
          {| Partial.payload := Some (spread (CallEntity.payload existing) (upd_payload request));
             Partial.status := None;
             Partial.attempts := None;
             Partial.lastError := None;
             Partial.startedAt := None;
             Partial.endedAt := None;
             Partial.externalCallId := None |};
        mret (entityToCall <$> updatedEntity)
  end.

(** [x || d] on an optional number: [undefined] and [0] give [d]. *)
Definition or_default (x : option Z) (d : Z) : Z :=
  match x with
  | Some v => if v =? 0 then d else v
  | None => d
  end.

Record CallPage := {
  pg_calls : list Call.t;
  pg_total : Z;
  pg_page : Z;
  pg_limit : Z
}.

Definition getCallsByStatus (query : CallListQuery) : M CallPage :=
  '(calls, total) ← CallRepository.findWithPagination query;
  mret {| pg_calls := map entityToCall calls;
          pg_total := total;
          pg_page := or_default (q_page query) 1;
          pg_limit := or_default (q_limit query) 10 |}.

(** [Math.pow(2, newAttempts) * 1000], for the non-negative integers that
    [attempts] takes. *)
Definition backoffDelay (newAttempts : Z) : Z := 2 ^ newAttempts * 1000.

(** [handleCallFailure].  [releaseSlot] only reads the in-progress count and
    logs it, so it leaves no trace here. *)
Definition handleCallFailure (maxRetryAttempts : Z) (now : Z)
           (callEntity : CallEntity.t) (error : JsError) : M unit :=
  if String.eqb (CallEntity.id callEntity) "" then mret tt
  else
    let newAttempts := or_default (Some (CallEntity.attempts callEntity)) 0 + 1 in
    if instanceof_RetryableError error && (newAttempts <? maxRetryAttempts) then
      _ ← CallRepository.updateById now (CallEntity.id callEntity)
        {| Partial.payload := None;
           Partial.status := Some PENDING;
           Partial.attempts := Some newAttempts;
           Partial.lastError := Some (err_message error);
           Partial.startedAt := None (* startedAt: undefined *);
           Partial.endedAt := None;
           Partial.externalCallId := None |};
      QueueService.enqueueCallWithDelay now (CallEntity.id callEntity)
        (backoffDelay newAttempts)
    else
      _ ← CallRepository.updateById now (CallEntity.id callEntity)
        {| Partial.payload := None;
           Partial.status := Some FAILED;
           Partial.attempts := Some newAttempts;
           Partial.lastError := Some (err_message error);
           Partial.startedAt := None;
           Partial.endedAt := Some now;
           Partial.externalCallId := None |};
      mret tt.

Definition handleWebhookCallback (now : Z) (payload : WebhookCallbackPayload) : M unit :=
  found ← CallRepository.findByExternalCallId (wh_callId payload);
  match found with
  | None => mret tt
  | Some callEntity =>
      let isSuccess :=
        match wh_status payload with P_COMPLETED => true | _ => false end in
      let finalStatus := if isSuccess then COMPLETED else FAILED in
      _ ← CallRepository.updateById now (CallEntity.id callEntity)
        {| Partial.payload := None;
           Partial.status := Some finalStatus;
           Partial.attempts := None;
           Partial.lastError :=
             if isSuccess then None
             else Some ("AI call " +:+ ProviderStatus_to_string (wh_status payload));
           Partial.startedAt := None;
           Partial.endedAt := Some (wh_completedAt payload);
           Partial.externalCallId := None |};
      mret tt
  end.

Definition getMetrics : M CallMetrics := CallRepository.countByStatus.

(** JavaScript truthiness of a property of the payload; a missing key is
    [undefined]. *)
Definition truthy (v : option JsonValue) : bool :=
  match v with
  | None | Some JNull => false
  | Some (JBool b) => b
  | Some (JNumber n) => negb (n =? 0)
  | Some (JString s) => negb (String.eqb s "")
  | Some (JArray _) | Some (JObject _) => true
  end.

(** [processCall], given what [axios.post] does when the call is
    initiated.  The update that stores the provider's call id is inside the
    [try] as well: an error it raises goes to [handleCallFailure]. *)
Definition processCall (maxRetryAttempts : Z) (now : Z) (callEntity : CallEntity.t)
           (outcome : AICallService.AxiosOutcome) : M unit :=
  if negb (truthy (CallEntity.payload callEntity !! "to"%string))
     || negb (truthy (CallEntity.payload callEntity !! "scriptId"%string))
  then
    handleCallFailure maxRetryAttempts now callEntity
      {| err_class := PlainError;
         err_message := "Invalid call entity: missing required payload data" |}
  else
    match AICallService.initiateCall outcome with
    | Ok aiResponse =>
        fun w =>
          match CallRepository.updateById now (CallEntity.id callEntity)
                  {| Partial.payload := None;
                     Partial.status := None;
                     Partial.attempts := None;
                     Partial.lastError := None;
                     Partial.startedAt := None;
                     Partial.endedAt := None;
                     Partial.externalCallId := ai_callId aiResponse |} w with
          | (Ok _, w') => (Ok tt, w')
          | (Throw error, w') => handleCallFailure maxRetryAttempts now callEntity error w'
          end
    | Throw error => handleCallFailure maxRetryAttempts now callEntity error
    end.

(** What one turn of the loop of [processCallQueue] comes to. *)
Inductive LoopStep :=
| AtCapacity
| NoPendingCalls
| InvalidEntity
| Started (callEntity : CallEntity.t)
| LoopError (error : JsError).

(** The [sleep] that ends the turn, in milliseconds. *)
Definition sleepAfter (s : LoopStep) : option Z :=
  match s with
  | AtCapacity => Some 5000
  | NoPendingCalls => Some 2000
  | InvalidEntity => None
  | Started _ => None
  | LoopError _ => Some 5000
  end.

(** The [try] block of the loop; [Started] stands for the detached
    [processCall]. *)
Definition loopBody (maxConcurrentCalls : Z) (now : Z) : M LoopStep :=
  canProcess ← ConcurrencyManager.canAcquireSlot maxConcurrentCalls;
  if negb canProcess then mret AtCapacity
  else
    callEntity ← CallRepository.fetchAndLockPendingCall now;
    match callEntity with
    | None => mret NoPendingCalls
    | Some c =>
        if String.eqb (CallEntity.id c) "" then mret InvalidEntity
        else
          _ ← ConcurrencyManager.acquireSlot maxConcurrentCalls;
          mret (Started c)
    end.

(** One turn of the loop, with its [catch]. *)
Definition processCallQueueTurn (maxConcurrentCalls : Z) (now : Z) (w : World)
  : LoopStep * World :=
  match loopBody maxConcurrentCalls now w with
  | (Ok s, w') => (s, w')
  | (Throw error, w') => (LoopError error, w')
  end.

End CallService.

(* ===================================================================== *)
(** ** Request validation (src/utils/validation.ts)                       *)
(* ===================================================================== *)

Module Validation.

Definition isDigit (c : ascii) : bool :=
  let n := Ascii.nat_of_ascii c in ((48 <=? n) && (n <=? 57))%nat.

Fixpoint allDigits (s : string) : bool :=
  match s with
  | EmptyString => true
  | String c s' => isDigit c && allDigits s'
  end.

(** The pattern [/^\+\d{10,15}$/]. *)
Definition isInternationalNumber (s : string) : bool :=
  match s with
  | String "+"%char digits =>
      allDigits digits
      && ((10 <=? String.length digits) && (String.length digits <=? 15))%nat
  | _ => false
  end.

(** Joi quotes the label of the key in its messages. *)
Definition label (key : string) : string :=
  let dq := String (Ascii.ascii_of_nat 34) EmptyString in dq +:+ key +:+ dq.

(** [createCallSchema.validate(data, { abortEarly: false })]: the messages of
    the rules that fail, none when the request is valid. *)
Definition validateCreateCall (data : CreateCallRequest) : list string :=
  (if String.eqb (req_to data) "" then [label "to" +:+ " is not allowed to be empty"]
   else if isInternationalNumber (req_to data) then []
   else ["Phone number must be in international format (e.g., +966501234567)"%string])
  ++
  (if String.eqb (req_scriptId data) ""
   then [label "scriptId" +:+ " is not allowed to be empty"]
   else if (String.length (req_scriptId data) <=? 100)%nat then []
   else [label "scriptId" +:+ " length must be less than or equal to 100 characters long"])
  ++
  (match req_metadata data with
   | Some (JObject _) | None => []
   | Some _ => [label "metadata" +:+ " must be of type object"]
   end).

End Validation.

(* ===================================================================== *)
(** ** CallController (src/controllers/call.controller.ts)                *)
(* ===================================================================== *)

Module CallController.

Inductive ResponseBody :=
| DataBody (data : Call.t)
| ListBody (data : list Call.t) (total page limit totalPages : Z)
| ErrorBody (error message : string)
| ValidationBody (details : list string).

Record HttpResponse := {
  res_status : Z;
  res_body : ResponseBody
}.

(** [String.prototype.includes]. *)
Fixpoint includes (s sub : string) : bool :=
  if String.prefix sub s then true
  else match s with
       | EmptyString => false
       | String _ s' => includes s' sub
       end.

(** POST /calls *)
Definition createCall (newId : string) (now : Z) (body : CreateCallRequest)
           (w : World) : HttpResponse * World :=
  match Validation.validateCreateCall body with
  | _ :: _ as details =>
      ({| res_status := 400; res_body := ValidationBody details |}, w)
  | [] =>
      match CallService.createCall newId now body w with
      | (Ok call, w') => ({| res_status := 201; res_body := DataBody call |}, w')
      | (Throw error, w') =>
          if includes (err_message error) "already in progress" then
            ({| res_status := 409;
                res_body := ErrorBody "Conflict" (err_message error) |}, w')
          else
            ({| res_status := 500;
                res_body := ErrorBody "Internal server error" "Failed to create call" |}, w')
      end
  end.

(** [Math.ceil(total / limit)] on integers, [limit] not zero. *)
Definition Math_ceil_div (total limit : Z) : Z := - ((- total) / limit).

(** [x && x < 1]: false when [x] is [undefined] or [0]. *)
Definition givenAnd (x : option Z) (test : Z -> bool) : bool :=
  match x with
  | Some v => negb (v =? 0) && test v
  | None => false
  end.

(** GET /calls, from the parsed [page] and [limit]. *)
Definition listCalls (query : CallListQuery) (w : World) : HttpResponse * World :=
  if givenAnd (q_page query) (fun page => page <? 1) then
    ({| res_status := 400;
        res_body := ErrorBody "Validation error" "Page must be greater than 0" |}, w)
  else if givenAnd (q_limit query) (fun limit => (limit <? 1) || (100 <? limit)) then
    ({| res_status := 400;
        res_body := ErrorBody "Validation error" "Limit must be between 1 and 100" |}, w)
  else
    match CallService.getCallsByStatus query w with
    | (Ok result, w') =>
        ({| res_status := 200;
            res_body :=
              ListBody (CallService.pg_calls result)
                       (CallService.pg_total result)
                       (CallService.pg_page result)
                       (CallService.pg_limit result)
                       (Math_ceil_div (CallService.pg_total result)
                                      (CallService.pg_limit result)) |}, w')
    | (Throw _, w') =>
        ({| res_status := 500;
            res_body := ErrorBody "Internal server error" "Failed to list calls" |}, w')
    end.

End CallController.

(* ===================================================================== *)
(** ** Middleware (src/middleware)                                        *)
(* ===================================================================== *)

Module Middleware.

(** An entry of the [requestCounts] map. *)
Record ClientData := {
  count : Z;
  resetTime : Z
}.

Inductive Verdict :=
| Next
| TooManyRequests.

(** The handler that [rateLimiter(maxRequests, windowMs)] returns, for a
    request of [clientIp] at time [now]. *)
Definition rateLimiter (maxRequests windowMs : Z) (clientIp : string) (now : Z)
           (requestCounts : gmap string ClientData) : Verdict * gmap string ClientData :=
  match requestCounts !! clientIp with
  | None =>
      (Next, <[clientIp := {| count := 1; resetTime := now + windowMs |}]> requestCounts)
  | Some clientData =>
      if resetTime clientData <? now then
        (Next, <[clientIp := {| count := 1; resetTime := now + windowMs |}]> requestCounts)
      else if maxRequests <=? count clientData then
        (TooManyRequests, requestCounts)
      else
        (Next, <[clientIp := {| count := count clientData + 1;
                                resetTime := resetTime clientData |}]> requestCounts)
  end.

(** The requests of one client, one after the other. *)
Fixpoint serve (maxRequests windowMs : Z) (clientIp : string) (times : list Z)
         (requestCounts : gmap string ClientData) : list Verdict * gmap string ClientData :=
  match times with
  | [] => ([], requestCounts)
  | now :: rest =>
      let r := rateLimiter maxRequests windowMs clientIp now requestCounts in
      let rs := serve maxRequests windowMs clientIp rest (snd r) in
      (fst r :: fst rs, snd rs)
  end.

End Middleware.

(* ===================================================================== *)
(** ** Destinations                                                       *)
(* ===================================================================== *)

(** [payload->>'to'] of a row. *)
Definition destination (r : CallEntity.t) : option string :=
  CallEntity.payload r !! "to"%string ≫= json_text.

Definition isActive (r : CallEntity.t) : bool :=
  Sql.hasStatus PENDING r || Sql.hasStatus IN_PROGRESS r.

(** No two rows with status PENDING or IN_PROGRESS have the same
    destination. *)
Definition oneActivePerDestination (tbl : list CallEntity.t) : Prop :=
  forall (i j : nat) (r1 r2 : CallEntity.t) (d : string),
    tbl !! i = Some r1 -> tbl !! j = Some r2 ->
    isActive r1 = true -> isActive r2 = true ->
    destination r1 = Some d -> destination r2 = Some d ->
    i = j.

(** What a successful [createCall] inserts. *)
Definition createdRow (newId : string) (now : Z) (request : CreateCallRequest)
  : CallEntity.t :=
  {| CallEntity.id := newId;
     CallEntity.payload := CallService.newPayload request;
     CallEntity.status := PENDING;
     CallEntity.attempts := 0;
     CallEntity.lastError := None;
     CallEntity.createdAt := now;
     CallEntity.startedAt := None;
     CallEntity.endedAt := None;
     CallEntity.updatedAt := now;
     CallEntity.externalCallId := None |}.

(** Two create requests whose statements interleave: the check
    ([findActiveCallByPhoneNumber]) and the insert ([create]) of [createCall]
    are separate statements. *)
Module CreateRace.

Inductive Pc :=
| AtCheck
| AtInsert
| Returned (result : Result Call.t).

(** The next statement of a [createCall] invocation, issued at time [now]. *)
Definition step (newId : string) (now : Z) (request : CreateCallRequest)
           (w : World) (pc : Pc) : World * Pc :=
  match pc with
  | AtCheck =>
      match CallRepository.findActiveCallByPhoneNumber (req_to request) w with
      | (Ok (Some existing), w') =>
          (w', Returned
                 (Throw {| err_class := PlainError;
                           err_message :=
                             "Call already active for phone number: " +:+ req_to request
                             +:+ " (Status: "
                             +:+ CallStatus_to_string (CallEntity.status existing)
                             +:+ ")" |}))
      | (Ok None, w') => (w', AtInsert)
      | (Throw e, w') => (w', Returned (Throw e))
      end
  | AtInsert =>
      match CallRepository.create newId now
              {| Partial.payload := Some (CallService.newPayload request);
                 Partial.status := Some PENDING;
                 Partial.attempts := Some 0;
                 Partial.lastError := None;
                 Partial.startedAt := None;
                 Partial.endedAt := None;
                 Partial.externalCallId := None |} w with
      | (Ok callEntity, w') => (w', Returned (Ok (CallService.entityToCall callEntity)))
      | (Throw e, w') => (w', Returned (Throw e))
      end
  | Returned result => (w, Returned result)
  end.

End CreateRace.

(** The columns that a completion signal does not write. *)
Definition keptByCallback (r : CallEntity.t) :=
  (CallEntity.id r, CallEntity.payload r, CallEntity.attempts r,
   CallEntity.createdAt r, CallEntity.startedAt r, CallEntity.externalCallId r).

(** The columns that a failed dispatch does not write. *)
Definition keptByFailure (r : CallEntity.t) :=
  (CallEntity.id r, CallEntity.payload r, CallEntity.createdAt r,
   CallEntity.startedAt r, CallEntity.externalCallId r).

(** One turn of dispatch at time [now]: the claim, and [processCall] for the
    call that was claimed, the provider answering with [outcome]. *)
Definition dispatchTurn (maxRetryAttempts : Z) (outcome : AICallService.AxiosOutcome)
           (w : World) (now : Z) : World :=
  match CallRepository.fetchAndLockPendingCall now w with
  | (Ok (Some callEntity), w1) =>
      snd (CallService.processCall maxRetryAttempts now callEntity outcome w1)
  | (_, w1) => w1
  end.

(** Turns at the given times, one after the other. *)
Definition dispatchTurns (maxRetryAttempts : Z) (outcome : AICallService.AxiosOutcome)
           (times : list Z) (w : World) : World :=
  foldl (dispatchTurn maxRetryAttempts outcome) w times.

(** Whether a character occurs in a string. *)
Fixpoint hasChar (c : ascii) (s : string) : bool :=
  match s with
  | EmptyString => false
  | String c' s' => Ascii.eqb c' c || hasChar c s'
  end.

(** The order of a listing: newer calls first. *)
Definition newerFirst (a b : CallEntity.t) : Prop :=
  CallEntity.createdAt b <= CallEntity.createdAt a.

(** The calls of page [p] of a listing with [limit] rows a page. *)
Definition pageOf (status : option CallStatus) (limit : Z) (w : World) (p : nat)
  : list Call.t :=
  match fst (CallService.getCallsByStatus
               {| q_status := status; q_page := Some (Z.of_nat p); q_limit := Some limit |} w)
  with
  | Ok page => CallService.pg_calls page
  | Throw _ => []
  end.

(* ===================================================================== *)
(** ** Concurrent claimers                                                *)
(* ===================================================================== *)

(** Several invocations of [fetchAndLockPendingCall] (of one process or of
    several) share the table.  Each invocation issues its three statements in
    order, and statements of different invocations interleave in any way. *)
Module ClaimRace.

(** Where an invocation stands. *)
Inductive Pc :=
| AtSelect
| AtUpdate (pendingCall : CallEntity.t)
| AtReload (i : string)
| Returned (result : option CallEntity.t).

(** The next statement of an invocation, issued at time [now]. *)
Definition step (now : Z) (tbl : list CallEntity.t) (pc : Pc) : list CallEntity.t * Pc :=
  match pc with
  | AtSelect =>
      match Sql.selectOldestWithStatus PENDING tbl with
      | None => (tbl, Returned None)
      | Some pendingCall => (tbl, AtUpdate pendingCall)
      end
  | AtUpdate pendingCall =>
      let updateResult :=
        Sql.updateWhere now (CallRepository.lockWhere (CallEntity.id pendingCall))
                        (CallRepository.lockSet now) tbl in
      if snd updateResult =? 0 then (fst updateResult, Returned None)
      else (fst updateResult, AtReload (CallEntity.id pendingCall))
  | AtReload i => (tbl, Returned (Sql.selectById tbl i))
  | Returned result => (tbl, Returned result)
  end.

Record Config := {
  table : list CallEntity.t;
  workers : list Pc
}.

(** One scheduling decision: invocation [k] issues its next statement at
    time [now]. *)
Definition schedule1 (cfg : Config) (ev : nat * Z) : Config :=
  match workers cfg !! fst ev with
  | None => cfg
  | Some pc =>
      let next := step (snd ev) (table cfg) pc in
      {| table := fst next; workers := <[fst ev := snd next]> (workers cfg) |}
  end.

Definition run (sched : list (nat * Z)) (cfg : Config) : Config :=
  foldl schedule1 cfg sched.

(** [n] invocations that have just been called. *)
Definition start (tbl : list CallEntity.t) (n : nat) : Config :=
  {| table := tbl; workers := replicate n AtSelect |}.

(** How many statements the schedule gives to invocation [k]. *)
Definition stepsOf (k : nat) (sched : list (nat * Z)) : nat :=
  length (List.filter (fun ev => Nat.eqb (fst ev) k) sched).

(** How many statements an invocation has behind it (3: it has returned). *)
Definition stage (pc : Pc) : nat :=
  match pc with
  | AtSelect => 0
  | AtUpdate _ => 1
  | AtReload _ => 2
  | Returned _ => 3
  end.

(** The table once [pending] has been claimed at time [t], and the claimed
    row. *)
Definition lockedTable (tbl : list CallEntity.t) (pending : CallEntity.t) (t : Z)
  : list CallEntity.t :=
  fst (Sql.updateWhere t (CallRepository.lockWhere (CallEntity.id pending))
                       (CallRepository.lockSet t) tbl).

Definition claimedRow (pending : CallEntity.t) (t : Z) : CallEntity.t :=
  Sql.setColumns t (CallRepository.lockSet t) pending.

(** An invocation that has not won the record. *)
Definition loser (pending : CallEntity.t) (pc : Pc) : Prop :=
  pc = AtSelect \/ pc = AtUpdate pending \/ pc = Returned None.

(** No invocation has updated the record yet. *)
Definition Unclaimed (tbl : list CallEntity.t) (pending : CallEntity.t) (cfg : Config) : Prop :=
  table cfg = tbl
  /\ forall (k : nat) (pc : Pc),
       workers cfg !! k = Some pc -> pc = AtSelect \/ pc = AtUpdate pending.

(** Invocation [winner] has updated the record at time [t]; it is about to
    reload it or has returned it, and all the others are losers. *)
Definition ClaimedBy (tbl : list CallEntity.t) (pending : CallEntity.t)
           (winner : nat) (t : Z) (cfg : Config) : Prop :=
  table cfg = lockedTable tbl pending t
  /\ (workers cfg !! winner = Some (AtReload (CallEntity.id pending))
      \/ workers cfg !! winner = Some (Returned (Some (claimedRow pending t))))
  /\ forall (k : nat) (pc : Pc),
       k <> winner -> workers cfg !! k = Some pc -> loser pending pc.

Definition Inv (tbl : list CallEntity.t) (pending : CallEntity.t) (cfg : Config) : Prop :=
  Unclaimed tbl pending cfg
  \/ exists (winner : nat) (t : Z), ClaimedBy tbl pending winner t cfg.

End ClaimRace.

(** The columns of a row other than [updatedAt]. *)
Definition content (r : CallEntity.t) :=
  (CallEntity.id r, CallEntity.payload r, CallEntity.status r, CallEntity.attempts r,
   CallEntity.lastError r, CallEntity.createdAt r, CallEntity.startedAt r,
   CallEntity.endedAt r, CallEntity.externalCallId r).

(* ===================================================================== *)
(** ** The failure classes of the specification                           *)
(* ===================================================================== *)

(** The outcomes of a dispatch in the words of the specification, on what
    becomes of the request, to compare with what [AICallService.initiateCall]
    makes of it. *)
Module DispatchSpec.

(** The connection could not be made, or broke. *)
Definition connectionFailure (x : Axios.Exchange) : Prop :=
  exists errno message : string, x = Axios.SocketError errno message.

(** The provider did not answer in time: the request ran into its timeout,
    or the socket timed out. *)
Definition timeout (x : Axios.Exchange) : Prop :=
  x = Axios.NoResponseInTime
  \/ exists message : string, x = Axios.SocketError "ETIMEDOUT" message.

Definition http5xx (x : Axios.Exchange) : Prop :=
  exists (s : Z) (data : AICallResponse), x = Axios.Response s data /\ 500 <= s <= 599.

Definition http429 (x : Axios.Exchange) : Prop :=
  exists data : AICallResponse, x = Axios.Response 429 data.

Definition otherHttp4xx (x : Axios.Exchange) : Prop :=
  exists (s : Z) (data : AICallResponse),
    x = Axios.Response s data /\ 400 <= s <= 499 /\ s <> 429.

Definition retryable (x : Axios.Exchange) : Prop :=
  connectionFailure x \/ timeout x \/ http5xx x \/ http429 x.

(** The provider's "accepted" response carrying a correlation id. *)
Definition accepted (x : Axios.Exchange) : Prop :=
  exists (data : AICallResponse) (callId : string),
    x = Axios.Response 202 data /\ ai_callId data = Some callId.

End DispatchSpec.

(* ===================================================================== *)
(** ** Sample rows                                                        *)
(* ===================================================================== *)

(** A call that has been claimed for its first attempt. *)
Definition firstAttempt : CallEntity.t :=
  {| CallEntity.id := "c1";
     CallEntity.payload :=
       {[ "to"%string := JString "+966501234567";
          "scriptId"%string := JString "welcomeFlow" ]};
     CallEntity.status := IN_PROGRESS;
     CallEntity.attempts := 0;
     CallEntity.lastError := None;
     CallEntity.createdAt := 100;
     CallEntity.startedAt := Some 500;
     CallEntity.endedAt := None;
     CallEntity.updatedAt := 500;
     CallEntity.externalCallId := None |}.

(** A call that has failed twice and has been claimed again. *)
Definition thirdFailure : CallEntity.t :=
  {| CallEntity.id := "c1";
     CallEntity.payload := ∅;
     CallEntity.status := IN_PROGRESS;
     CallEntity.attempts := 2;
     CallEntity.lastError := Some "connect ECONNREFUSED";
     CallEntity.createdAt := 100;
     CallEntity.startedAt := Some 9000;
     CallEntity.endedAt := None;
     CallEntity.updatedAt := 9000;
     CallEntity.externalCallId := None |}.

(** A call that waits to be claimed. *)
Definition waitingCall : CallEntity.t :=
  {| CallEntity.id := "c1";
     CallEntity.payload :=
       {[ "to"%string := JString "+966501234567";
          "scriptId"%string := JString "welcomeFlow" ]};
     CallEntity.status := PENDING;
     CallEntity.attempts := 0;
     CallEntity.lastError := None;
     CallEntity.createdAt := 100;
     CallEntity.startedAt := None;
     CallEntity.endedAt := None;
     CallEntity.updatedAt := 100;
     CallEntity.externalCallId := None |}.

(** A call that the provider accepted and reported as completed. *)
Definition completedCall : CallEntity.t :=
  {| CallEntity.id := "c1";
     CallEntity.payload :=
       {[ "to"%string := JString "+966501234567";
          "scriptId"%string := JString "welcomeFlow" ]};
     CallEntity.status := COMPLETED;
     CallEntity.attempts := 0;
     CallEntity.lastError := None;
     CallEntity.createdAt := 100;
     CallEntity.startedAt := Some 500;
     CallEntity.endedAt := Some 2000;
     CallEntity.updatedAt := 2100;
     CallEntity.externalCallId := Some "ext-1" |}.

(** A call that the provider accepted and has not reported on yet. *)
Definition acceptedCall : CallEntity.t :=
  {| CallEntity.id := "c1";
     CallEntity.payload :=
       {[ "to"%string := JString "+966501234567";
          "scriptId"%string := JString "welcomeFlow" ]};
     CallEntity.status := IN_PROGRESS;
     CallEntity.attempts := 0;
     CallEntity.lastError := None;
     CallEntity.createdAt := 100;
     CallEntity.startedAt := Some 500;
     CallEntity.endedAt := None;
     CallEntity.updatedAt := 600;
     CallEntity.externalCallId := Some "ext-1" |}.

(** An interleaving of the statements of three invocations. *)
Definition raceSchedule : list (nat * Z) :=
  [(0%nat, 1000); (1%nat, 1001); (2%nat, 1002); (1%nat, 1003); (0%nat, 1004);
   (2%nat, 1005); (2%nat, 1006); (1%nat, 1007); (0%nat, 1008)].

(** A second call, to another destination. *)
Definition otherCall : CallEntity.t :=
  {| CallEntity.id := "c2";
     CallEntity.payload :=
       {[ "to"%string := JString "+14155550100";
          "scriptId"%string := JString "welcomeFlow" ]};
     CallEntity.status := PENDING;
     CallEntity.attempts := 0;
     CallEntity.lastError := None;
     CallEntity.createdAt := 200;
     CallEntity.startedAt := None;
     CallEntity.endedAt := None;
     CallEntity.updatedAt := 200;
     CallEntity.externalCallId := None |}.

(** A create request for a destination no call has. *)
Definition newRequest : CreateCallRequest :=
  {| req_to := "+442071838750"; req_scriptId := "welcomeFlow"; req_metadata := None |}.

(** A 503 from the provider. *)
Definition unavailable : AICallService.CaughtError :=
  {| AICallService.code := None;
     AICallService.response_status := Some 503;
     AICallService.message := "Request failed with status code 503" |}.

(* ===================================================================== *)
(** * Properties                                                          *)
(* ===================================================================== *)

(** ** Statements and the monad *)

Lemma CallStatus_eqb_eq (a b : CallStatus) : CallStatus_eqb a b = true <-> a = b.
Proof. destruct a, b; simpl; split; intros H; try reflexivity; discriminate H. Qed.

Lemma setColumns_id (now : Z) (u : Partial.t) (r : CallEntity.t) :
  CallEntity.id (Sql.setColumns now u r) = CallEntity.id r.
Proof. reflexivity. Qed.

(** Looking a row up by its key after an update that keeps keys. *)
Lemma selectById_map (f : CallEntity.t -> CallEntity.t) (tbl : list CallEntity.t) (i : string) :
  (forall r, CallEntity.id (f r) = CallEntity.id r) ->
  Sql.selectById (map f tbl) i = f <$> Sql.selectById tbl i.
Proof.
  intros Hid. unfold Sql.selectById.
  induction tbl as [|r tbl IH]; simpl; [reflexivity|].
  rewrite Hid. destruct (String.eqb (CallEntity.id r) i); [reflexivity|exact IH].
Qed.

Lemma selectById_Some (tbl : list CallEntity.t) (i : string) (r : CallEntity.t) :
  Sql.selectById tbl i = Some r -> r ∈ tbl /\ CallEntity.id r = i.
Proof.
  unfold Sql.selectById. intros H. apply find_some in H as [Hin Heq].
  split; [by apply list_elem_of_In|by apply String.eqb_eq].
Qed.

(** After [UPDATE ... WHERE id = i], the row of key [i] carries the update. *)
Lemma selectById_updateWhere_id (now : Z) (u : Partial.t) (tbl : list CallEntity.t)
      (i : string) (r : CallEntity.t) :
  Sql.selectById tbl i = Some r ->
  Sql.selectById
    (fst (Sql.updateWhere now (fun r => String.eqb (CallEntity.id r) i) u tbl)) i
  = Some (Sql.setColumns now u r).
Proof.
  intros Hsel. simpl. rewrite selectById_map.
  - rewrite Hsel. simpl. apply selectById_Some in Hsel as [_ Hid].
    apply String.eqb_eq in Hid. by rewrite Hid.
  - intros r0. by destruct (String.eqb (CallEntity.id r0) i).
Qed.

(** [findById] and [updateById] for an id that has a row. *)
Lemma findById_found (i : string) (w : World) (r : CallEntity.t) :
  Sql.selectById (calls w) i = Some r ->
  CallRepository.findById i w = (Ok (Some r), w).
Proof.
  intros Hsel. unfold CallRepository.findById, mbind, M_bind, getCalls.
  by rewrite Hsel.
Qed.

Lemma updateById_run (now : Z) (i : string) (u : Partial.t) (w : World) (r : CallEntity.t) :
  Sql.selectById (calls w) i = Some r ->
  CallRepository.updateById now i u w =
  (Ok (Sql.selectById
         (fst (Sql.updateWhere now (fun r => String.eqb (CallEntity.id r) i) u (calls w))) i),
   {| calls := fst (Sql.updateWhere now (fun r => String.eqb (CallEntity.id r) i) u (calls w));
      queue := queue w |}).
Proof.
  intros Hsel. pose proof (selectById_updateWhere_id now u _ _ _ Hsel) as Hupd.
  unfold CallRepository.updateById, CallRepository.findById, mbind, M_bind, getCalls, putCalls.
  cbn [calls queue]. by rewrite Hupd.
Qed.

(** [findById] writes nothing, and raises an error only for an id that has
    no row and does not read as a uuid. *)
Lemma findById_cases (i : string) (w : World) :
  (exists r, Sql.selectById (calls w) i = Some r
             /\ CallRepository.findById i w = (Ok (Some r), w))
  \/ (Sql.selectById (calls w) i = None /\ Sql.isUuid i = true
      /\ CallRepository.findById i w = (Ok None, w))
  \/ (Sql.selectById (calls w) i = None /\ Sql.isUuid i = false
      /\ CallRepository.findById i w = (Throw (Sql.invalidUuid i), w)).
Proof.
  unfold CallRepository.findById, mbind, M_bind, getCalls.
  destruct (Sql.selectById (calls w) i) as [r|]; [left; by exists r|].
  right. destruct (Sql.isUuid i); [left|right]; done.
Qed.

Lemma findById_snd (i : string) (w : World) : snd (CallRepository.findById i w) = w.
Proof.
  destruct (findById_cases i w) as [(r & _ & ->)|[(_ & _ & ->)|(_ & _ & ->)]]; reflexivity.
Qed.

Lemma selectById_elem (tbl : list CallEntity.t) (r : CallEntity.t) :
  r ∈ tbl -> exists stored, Sql.selectById tbl (CallEntity.id r) = Some stored.
Proof.
  intros Hin. unfold Sql.selectById.
  destruct (find _ tbl) as [s|] eqn:E; [by exists s|].
  exfalso. apply list_elem_of_In in Hin. apply (find_none _ _ E) in Hin.
  by rewrite String.eqb_refl in Hin.
Qed.

(** Whether it returns or raises, [updateById] leaves the updated table. *)
Lemma updateById_cases (now : Z) (i : string) (u : Partial.t) (w : World) :
  let w' :=
    {| calls := fst (Sql.updateWhere now (fun r => String.eqb (CallEntity.id r) i) u (calls w));
       queue := queue w |} in
  (exists o, CallRepository.updateById now i u w = (Ok o, w'))
  \/ (exists e, CallRepository.updateById now i u w = (Throw e, w')).
Proof.
  intros w'. unfold CallRepository.updateById, mbind, M_bind, getCalls, putCalls.
  fold w'.
  destruct (findById_cases i w') as [(r & _ & ->)|[(_ & _ & ->)|(_ & _ & ->)]];
    [left|left|right]; by eexists.
Qed.

Lemma or_default_number (a : Z) : CallService.or_default (Some a) 0 = a.
Proof.
  unfold CallService.or_default. destruct (a =? 0) eqn:E; [|reflexivity].
  apply Z.eqb_eq in E. by subst.
Qed.

Lemma id_nonempty (c : CallEntity.t) :
  CallEntity.id c <> ""%string -> String.eqb (CallEntity.id c) "" = false.
Proof. intros H. by apply String.eqb_neq. Qed.

(** ** The retry scheduler *)

(** C4: a failure that is not retryable, or whose new attempt count has
    reached [maxRetryAttempts], makes the record FAILED with the new attempt
    count, the failure message as [lastError] and [endedAt] the time of the
    failure, and adds nothing to the queue. *)
Theorem C4_permanent_failure (maxRetryAttempts now : Z) (callEntity stored : CallEntity.t)
        (error : JsError) (w : World) :
  CallEntity.id callEntity <> ""%string ->
  Sql.selectById (calls w) (CallEntity.id callEntity) = Some stored ->
  (instanceof_RetryableError error = false
   \/ maxRetryAttempts <= CallEntity.attempts callEntity + 1) ->
  exists (w' : World) (updated : CallEntity.t),
    CallService.handleCallFailure maxRetryAttempts now callEntity error w = (Ok tt, w')
    /\ Sql.selectById (calls w') (CallEntity.id callEntity) = Some updated
    /\ CallEntity.status updated = FAILED
    /\ CallEntity.attempts updated = CallEntity.attempts callEntity + 1
    /\ CallEntity.lastError updated = Some (err_message error)
    /\ CallEntity.endedAt updated = Some now
    /\ queue w' = queue w.
Proof.
  intros Hid Hsel Hcond.
  unfold CallService.handleCallFailure.
  rewrite (id_nonempty _ Hid), or_default_number.
  assert (instanceof_RetryableError error
          && (CallEntity.attempts callEntity + 1 <? maxRetryAttempts) = false) as ->.
  { destruct Hcond as [-> | Hmax]; [reflexivity|].
    apply andb_false_iff. right. apply Z.ltb_ge. lia. }
  unfold mbind, M_bind. rewrite (updateById_run _ _ _ _ _ Hsel).
  eexists _, _. split; [reflexivity|]. cbn [calls queue].
  rewrite (selectById_updateWhere_id _ _ _ _ _ Hsel).
  repeat split; reflexivity.
Qed.

Lemma C4_permanent_failure_witness :
  exists (w' : World) (updated : CallEntity.t),
    CallService.handleCallFailure 3 9500 thirdFailure
      {| err_class := RetryableError; err_message := "connect ECONNREFUSED" |}
      {| calls := [thirdFailure]; queue := [] |} = (Ok tt, w')
    /\ Sql.selectById (calls w') "c1" = Some updated
    /\ CallEntity.status updated = FAILED
    /\ CallEntity.attempts updated = 3
    /\ CallEntity.lastError updated = Some "connect ECONNREFUSED"%string
    /\ CallEntity.endedAt updated = Some 9500
    /\ queue w' = [].
Proof.
  apply (C4_permanent_failure 3 9500 thirdFailure thirdFailure
           {| err_class := RetryableError; err_message := "connect ECONNREFUSED" |}
           {| calls := [thirdFailure]; queue := [] |}).
  - discriminate.
  - reflexivity.
  - right. simpl. lia.
Defined.

(** C3: a retryable failure below [maxRetryAttempts] makes the record PENDING
    with the new attempt count and the failure message, and enqueues it for
    [now + 2^(new attempts)] seconds; the update carries
    [startedAt: undefined], which the update statement leaves out, so the
    record keeps the [startedAt] of its claim. *)
Theorem C3_retry_keeps_startedAt (maxRetryAttempts now : Z) (callEntity stored : CallEntity.t)
        (error : JsError) (w : World) :
  CallEntity.id callEntity <> ""%string ->
  Sql.selectById (calls w) (CallEntity.id callEntity) = Some stored ->
  instanceof_RetryableError error = true ->
  CallEntity.attempts callEntity + 1 < maxRetryAttempts ->
  exists (w' : World) (updated : CallEntity.t),
    CallService.handleCallFailure maxRetryAttempts now callEntity error w = (Ok tt, w')
    /\ Sql.selectById (calls w') (CallEntity.id callEntity) = Some updated
    /\ CallEntity.status updated = PENDING
    /\ CallEntity.attempts updated = CallEntity.attempts callEntity + 1
    /\ CallEntity.lastError updated = Some (err_message error)
    /\ CallEntity.startedAt updated = CallEntity.startedAt stored
    /\ queue w' =
       queue w ++ [{| qi_callId := CallEntity.id callEntity;
                      qi_scheduledAt :=
                        now + 2 ^ (CallEntity.attempts callEntity + 1) * 1000 |}].
Proof.
  intros Hid Hsel Hretry Hmax.
  unfold CallService.handleCallFailure.
  rewrite (id_nonempty _ Hid), or_default_number, Hretry.
  assert ((CallEntity.attempts callEntity + 1 <? maxRetryAttempts) = true) as ->
    by (apply Z.ltb_lt; lia).
  cbn [andb]. unfold mbind, M_bind. rewrite (updateById_run _ _ _ _ _ Hsel).
  eexists _, _. split; [reflexivity|]. cbn [calls queue].
  rewrite (selectById_updateWhere_id _ _ _ _ _ Hsel).
  split; [reflexivity|]. cbn. by destruct (CallEntity.startedAt stored).
Qed.

Lemma C3_retry_keeps_startedAt_witness :
  exists (w' : World) (updated : CallEntity.t),
    CallService.handleCallFailure 3 1000 firstAttempt
      {| err_class := RetryableError; err_message := "connect ECONNREFUSED" |}
      {| calls := [firstAttempt]; queue := [] |} = (Ok tt, w')
    /\ Sql.selectById (calls w') "c1" = Some updated
    /\ CallEntity.status updated = PENDING
    /\ CallEntity.attempts updated = 1
    /\ CallEntity.lastError updated = Some "connect ECONNREFUSED"%string
    /\ CallEntity.startedAt updated = Some 500
    /\ queue w' = [{| qi_callId := "c1"; qi_scheduledAt := 3000 |}].
Proof.
  apply (C3_retry_keeps_startedAt 3 1000 firstAttempt firstAttempt
           {| err_class := RetryableError; err_message := "connect ECONNREFUSED" |}
           {| calls := [firstAttempt]; queue := [] |}).
  - discriminate.
  - reflexivity.
  - reflexivity.
  - simpl. lia.
Defined.

(** C2: the claim does not look at the queue.  A record returned to PENDING
    by a retryable failure at time 1000 is due at 1000 + 2^1 s = 3000; a
    claim at any time [t], also before 3000, returns it. *)
Theorem C2_claimed_before_eligibility (t : Z) :
  let w1 :=
    snd (CallService.handleCallFailure 3 1000 firstAttempt
           {| err_class := RetryableError; err_message := "connect ECONNREFUSED" |}
           {| calls := [firstAttempt]; queue := [] |}) in
  queue w1 = [{| qi_callId := "c1"; qi_scheduledAt := 1000 + 2 ^ 1 * 1000 |}]
  /\ CallEntity.status <$> Sql.selectById (calls w1) "c1" = Some PENDING
  /\ CallEntity.attempts <$> Sql.selectById (calls w1) "c1" = Some 1
  /\ match fst (CallRepository.fetchAndLockPendingCall t w1) with
     | Ok (Some claimed) =>
         CallEntity.id claimed = "c1"%string
         /\ CallEntity.status claimed = IN_PROGRESS
         /\ CallEntity.startedAt claimed = Some t
     | _ => False
     end.
Proof. vm_compute. repeat split; reflexivity. Qed.

(** The claim reads the table only: whatever the queue holds, it returns the
    same record and leaves the same table. *)
Lemma fetchAndLockPendingCall_ignores_queue (now : Z) (tbl : list CallEntity.t)
      (q1 q2 : list QueueItem) :
  fst (CallRepository.fetchAndLockPendingCall now {| calls := tbl; queue := q1 |})
  = fst (CallRepository.fetchAndLockPendingCall now {| calls := tbl; queue := q2 |})
  /\ calls (snd (CallRepository.fetchAndLockPendingCall now {| calls := tbl; queue := q1 |}))
     = calls (snd (CallRepository.fetchAndLockPendingCall now {| calls := tbl; queue := q2 |})).
Proof.
  unfold CallRepository.fetchAndLockPendingCall, mbind, M_bind, getCalls, putCalls.
  cbn [calls queue].
  destruct (Sql.selectOldestWithStatus PENDING tbl) as [p|].
  - destruct (snd _ =? 0); [split; reflexivity|].
    unfold CallRepository.findById, mbind, M_bind, getCalls, throw. cbn [calls].
    destruct (Sql.selectById _ _); [|destruct (Sql.isUuid _)]; split; reflexivity.
  - split; reflexivity.
Qed.

(** ** The completion correlator *)

(** C6: for a signal whose correlation id matches a record, COMPLETED makes
    the record COMPLETED, each of FAILED, BUSY and NO_ANSWER makes it FAILED
    with [lastError] naming the outcome, and [endedAt] becomes the
    [completedAt] of the signal. *)
Theorem C6_completion_mapping (now : Z) (payload : WebhookCallbackPayload)
        (callEntity : CallEntity.t) (w : World) :
  fst (CallRepository.findByExternalCallId (wh_callId payload) w) = Ok (Some callEntity) ->
  exists (w' : World) (updated : CallEntity.t),
    CallService.handleWebhookCallback now payload w = (Ok tt, w')
    /\ Sql.selectById (calls w') (CallEntity.id callEntity) = Some updated
    /\ CallEntity.status updated =
       match wh_status payload with
       | P_COMPLETED => COMPLETED
       | P_FAILED | P_BUSY | P_NO_ANSWER => FAILED
       end
    /\ match wh_status payload with
       | P_COMPLETED => True
       | P_FAILED => CallEntity.lastError updated = Some "AI call FAILED"%string
       | P_BUSY => CallEntity.lastError updated = Some "AI call BUSY"%string
       | P_NO_ANSWER => CallEntity.lastError updated = Some "AI call NO_ANSWER"%string
       end
    /\ CallEntity.endedAt updated = Some (wh_completedAt payload).
Proof.
  intros Hfound.
  unfold CallService.handleWebhookCallback, mbind, M_bind.
  destruct (CallRepository.findByExternalCallId (wh_callId payload) w) as [res w0] eqn:Hrun.
  simpl in Hfound. subst res.
  assert (w0 = w) as -> by (by inversion Hrun).
  assert (exists stored, Sql.selectById (calls w) (CallEntity.id callEntity) = Some stored)
    as [stored Hsel].
  { inversion Hrun as [Hfind]. apply find_some in Hfind as [Hin _].
    unfold Sql.selectById.
    destruct (find _ (calls w)) as [s|] eqn:E; [by exists s|].
    exfalso. apply (find_none _ _ E) in Hin. by rewrite String.eqb_refl in Hin. }
  rewrite (updateById_run _ _ _ _ _ Hsel).
  eexists _, _. split; [reflexivity|]. cbn [calls queue].
  rewrite (selectById_updateWhere_id _ _ _ _ _ Hsel).
  split; [reflexivity|]. by destruct (wh_status payload).
Qed.

(** ** The update request *)

(** C10: updating a PENDING call merges the payload delta into the stored
    payload: a key the delta names gets the delta's value, every other key
    keeps its value, and [id], [status], [attempts], [lastError],
    [createdAt], [startedAt] and [endedAt] stay as they were. *)
Theorem C10_update_merges_payload (now : Z) (i : string) (request : UpdateCallRequest)
        (existing : CallEntity.t) (w : World) :
  Sql.selectById (calls w) i = Some existing ->
  CallEntity.status existing = PENDING ->
  exists (w' : World) (call : Call.t),
    CallService.updateCall now i request w = (Ok (Some call), w')
    /\ CallService.entityToCall <$> Sql.selectById (calls w') i = Some call
    /\ (forall k : string,
          default ∅ (upd_payload request) !! k = None ->
          Call.payload call !! k = CallEntity.payload existing !! k)
    /\ (forall (k : string) (v : JsonValue),
          default ∅ (upd_payload request) !! k = Some v ->
          Call.payload call !! k = Some v)
    /\ Call.id call = CallEntity.id existing
    /\ Call.status call = CallEntity.status existing
    /\ Call.attempts call = CallEntity.attempts existing
    /\ Call.lastError call = CallEntity.lastError existing
    /\ Call.createdAt call = CallEntity.createdAt existing
    /\ Call.startedAt call = CallEntity.startedAt existing
    /\ Call.endedAt call = CallEntity.endedAt existing.
Proof.
  intros Hsel Hpending.
  unfold CallService.updateCall, mbind, M_bind.
  rewrite (findById_found _ _ _ Hsel), Hpending. cbn [CallStatus_eqb negb].
  rewrite (updateById_run _ _ _ _ _ Hsel), (selectById_updateWhere_id _ _ _ _ _ Hsel).
  eexists _, _. split; [reflexivity|]. cbn [calls queue].
  rewrite (selectById_updateWhere_id _ _ _ _ _ Hsel).
  split; [reflexivity|].
  split; [intros k Hk; cbn; by apply lookup_union_r|].
  split; [intros k v Hk; cbn; by apply lookup_union_Some_l|].
  cbn.
  destruct (CallEntity.lastError existing), (CallEntity.startedAt existing),
    (CallEntity.endedAt existing); repeat split; try reflexivity; by rewrite Hpending.
Qed.

(** ** The failure classifier *)

(** What [initiateCall] makes of a response, whatever its status: the body
    for a 202; a retryable error for a status from 500 on and for 429; a
    non-retryable one for every other status, 2xx other than 202 included. *)
Lemma initiateCall_response (timeout status : Z) (data : AICallResponse) :
  AICallService.initiateCall (Axios.post timeout (Axios.Response status data))
  = if status =? 202 then Ok data
    else Throw {| err_class :=
                    if (500 <=? status) || (status =? 429)
                    then RetryableError else NonRetryableError;
                  err_message :=
                    if (200 <=? status) && (status <? 300)
                    then "Unexpected response status: " +:+ AICallService.decimal status
                    else "Request failed with status code "
                         +:+ AICallService.decimal status |}.
Proof.
  unfold Axios.post, AICallService.initiateCall, AICallService.classify,
    AICallService.isRetryableError, AICallService.code_is.
  destruct ((200 <=? status) && (status <? 300)) eqn:E2.
  - apply andb_true_iff in E2 as [Hlo Hhi]. apply Z.leb_le in Hlo. apply Z.ltb_lt in Hhi.
    destruct (status =? 202); [reflexivity|]. cbn.
    assert ((500 <=? status) = false) as -> by (apply Z.leb_gt; lia).
    assert ((status =? 429) = false) as -> by (apply Z.eqb_neq; lia).
    reflexivity.
  - assert ((status =? 202) = false) as ->.
    { apply Z.eqb_neq. intros ->. discriminate E2. }
    cbn [AICallService.code AICallService.response_status AICallService.message].
    destruct ((400 <=? status) && (status <? 500));
      [|destruct ((500 <=? status) && (status <? 600))];
      cbn; by destruct (500 <=? status), (status =? 429).
Qed.

(** Of the errors of the socket, the classifier retries two. *)
Lemma initiateCall_socket_error (timeout : Z) (errno message : string) :
  AICallService.initiateCall (Axios.post timeout (Axios.SocketError errno message))
  = Throw {| err_class :=
               if String.eqb errno "ECONNREFUSED" || String.eqb errno "ETIMEDOUT"
               then RetryableError else NonRetryableError;
             err_message := message |}.
Proof.
  unfold Axios.post, AICallService.initiateCall, AICallService.classify,
    AICallService.isRetryableError, AICallService.code_is.
  cbn [AICallService.code AICallService.response_status AICallService.message].
  by destruct (String.eqb errno "ECONNREFUSED" || String.eqb errno "ETIMEDOUT").
Qed.

(** C7: three outcomes that the classifier does not treat as the claim says.
    When the provider does not answer within the 30 seconds of the request's
    [timeout], axios rejects with the code ECONNABORTED, which
    [isRetryableError] does not test: this timeout is classified
    non-retryable, and the call fails for good at its first attempt, with
    nothing enqueued.  A connection that is reset is not retried either.  And
    a 202 whose body carries no call id counts as success: the call stays
    IN_PROGRESS with no external call id. *)
Theorem C7_timeout_not_retried :
  let w := {| calls := [firstAttempt]; queue := [] |} in
  let bare := {| ai_callId := None; ai_status := Some "queued"%string |} in
  let timedOut := Axios.post AICallService.requestTimeout Axios.NoResponseInTime in
  let reset :=
    Axios.post AICallService.requestTimeout
               (Axios.SocketError "ECONNRESET" "socket hang up") in
  let accepted := Axios.post AICallService.requestTimeout (Axios.Response 202 bare) in
  let w1 := snd (CallService.processCall 3 1000 firstAttempt timedOut w) in
  let w2 := snd (CallService.processCall 3 1000 firstAttempt accepted w) in
  (DispatchSpec.timeout Axios.NoResponseInTime
   /\ DispatchSpec.retryable Axios.NoResponseInTime
   /\ AICallService.initiateCall timedOut
      = Throw {| err_class := NonRetryableError;
                 err_message := "timeout of 30000ms exceeded" |}
   /\ CallEntity.attempts firstAttempt + 1 < 3
   /\ CallEntity.status <$> Sql.selectById (calls w1) "c1" = Some FAILED
   /\ CallEntity.attempts <$> Sql.selectById (calls w1) "c1" = Some 1
   /\ CallEntity.endedAt <$> Sql.selectById (calls w1) "c1" = Some (Some 1000)
   /\ queue w1 = [])
  /\ (DispatchSpec.connectionFailure (Axios.SocketError "ECONNRESET" "socket hang up")
      /\ AICallService.initiateCall reset
         = Throw {| err_class := NonRetryableError; err_message := "socket hang up" |})
  /\ (~ DispatchSpec.accepted (Axios.Response 202 bare)
      /\ AICallService.initiateCall accepted = Ok bare
      /\ fst (CallService.processCall 3 1000 firstAttempt accepted w) = Ok tt
      /\ CallEntity.status <$> Sql.selectById (calls w2) "c1" = Some IN_PROGRESS
      /\ CallEntity.externalCallId <$> Sql.selectById (calls w2) "c1" = Some None
      /\ CallEntity.attempts <$> Sql.selectById (calls w2) "c1" = Some 0).
Proof.
  cbn zeta. split; [|split].
  - split; [by left|]. split; [right; left; by left|].
    vm_compute. repeat split; reflexivity.
  - split; [by eexists _, _|]. vm_compute. reflexivity.
  - split.
    + intros (data & callId & [= <-] & Hid). discriminate Hid.
    + vm_compute. repeat split; reflexivity.
Qed.

(** ** The list request *)

(** [Math.ceil(total / limit)] is the least number of pages of [limit] rows
    that hold [total] rows. *)
Lemma Math_ceil_div_spec (total limit : Z) :
  0 < limit ->
  (CallController.Math_ceil_div total limit - 1) * limit < total
  /\ total <= CallController.Math_ceil_div total limit * limit.
Proof.
  intros Hpos. unfold CallController.Math_ceil_div.
  pose proof (Z.div_mod (- total) limit ltac:(lia)) as Hdm.
  pose proof (Z.mod_pos_bound (- total) limit Hpos) as Hb.
  nia.
Qed.

Lemma givenAnd_true (x : option Z) (test : Z -> bool) :
  CallController.givenAnd x test = true <->
  exists v, x = Some v /\ v <> 0 /\ test v = true.
Proof.
  unfold CallController.givenAnd. destruct x as [v|].
  - rewrite andb_true_iff, negb_true_iff, Z.eqb_neq. split.
    + intros [Hv Ht]. by exists v.
    + intros (v' & [= <-] & Hv & Ht). by split.
  - split; [discriminate|]. by intros (v & Hv & _).
Qed.

(** C9, as the controller has it: a requested limit above 100 is refused with
    a validation error and nothing is read; so is a negative page; and a
    page that is returned reports a limit between 1 and 100, which is the
    requested limit when that is at least 1 and 10 when none is given, and
    [totalPages = ceil(total / limit)]. *)
Theorem C9_list_limit_rejected (query : CallListQuery) (w : World) :
  (forall l : Z, q_limit query = Some l -> 100 < l ->
     exists message : string,
       CallController.listCalls query w =
       ({| CallController.res_status := 400;
           CallController.res_body :=
             CallController.ErrorBody "Validation error" message |}, w))
  /\ (forall p : Z, q_page query = Some p -> p < 0 ->
        CallController.listCalls query w =
        ({| CallController.res_status := 400;
            CallController.res_body :=
              CallController.ErrorBody "Validation error" "Page must be greater than 0" |}, w))
  /\ (forall (data : list Call.t) (total page limit totalPages : Z) (w' : World),
        CallController.listCalls query w =
        ({| CallController.res_status := 200;
            CallController.res_body :=
              CallController.ListBody data total page limit totalPages |}, w') ->
        1 <= limit <= 100
        /\ (forall l : Z, q_limit query = Some l -> 1 <= l -> limit = l)
        /\ (q_limit query = None -> limit = 10)
        /\ (totalPages - 1) * limit < total
        /\ total <= totalPages * limit).
Proof.
  split; [|split].
  - intros l Hl Hbig. unfold CallController.listCalls.
    destruct (CallController.givenAnd (q_page query) _); [by eexists|].
    assert (CallController.givenAnd (q_limit query)
              (fun limit => (limit <? 1) || (100 <? limit)) = true) as ->.
    { apply givenAnd_true. exists l. split; [done|]. split; [lia|].
      apply orb_true_iff. right. apply Z.ltb_lt. lia. }
    by eexists.
  - intros p Hp Hneg. unfold CallController.listCalls.
    assert (CallController.givenAnd (q_page query) (fun page => page <? 1) = true) as ->.
    { apply givenAnd_true. exists p. split; [done|]. split; [lia|].
      apply Z.ltb_lt. lia. }
    reflexivity.
  - intros data total page limit totalPages w'. unfold CallController.listCalls.
    destruct (CallController.givenAnd (q_page query) _); [discriminate|].
    destruct (CallController.givenAnd (q_limit query) _) eqn:Hlim; [discriminate|].
    destruct (CallService.getCallsByStatus query w) as [[result|e] w0] eqn:Hrun;
      [|discriminate].
    intros [= <- <- <- <- <- <-].
    assert (CallService.pg_limit result = CallService.or_default (q_limit query) 10) as Hl.
    { unfold CallService.getCallsByStatus, mbind, M_bind in Hrun.
      destruct (CallRepository.findWithPagination query w) as [[[cs t]|e] w1];
        [|discriminate].
      by injection Hrun as <- _. }
    assert (1 <= CallService.or_default (q_limit query) 10 <= 100) as Hrange.
    { unfold CallService.or_default. destruct (q_limit query) as [l|]; [|lia].
      destruct (l =? 0) eqn:E0; [lia|]. apply Z.eqb_neq in E0.
      destruct (decide (1 <= l <= 100)) as [?|Hout]; [done|].
      exfalso. assert (CallController.givenAnd (Some l)
                         (fun limit => (limit <? 1) || (100 <? limit)) = true) as Ht.
      { apply givenAnd_true. exists l. split; [done|]. split; [done|].
        apply orb_true_iff. destruct (decide (l < 1)); [left; by apply Z.ltb_lt|].
        right. apply Z.ltb_lt. lia. }
      rewrite Ht in Hlim. discriminate. }
    rewrite Hl. split; [exact Hrange|]. split; [|split].
    + intros l Hq Hpos. rewrite Hq. unfold CallService.or_default.
      by assert ((l =? 0) = false) as -> by (apply Z.eqb_neq; lia).
    + by intros ->.
    + apply Math_ceil_div_spec. lia.
Qed.

(** ** Creation *)

Lemma createCall_active_throws (newId : string) (now : Z) (request : CreateCallRequest)
      (existing : CallEntity.t) (w : World) :
  find (CallRepository.isActiveFor (req_to request)) (calls w) = Some existing ->
  exists e : JsError,
    CallService.createCall newId now request w = (Throw e, w)
    /\ err_class e = PlainError.
Proof.
  intros Hfind. unfold CallService.createCall, mbind, M_bind.
  change (CallRepository.findActiveCallByPhoneNumber (req_to request) w)
    with (Ok (find (CallRepository.isActiveFor (req_to request)) (calls w)), w).
  rewrite Hfind. by eexists.
Qed.

Lemma createCall_inactive_inserts (newId : string) (now : Z) (request : CreateCallRequest)
      (w : World) :
  find (CallRepository.isActiveFor (req_to request)) (calls w) = None ->
  exists (call : Call.t) (row : CallEntity.t),
    CallService.createCall newId now request w =
    (Ok call, {| calls := calls w ++ [row]; queue := queue w |})
    /\ call = CallService.entityToCall row
    /\ Call.id call = newId
    /\ Call.status call = PENDING
    /\ Call.attempts call = 0
    /\ Call.payload call !! "to"%string = Some (JString (req_to request)).
Proof.
  intros Hfind. unfold CallService.createCall, mbind, M_bind.
  change (CallRepository.findActiveCallByPhoneNumber (req_to request) w)
    with (Ok (find (CallRepository.isActiveFor (req_to request)) (calls w)), w).
  rewrite Hfind. eexists _, _. split; [reflexivity|]. cbn.
  repeat split. unfold CallService.newPayload.
  destruct (req_metadata request).
  - rewrite lookup_insert_ne; [|done]. by rewrite lookup_insert_eq.
  - by rewrite lookup_insert_eq.
Qed.

(** C8: a create request for a destination that has a PENDING call inserts
    nothing and throws a plain [Error] whose message reads "already active";
    the controller looks for "already in progress" in it, does not find it,
    and answers 500 instead of 409. *)
Theorem C8_conflict_answered_500 (newId : string) (now : Z) :
  let w := {| calls := [waitingCall]; queue := [] |} in
  let request :=
    {| req_to := "+966501234567"; req_scriptId := "welcomeFlow"; req_metadata := None |} in
  Validation.validateCreateCall request = []
  /\ CallService.createCall newId now request w =
     (Throw {| err_class := PlainError;
               err_message :=
                 "Call already active for phone number: +966501234567 (Status: PENDING)" |},
      w)
  /\ CallController.createCall newId now request w =
     ({| CallController.res_status := 500;
         CallController.res_body :=
           CallController.ErrorBody "Internal server error" "Failed to create call" |}, w).
Proof. vm_compute. repeat split; reflexivity. Qed.

(** C9 as stated fails: a limit of 500 is refused, not clamped to 100. *)
Lemma C9_limit_500_not_clamped :
  let query := {| q_status := None; q_page := Some 1; q_limit := Some 500 |} in
  let w := {| calls := [waitingCall]; queue := [] |} in
  CallController.listCalls query w =
  ({| CallController.res_status := 400;
      CallController.res_body :=
        CallController.ErrorBody "Validation error" "Limit must be between 1 and 100" |}, w)
  /\ ~ (exists (data : list Call.t) (total page totalPages : Z) (w' : World),
          CallController.listCalls query w =
          ({| CallController.res_status := 200;
              CallController.res_body :=
                CallController.ListBody data total page 100 totalPages |}, w')).
Proof.
  split; [reflexivity|].
  intros (data & total & page & totalPages & w' & H). discriminate H.
Qed.

(** ** Terminal records *)

Lemma lookup_map {A B : Type} (f : A -> B) (l : list A) (k : nat) :
  map f l !! k = f <$> l !! k.
Proof.
  revert k. induction l as [|x l IH]; intros [|k]; simpl; try reflexivity. apply IH.
Qed.

Lemma find_map {A : Type} (p : A -> bool) (f : A -> A) (l : list A) :
  (forall x, p (f x) = p x) ->
  find p (map f l) = f <$> find p l.
Proof.
  intros Hp. induction l as [|x l IH]; simpl; [reflexivity|].
  rewrite Hp. destruct (p x); [reflexivity|exact IH].
Qed.

(** The primary key: two rows of the table with the same [id] are one row. *)
Lemma primary_key (tbl : list CallEntity.t) (r1 r2 : CallEntity.t) :
  NoDup (map CallEntity.id tbl) ->
  r1 ∈ tbl -> r2 ∈ tbl -> CallEntity.id r1 = CallEntity.id r2 -> r1 = r2.
Proof.
  induction tbl as [|r tbl IH]; intros Hnd H1 H2 Hid.
  - by apply elem_of_nil in H1.
  - simpl in Hnd. apply NoDup_cons in Hnd as [Hnotin Hnd].
    apply elem_of_cons in H1 as [->|H1]; apply elem_of_cons in H2 as [->|H2].
    + reflexivity.
    + exfalso. apply Hnotin. rewrite Hid. apply list_elem_of_fmap. by exists r2.
    + exfalso. apply Hnotin. rewrite <- Hid. apply list_elem_of_fmap. by exists r1.
    + by apply IH.
Qed.

Lemma terminal_not_pending (r : CallEntity.t) :
  is_terminal (CallEntity.status r) = true -> Sql.hasStatus PENDING r = false.
Proof. unfold Sql.hasStatus. by destruct (CallEntity.status r). Qed.

(** The claim leaves a terminal row as it is. *)
Lemma claim_keeps_terminal (now : Z) (w : World) (k : nat) (r : CallEntity.t) :
  calls w !! k = Some r ->
  is_terminal (CallEntity.status r) = true ->
  calls (snd (CallRepository.fetchAndLockPendingCall now w)) !! k = Some r.
Proof.
  intros Hk Hterm.
  unfold CallRepository.fetchAndLockPendingCall, mbind, M_bind, getCalls, putCalls.
  destruct (Sql.selectOldestWithStatus PENDING (calls w)) as [p|]; [|exact Hk].
  assert (map (fun r0 => if CallRepository.lockWhere (CallEntity.id p) r0
                         then Sql.setColumns now (CallRepository.lockSet now) r0
                         else r0) (calls w) !! k = Some r) as Hrow.
  { rewrite lookup_map, Hk. simpl. unfold CallRepository.lockWhere.
    by rewrite (terminal_not_pending _ Hterm), andb_false_r. }
  destruct (snd _ =? 0); [exact Hrow|]. rewrite findById_snd. exact Hrow.
Qed.

(** The update request leaves a terminal row as it is. *)
Lemma update_keeps_terminal (now : Z) (i : string) (request : UpdateCallRequest)
      (w : World) (k : nat) (r : CallEntity.t) :
  NoDup (map CallEntity.id (calls w)) ->
  calls w !! k = Some r ->
  is_terminal (CallEntity.status r) = true ->
  calls (snd (CallService.updateCall now i request w)) !! k = Some r.
Proof.
  intros Hnd Hk Hterm.
  unfold CallService.updateCall, mbind, M_bind.
  destruct (findById_cases i w) as [(existing & Hsel & ->)|[(_ & _ & ->)|(_ & _ & ->)]];
    [|exact Hk|exact Hk].
  destruct (CallStatus_eqb (CallEntity.status existing) PENDING) eqn:Hst; [|exact Hk].
  cbn [negb]. rewrite (updateById_run _ _ _ _ _ Hsel). unfold mret, M_ret.
  cbn [snd calls fst Sql.updateWhere].
  rewrite lookup_map, Hk. simpl.
  destruct (String.eqb (CallEntity.id r) i) eqn:Hid; [|reflexivity].
  exfalso. apply String.eqb_eq in Hid. apply CallStatus_eqb_eq in Hst.
  apply selectById_Some in Hsel as [Hin Hid'].
  assert (r = existing) as ->.
  { apply (primary_key (calls w)); [done| |done|congruence].
    apply list_elem_of_lookup. by exists k. }
  rewrite Hst in Hterm. discriminate.
Qed.

(** A second delivery of a completion signal writes what the first wrote. *)
Lemma webhook_twice (now1 now2 : Z) (payload : WebhookCallbackPayload) (w : World) :
  let w1 := snd (CallService.handleWebhookCallback now1 payload w) in
  let w2 := snd (CallService.handleWebhookCallback now2 payload w1) in
  map content (calls w2) = map content (calls w1).
Proof.
  set (p := fun r : CallEntity.t =>
              match CallEntity.externalCallId r with
              | Some x => String.eqb x (wh_callId payload)
              | None => false
              end).
  assert (forall w0 : World,
            CallRepository.findByExternalCallId (wh_callId payload) w0
            = (Ok (find p (calls w0)), w0)) as Hfind by reflexivity.
  cbn zeta. unfold CallService.handleWebhookCallback, mbind, M_bind.
  rewrite (Hfind w).
  destruct (find p (calls w)) as [c|] eqn:Hc.
  - destruct (selectById_elem (calls w) c) as [stored Hsel].
    { apply find_some in Hc as [Hin _]. by apply list_elem_of_In. }
    pose proof (selectById_updateWhere_id now1
                  {| Partial.payload := None;
                     Partial.status :=
                       Some (if match wh_status payload with P_COMPLETED => true | _ => false end
                             then COMPLETED else FAILED);
                     Partial.attempts := None;
                     Partial.lastError :=
                       if match wh_status payload with P_COMPLETED => true | _ => false end
                       then None
                       else Some ("AI call " +:+ ProviderStatus_to_string (wh_status payload));
                     Partial.startedAt := None;
                     Partial.endedAt := Some (wh_completedAt payload);
                     Partial.externalCallId := None |} _ _ _ Hsel) as Hsel1.
    rewrite (updateById_run _ _ _ _ _ Hsel). cbn [snd calls fst Sql.updateWhere].
    unfold mret, M_ret. cbn [snd calls fst Sql.updateWhere].
    rewrite Hfind. cbn [calls].
    rewrite find_map, Hc.
    2:{ intros x. unfold p. destruct (String.eqb (CallEntity.id x) (CallEntity.id c)); [|done].
        cbn. by destruct (CallEntity.externalCallId x). }
    cbn [fmap option_fmap option_map].
    rewrite String.eqb_refl. erewrite updateById_run; [|exact Hsel1].
    cbn [snd calls fst Sql.updateWhere].
    rewrite !map_map. apply map_ext. intros r.
    rewrite setColumns_id.
    destruct (String.eqb (CallEntity.id r) (CallEntity.id c)) eqn:Hid.
    + rewrite setColumns_id, Hid.
      destruct (wh_status payload); cbn;
        by destruct (CallEntity.lastError r).
    + by rewrite Hid.
  - unfold mret, M_ret. cbn [snd]. rewrite (Hfind w), Hc. reflexivity.
Qed.

(** C5, as the code has it: the claim and the update request leave a terminal
    record as it is; the completion correlator does not look at the status of
    the record it finds, and a second delivery of a signal rewrites the values
    of the first, so that every column but [updatedAt] stays. *)
Theorem C5_terminal_kept_by_claim_and_update (now : Z) (w : World) (k : nat)
        (r : CallEntity.t) :
  NoDup (map CallEntity.id (calls w)) ->
  calls w !! k = Some r ->
  is_terminal (CallEntity.status r) = true ->
  calls (snd (CallRepository.fetchAndLockPendingCall now w)) !! k = Some r
  /\ (forall (i : string) (request : UpdateCallRequest),
        calls (snd (CallService.updateCall now i request w)) !! k = Some r)
  /\ (forall (now' : Z) (payload : WebhookCallbackPayload),
        let w1 := snd (CallService.handleWebhookCallback now payload w) in
        let w2 := snd (CallService.handleWebhookCallback now' payload w1) in
        map content (calls w2) = map content (calls w1)).
Proof.
  intros Hkey Hk Hterm. split; [|split].
  - by apply claim_keeps_terminal.
  - intros i request. by apply update_keeps_terminal.
  - intros now' payload. apply webhook_twice.
Qed.

(** C5 as stated fails: a late FAILED signal for a COMPLETED record is
    applied, and the record becomes FAILED. *)
Lemma C5_terminal_record_overwritten :
  let w := {| calls := [completedCall]; queue := [] |} in
  let late :=
    {| wh_callId := "ext-1"; wh_status := P_FAILED;
       wh_durationSec := None; wh_completedAt := 8000 |} in
  let w' := snd (CallService.handleWebhookCallback 9000 late w) in
  is_terminal (CallEntity.status completedCall) = true
  /\ Sql.selectById (calls w) "c1" = Some completedCall
  /\ CallEntity.status <$> Sql.selectById (calls w') "c1" = Some FAILED
  /\ CallEntity.endedAt <$> Sql.selectById (calls w') "c1" = Some (Some 8000)
  /\ CallEntity.lastError <$> Sql.selectById (calls w') "c1"
     = Some (Some "AI call FAILED"%string)
  /\ Sql.selectById (calls w') "c1" <> Some completedCall.
Proof.
  cbn zeta. repeat split; try reflexivity.
  intros H. apply (f_equal (fmap CallEntity.status)) in H. vm_compute in H. discriminate H.
Qed.

(** ** The claim race *)

Lemma oldest_elem (rows : list CallEntity.t) (r : CallEntity.t) :
  Sql.oldest rows = Some r -> r ∈ rows.
Proof.
  revert r. induction rows as [|x rows IH]; intros r; simpl; [discriminate|].
  destruct (Sql.oldest rows) as [r'|].
  - destruct (CallEntity.createdAt x <=? CallEntity.createdAt r'); intros [= <-].
    + apply list_elem_of_here.
    + by apply list_elem_of_further, IH.
  - intros [= <-]. apply list_elem_of_here.
Qed.

Lemma oldest_None (rows : list CallEntity.t) :
  Sql.oldest rows = None -> rows = [].
Proof.
  destruct rows as [|x rows]; [done|]. simpl.
  destruct (Sql.oldest rows) as [r'|]; [|discriminate].
  destruct (CallEntity.createdAt x <=? CallEntity.createdAt r'); discriminate.
Qed.

Lemma filter_none {A : Type} (p : A -> bool) (l : list A) :
  (forall x, x ∈ l -> p x = false) -> List.filter p l = [].
Proof.
  induction l as [|x l IH]; intros Hp; simpl; [reflexivity|].
  rewrite (Hp x) by apply list_elem_of_here.
  apply IH. intros y Hy. apply Hp. by apply list_elem_of_further.
Qed.

Lemma map_unchanged {A : Type} (f : A -> A) (l : list A) :
  (forall x, x ∈ l -> f x = x) -> map f l = l.
Proof.
  induction l as [|x l IH]; intros Hf; simpl; [reflexivity|].
  rewrite (Hf x) by apply list_elem_of_here. f_equal.
  apply IH. intros y Hy. apply Hf. by apply list_elem_of_further.
Qed.

Lemma selectById_key (tbl : list CallEntity.t) (r : CallEntity.t) :
  NoDup (map CallEntity.id tbl) -> r ∈ tbl ->
  Sql.selectById tbl (CallEntity.id r) = Some r.
Proof.
  intros Hkey Hin.
  destruct (Sql.selectById tbl (CallEntity.id r)) as [r'|] eqn:E.
  - apply selectById_Some in E as [Hin' Hid]. f_equal.
    by apply (primary_key tbl).
  - exfalso. unfold Sql.selectById in E.
    apply list_elem_of_In in Hin. apply (find_none _ _ E) in Hin.
    by rewrite String.eqb_refl in Hin.
Qed.

Section OnePendingRecord.

Variables (tbl : list CallEntity.t) (pending : CallEntity.t).
Hypothesis Hkey : NoDup (map CallEntity.id tbl).
Hypothesis Hin : pending ∈ tbl.
Hypothesis Hpending : CallEntity.status pending = PENDING.
Hypothesis Honly :
  forall r, r ∈ tbl -> CallEntity.status r = PENDING -> r = pending.

Lemma lockWhere_pending :
  CallRepository.lockWhere (CallEntity.id pending) pending = true.
Proof.
  unfold CallRepository.lockWhere, Sql.hasStatus.
  by rewrite String.eqb_refl, Hpending.
Qed.

Lemma lockWhere_only (r : CallEntity.t) :
  r ∈ tbl -> CallRepository.lockWhere (CallEntity.id pending) r = true -> r = pending.
Proof.
  intros Hr Hw. apply andb_true_iff in Hw as [_ Hs].
  apply Honly; [done|]. by apply CallStatus_eqb_eq.
Qed.

(** Before the claim, the SELECT finds the record. *)
Lemma select_unclaimed : Sql.selectOldestWithStatus PENDING tbl = Some pending.
Proof.
  unfold Sql.selectOldestWithStatus.
  destruct (Sql.oldest (List.filter (Sql.hasStatus PENDING) tbl)) as [r|] eqn:E.
  - apply oldest_elem, list_elem_of_In, filter_In in E as [Hr Hs]. f_equal.
    apply Honly; [by apply list_elem_of_In|by apply CallStatus_eqb_eq].
  - apply oldest_None in E. exfalso.
    assert (In pending (List.filter (Sql.hasStatus PENDING) tbl)) as Hp.
    { apply filter_In. split; [by apply list_elem_of_In|].
      unfold Sql.hasStatus. by rewrite Hpending. }
    rewrite E in Hp. destruct Hp.
Qed.

(** Before the claim, the UPDATE affects a row. *)
Lemma update_unclaimed (now : Z) (u : Partial.t) :
  (snd (Sql.updateWhere now (CallRepository.lockWhere (CallEntity.id pending)) u tbl) =? 0)
  = false.
Proof.
  apply Z.eqb_neq. simpl.
  assert (In pending (List.filter (CallRepository.lockWhere (CallEntity.id pending)) tbl))
    as Hp by (apply filter_In; split; [by apply list_elem_of_In|apply lockWhere_pending]).
  destruct (List.filter _ tbl); [destruct Hp|simpl; lia].
Qed.

(** After the claim, no row is PENDING. *)
Lemma locked_no_pending (t : Z) (r : CallEntity.t) :
  r ∈ ClaimRace.lockedTable tbl pending t -> Sql.hasStatus PENDING r = false.
Proof.
  unfold ClaimRace.lockedTable. simpl. intros Hr.
  apply list_elem_of_In, in_map_iff in Hr as (r0 & <- & Hr0).
  apply list_elem_of_In in Hr0.
  destruct (CallRepository.lockWhere (CallEntity.id pending) r0) eqn:Hw; [reflexivity|].
  destruct (Sql.hasStatus PENDING r0) eqn:Hs; [|reflexivity].
  assert (r0 = pending) as -> by (apply Honly; [done|by apply CallStatus_eqb_eq]).
  by rewrite lockWhere_pending in Hw.
Qed.

Lemma select_claimed (t : Z) :
  Sql.selectOldestWithStatus PENDING (ClaimRace.lockedTable tbl pending t) = None.
Proof.
  unfold Sql.selectOldestWithStatus.
  rewrite filter_none; [reflexivity|]. apply locked_no_pending.
Qed.

(** After the claim, the UPDATE of another invocation affects no row. *)
Lemma update_claimed (now t : Z) (u : Partial.t) :
  Sql.updateWhere now (CallRepository.lockWhere (CallEntity.id pending)) u
                  (ClaimRace.lockedTable tbl pending t)
  = (ClaimRace.lockedTable tbl pending t, 0).
Proof.
  assert (forall r, r ∈ ClaimRace.lockedTable tbl pending t ->
                    CallRepository.lockWhere (CallEntity.id pending) r = false) as Hno.
  { intros r Hr. unfold CallRepository.lockWhere.
    by rewrite (locked_no_pending t r Hr), andb_false_r. }
  unfold Sql.updateWhere. f_equal.
  - apply map_unchanged. intros r Hr. by rewrite (Hno r Hr).
  - by rewrite filter_none.
Qed.

(** After the claim, the winner reloads the claimed row. *)
Lemma reload_claimed (t : Z) :
  Sql.selectById (ClaimRace.lockedTable tbl pending t) (CallEntity.id pending)
  = Some (ClaimRace.claimedRow pending t).
Proof.
  unfold ClaimRace.lockedTable. simpl. rewrite selectById_map.
  - rewrite (selectById_key tbl pending Hkey Hin). simpl.
    by rewrite lockWhere_pending.
  - intros r. by destruct (CallRepository.lockWhere (CallEntity.id pending) r).
Qed.

Lemma losers_insert (ws : list ClaimRace.Pc) (k winner : nat) (pc' : ClaimRace.Pc) :
  ClaimRace.loser pending pc' ->
  (forall j pc, j <> winner -> ws !! j = Some pc -> ClaimRace.loser pending pc) ->
  forall j pc, j <> winner -> <[k:=pc']> ws !! j = Some pc -> ClaimRace.loser pending pc.
Proof.
  intros Hl Hws j pc Hj Hlook.
  apply list_lookup_insert_Some in Hlook as [(<- & <- & _)|(Hne & Hlook)]; eauto.
Qed.

(** Every statement of every invocation keeps the invariant. *)
Lemma Inv_schedule1 (cfg : ClaimRace.Config) (ev : nat * Z) :
  ClaimRace.Inv tbl pending cfg -> ClaimRace.Inv tbl pending (ClaimRace.schedule1 cfg ev).
Proof.
  destruct ev as [k now]. unfold ClaimRace.schedule1. cbn [fst snd].
  intros HI. destruct (ClaimRace.workers cfg !! k) as [pc|] eqn:Hpc; [|exact HI].
  pose proof (lookup_lt_Some _ _ _ Hpc) as Hlen.
  destruct HI as [[Htab Hws]|(winner & t & Htab & Hwin & Hothers)].
  - destruct (Hws k pc Hpc) as [-> | ->]; rewrite Htab; cbn [ClaimRace.step].
    + rewrite select_unclaimed. left. split; [reflexivity|]. cbn [ClaimRace.workers].
      intros j pc Hj.
      apply list_lookup_insert_Some in Hj as [(_ & <- & _)|(_ & Hj)]; eauto.
    + rewrite update_unclaimed. right. exists k, now. split; [reflexivity|].
      cbn [ClaimRace.workers fst snd]. split.
      * left. by apply list_lookup_insert_eq.
      * intros j pc Hne Hj. rewrite list_lookup_insert_ne in Hj by done.
        destruct (Hws j pc Hj) as [-> | ->]; [by left|by right; left].
  - right. exists winner, t. rewrite Htab.
    destruct (decide (k = winner)) as [->|Hne].
    + assert (pc = ClaimRace.AtReload (CallEntity.id pending)
              \/ pc = ClaimRace.Returned (Some (ClaimRace.claimedRow pending t))) as Hcase.
      { destruct Hwin as [Hw|Hw]; rewrite Hpc in Hw; injection Hw as ->; auto. }
      destruct Hcase as [-> | ->]; cbn [ClaimRace.step fst snd].
      * rewrite reload_claimed. split; [reflexivity|]. cbn [ClaimRace.workers]. split.
        -- right. by apply list_lookup_insert_eq.
        -- intros j pc Hj Hlook. rewrite list_lookup_insert_ne in Hlook by done. eauto.
      * rewrite list_insert_id by done. by split.
    + assert (ClaimRace.loser pending (snd (ClaimRace.step now
                (ClaimRace.lockedTable tbl pending t) pc))
              /\ fst (ClaimRace.step now (ClaimRace.lockedTable tbl pending t) pc)
                 = ClaimRace.lockedTable tbl pending t) as [Hl Ht].
      { destruct (Hothers k pc Hne Hpc) as [-> | [-> | ->]]; cbn [ClaimRace.step].
        - rewrite select_claimed. split; [by right; right|reflexivity].
        - rewrite update_claimed. cbn. split; [by right; right|reflexivity].
        - split; [by right; right|reflexivity]. }
      split; [exact Ht|]. cbn [ClaimRace.workers]. split.
      * by rewrite list_lookup_insert_ne.
      * by apply losers_insert.
Qed.

Lemma Inv_run (sched : list (nat * Z)) (cfg : ClaimRace.Config) :
  ClaimRace.Inv tbl pending cfg -> ClaimRace.Inv tbl pending (ClaimRace.run sched cfg).
Proof.
  revert cfg. induction sched as [|ev sched IH]; intros cfg HI; [exact HI|].
  apply IH, Inv_schedule1, HI.
Qed.

Lemma Inv_start (n : nat) : ClaimRace.Inv tbl pending (ClaimRace.start tbl n).
Proof.
  left. split; [reflexivity|]. intros k pc Hk.
  apply lookup_replicate_1 in Hk as [-> _]. by left.
Qed.

End OnePendingRecord.

(** The row that the claim has selected is there to be read back. *)
Lemma selectById_locked (tbl : list CallEntity.t) (p : CallEntity.t) (now : Z) :
  p ∈ tbl ->
  exists r, Sql.selectById (ClaimRace.lockedTable tbl p now) (CallEntity.id p) = Some r.
Proof.
  intros Hin. unfold ClaimRace.lockedTable. simpl. rewrite selectById_map.
  - destruct (selectById_elem tbl p Hin) as [r ->]. by eexists.
  - intros r. by destruct (CallRepository.lockWhere (CallEntity.id p) r).
Qed.

(** The three statements of one invocation, issued without interruption, are
    [fetchAndLockPendingCall]. *)
Lemma steps_are_fetchAndLockPendingCall (now : Z) (w : World) :
  let s1 := ClaimRace.step now (calls w) ClaimRace.AtSelect in
  let s2 := ClaimRace.step now (fst s1) (snd s1) in
  let s3 := ClaimRace.step now (fst s2) (snd s2) in
  exists result : option CallEntity.t,
    snd s3 = ClaimRace.Returned result
    /\ CallRepository.fetchAndLockPendingCall now w
       = (Ok result, {| calls := fst s3; queue := queue w |}).
Proof.
  cbn zeta.
  unfold CallRepository.fetchAndLockPendingCall, mbind, M_bind, getCalls, putCalls.
  cbn [ClaimRace.step calls queue].
  destruct (Sql.selectOldestWithStatus PENDING (calls w)) as [p|] eqn:Hsel.
  - assert (p ∈ calls w) as Hin.
    { apply oldest_elem in Hsel. apply list_elem_of_In, filter_In in Hsel as [Hin _].
      by apply list_elem_of_In. }
    destruct (selectById_locked (calls w) p now Hin) as [c Hc].
    unfold ClaimRace.lockedTable in Hc.
    cbn [fst snd ClaimRace.step].
    destruct (snd (Sql.updateWhere now _ _ (calls w)) =? 0); cbn [fst snd ClaimRace.step].
    + by eexists.
    + erewrite findById_found; [|exact Hc]. rewrite Hc. by eexists.
  - cbn [fst snd ClaimRace.step]. destruct w. by eexists.
Qed.

Lemma schedule1_length (cfg : ClaimRace.Config) (ev : nat * Z) :
  length (ClaimRace.workers (ClaimRace.schedule1 cfg ev)) = length (ClaimRace.workers cfg).
Proof.
  unfold ClaimRace.schedule1. destruct (ClaimRace.workers cfg !! fst ev); [|reflexivity].
  cbn [ClaimRace.workers]. apply length_insert.
Qed.

Lemma run_length (sched : list (nat * Z)) (cfg : ClaimRace.Config) :
  length (ClaimRace.workers (ClaimRace.run sched cfg)) = length (ClaimRace.workers cfg).
Proof.
  revert cfg. induction sched as [|ev sched IH]; intros cfg; [reflexivity|].
  simpl. change (foldl ClaimRace.schedule1 (ClaimRace.schedule1 cfg ev) sched)
    with (ClaimRace.run sched (ClaimRace.schedule1 cfg ev)).
  by rewrite IH, schedule1_length.
Qed.

(** A statement takes an invocation one stage further, until it has
    returned. *)
Lemma step_stage (now : Z) (tbl : list CallEntity.t) (pc : ClaimRace.Pc) :
  (Nat.min 3 (ClaimRace.stage pc + 1)
   <= ClaimRace.stage (snd (ClaimRace.step now tbl pc)))%nat.
Proof.
  destruct pc; cbn [ClaimRace.step].
  - destruct (Sql.selectOldestWithStatus PENDING tbl); simpl; lia.
  - destruct (snd _ =? 0); simpl; lia.
  - simpl. lia.
  - simpl. lia.
Qed.

(** An invocation that the schedule gives [m] statements is [m] stages
    further, or has returned. *)
Lemma run_progress (sched : list (nat * Z)) :
  forall (cfg : ClaimRace.Config) (k : nat) (pc : ClaimRace.Pc),
    ClaimRace.workers cfg !! k = Some pc ->
    exists pc' : ClaimRace.Pc,
      ClaimRace.workers (ClaimRace.run sched cfg) !! k = Some pc'
      /\ (Nat.min 3 (ClaimRace.stage pc + ClaimRace.stepsOf k sched)
          <= ClaimRace.stage pc')%nat.
Proof.
  induction sched as [|[j now] sched IH]; intros cfg k pc Hk.
  - exists pc. split; [exact Hk|]. unfold ClaimRace.stepsOf.
    cbn [List.filter length]. lia.
  - change (ClaimRace.run ((j, now) :: sched) cfg)
      with (ClaimRace.run sched (ClaimRace.schedule1 cfg (j, now))).
    unfold ClaimRace.stepsOf. cbn [List.filter fst].
    destruct (decide (j = k)) as [->|Hne].
    + rewrite Nat.eqb_refl. cbn [length].
      assert (ClaimRace.workers (ClaimRace.schedule1 cfg (k, now)) !! k
              = Some (snd (ClaimRace.step now (ClaimRace.table cfg) pc))) as Hk'.
      { unfold ClaimRace.schedule1. cbn [fst snd]. rewrite Hk. cbn [ClaimRace.workers].
        apply list_lookup_insert_eq. by apply lookup_lt_Some in Hk. }
      destruct (IH _ _ _ Hk') as (pc' & Hpc' & Hstage).
      exists pc'. split; [exact Hpc'|].
      pose proof (step_stage now (ClaimRace.table cfg) pc) as Hs.
      fold (ClaimRace.stepsOf k sched). unfold ClaimRace.stepsOf in *. lia.
    + assert (Nat.eqb j k = false) as -> by by apply Nat.eqb_neq.
      assert (ClaimRace.workers (ClaimRace.schedule1 cfg (j, now)) !! k = Some pc) as Hk'.
      { unfold ClaimRace.schedule1. cbn [fst snd].
        destruct (ClaimRace.workers cfg !! j); [|exact Hk].
        cbn [ClaimRace.workers]. by rewrite list_lookup_insert_ne. }
      exact (IH _ _ _ Hk').
Qed.

(** C1: [n] invocations of [fetchAndLockPendingCall] contend for the one
    PENDING record of the table, their statements interleaved in any order
    that lets each of them finish.  Exactly one invocation returns the record,
    IN_PROGRESS and with [startedAt] set; every other invocation returns
    none. *)
Theorem C1_claim_race (tbl : list CallEntity.t) (pending : CallEntity.t) (n : nat)
        (sched : list (nat * Z)) :
  NoDup (map CallEntity.id tbl) ->
  pending ∈ tbl ->
  CallEntity.status pending = PENDING ->
  (forall r, r ∈ tbl -> CallEntity.status r = PENDING -> r = pending) ->
  (0 < n)%nat ->
  (forall k, (k < n)%nat -> (3 <= ClaimRace.stepsOf k sched)%nat) ->
  exists (winner : nat) (claimed : CallEntity.t) (t : Z),
    ClaimRace.workers (ClaimRace.run sched (ClaimRace.start tbl n)) !! winner
    = Some (ClaimRace.Returned (Some claimed))
    /\ (winner < n)%nat
    /\ claimed = Sql.setColumns t (CallRepository.lockSet t) pending
    /\ CallEntity.id claimed = CallEntity.id pending
    /\ CallEntity.status claimed = IN_PROGRESS
    /\ CallEntity.startedAt claimed = Some t
    /\ Sql.selectById (ClaimRace.table (ClaimRace.run sched (ClaimRace.start tbl n)))
                      (CallEntity.id pending) = Some claimed
    /\ forall k, (k < n)%nat -> k <> winner ->
         ClaimRace.workers (ClaimRace.run sched (ClaimRace.start tbl n)) !! k
         = Some (ClaimRace.Returned None).
Proof.
  intros Hkey Hin Hpending Honly Hn Hfair.
  set (final := ClaimRace.run sched (ClaimRace.start tbl n)).
  assert (forall k, (k < n)%nat ->
            exists res, ClaimRace.workers final !! k = Some (ClaimRace.Returned res))
    as Hdone.
  { intros k Hk.
    destruct (run_progress sched (ClaimRace.start tbl n) k ClaimRace.AtSelect)
      as (pc' & Hpc' & Hstage).
    { by apply lookup_replicate_2. }
    specialize (Hfair k Hk). cbn [ClaimRace.stage] in Hstage.
    destruct pc' as [| | |res]; cbn [ClaimRace.stage] in Hstage; try lia.
    by exists res. }
  assert (length (ClaimRace.workers final) = n) as Hlen.
  { unfold final. rewrite run_length. apply length_replicate. }
  pose proof (Inv_run tbl pending Hkey Hin Hpending Honly sched _
                (Inv_start tbl pending n)) as HI.
  fold final in HI.
  destruct HI as [[_ Hws]|(winner & t & Htab & Hwin & Hothers)].
  - exfalso. destruct (Hdone 0%nat Hn) as [res Hres].
    destruct (Hws _ _ Hres); discriminate.
  - assert (winner < n)%nat as Hw.
    { rewrite <- Hlen. destruct Hwin as [H|H]; by apply lookup_lt_Some in H. }
    exists winner, (ClaimRace.claimedRow pending t), t.
    split.
    { destruct Hwin as [H|H]; [|exact H].
      destruct (Hdone winner Hw) as [res Hres]. rewrite H in Hres. discriminate. }
    split; [exact Hw|]. split; [reflexivity|]. split; [reflexivity|].
    split; [reflexivity|]. split; [reflexivity|].
    split; [rewrite Htab; by apply reload_claimed|].
    intros k Hk Hne. destruct (Hdone k Hk) as [res Hres]. rewrite Hres.
    destruct (Hothers k _ Hne Hres) as [H|[H|H]]; try discriminate.
    by injection H as ->.
Qed.

(** ** Instances *)

(** Three invocations race for [waitingCall]; the first to update wins. *)
Lemma C1_claim_race_witness :
  exists (winner : nat) (claimed : CallEntity.t) (t : Z),
    ClaimRace.workers (ClaimRace.run raceSchedule (ClaimRace.start [waitingCall] 3)) !! winner
    = Some (ClaimRace.Returned (Some claimed))
    /\ (winner < 3)%nat
    /\ claimed = Sql.setColumns t (CallRepository.lockSet t) waitingCall
    /\ CallEntity.id claimed = CallEntity.id waitingCall
    /\ CallEntity.status claimed = IN_PROGRESS
    /\ CallEntity.startedAt claimed = Some t
    /\ Sql.selectById
         (ClaimRace.table (ClaimRace.run raceSchedule (ClaimRace.start [waitingCall] 3)))
         (CallEntity.id waitingCall) = Some claimed
    /\ forall k, (k < 3)%nat -> k <> winner ->
         ClaimRace.workers (ClaimRace.run raceSchedule (ClaimRace.start [waitingCall] 3)) !! k
         = Some (ClaimRace.Returned None).
Proof.
  apply (C1_claim_race [waitingCall] waitingCall 3 raceSchedule).
  - apply NoDup_singleton.
  - apply list_elem_of_here.
  - reflexivity.
  - intros r Hr _. by apply list_elem_of_singleton in Hr.
  - lia.
  - intros [|[|[|k]]] Hk; [vm_compute; lia..|lia].
Defined.

Lemma C5_terminal_kept_by_claim_and_update_witness :
  let w := {| calls := [completedCall]; queue := [] |} in
  calls (snd (CallRepository.fetchAndLockPendingCall 9000 w)) !! 0%nat = Some completedCall
  /\ (forall (i : string) (request : UpdateCallRequest),
        calls (snd (CallService.updateCall 9000 i request w)) !! 0%nat = Some completedCall)
  /\ (forall (now' : Z) (payload : WebhookCallbackPayload),
        let w1 := snd (CallService.handleWebhookCallback 9000 payload w) in
        let w2 := snd (CallService.handleWebhookCallback now' payload w1) in
        map content (calls w2) = map content (calls w1)).
Proof.
  apply (C5_terminal_kept_by_claim_and_update 9000
           {| calls := [completedCall]; queue := [] |} 0 completedCall).
  - apply NoDup_singleton.
  - reflexivity.
  - reflexivity.
Defined.

Lemma C6_completion_mapping_witness :
  let payload :=
    {| wh_callId := "ext-1"; wh_status := P_BUSY;
       wh_durationSec := None; wh_completedAt := 8000 |} in
  exists (w' : World) (updated : CallEntity.t),
    CallService.handleWebhookCallback 8100 payload
      {| calls := [acceptedCall]; queue := [] |} = (Ok tt, w')
    /\ Sql.selectById (calls w') "c1" = Some updated
    /\ CallEntity.status updated = FAILED
    /\ CallEntity.lastError updated = Some "AI call BUSY"%string
    /\ CallEntity.endedAt updated = Some 8000.
Proof.
  apply (C6_completion_mapping 8100
           {| wh_callId := "ext-1"; wh_status := P_BUSY;
              wh_durationSec := None; wh_completedAt := 8000 |}
           acceptedCall {| calls := [acceptedCall]; queue := [] |}).
  reflexivity.
Defined.

Lemma C10_update_merges_payload_witness :
  let request := {| upd_payload := Some {[ "scriptId"%string := JString "followUp" ]} |} in
  exists (w' : World) (call : Call.t),
    CallService.updateCall 700 "c1" request {| calls := [waitingCall]; queue := [] |}
    = (Ok (Some call), w')
    /\ CallService.entityToCall <$> Sql.selectById (calls w') "c1" = Some call
    /\ (forall k : string,
          default ∅ (upd_payload request) !! k = None ->
          Call.payload call !! k = CallEntity.payload waitingCall !! k)
    /\ (forall (k : string) (v : JsonValue),
          default ∅ (upd_payload request) !! k = Some v ->
          Call.payload call !! k = Some v)
    /\ Call.id call = CallEntity.id waitingCall
    /\ Call.status call = CallEntity.status waitingCall
    /\ Call.attempts call = CallEntity.attempts waitingCall
    /\ Call.lastError call = CallEntity.lastError waitingCall
    /\ Call.createdAt call = CallEntity.createdAt waitingCall
    /\ Call.startedAt call = CallEntity.startedAt waitingCall
    /\ Call.endedAt call = CallEntity.endedAt waitingCall.
Proof.
  apply (C10_update_merges_payload 700 "c1"
           {| upd_payload := Some {[ "scriptId"%string := JString "followUp" ]} |}
           waitingCall {| calls := [waitingCall]; queue := [] |}).
  - reflexivity.
  - reflexivity.
Defined.

(* ===================================================================== *)
(** * Further properties of the code                                      *)
(* ===================================================================== *)

(** ** Metrics *)

Lemma statuses_partition (tbl : list CallEntity.t) :
  (length (List.filter (Sql.hasStatus PENDING) tbl)
   + length (List.filter (Sql.hasStatus IN_PROGRESS) tbl)
   + length (List.filter (Sql.hasStatus COMPLETED) tbl)
   + length (List.filter (Sql.hasStatus FAILED) tbl)
   + length (List.filter (Sql.hasStatus EXPIRED) tbl))%nat
  = length tbl.
Proof.
  induction tbl as [|r tbl IH]; [reflexivity|].
  unfold Sql.hasStatus in *. cbn [List.filter].
  destruct (CallEntity.status r); cbn [CallStatus_eqb length]; lia.
Qed.

(** X1: the metrics count every call once: each per-status figure is the
    number of rows of that status, also for a status no call has, and [total]
    is both their sum and the number of rows. *)
Theorem countByStatus_counts (w : World) :
  exists metrics : CallMetrics,
    CallRepository.countByStatus w = (Ok metrics, w)
    /\ (forall status : CallStatus,
          metricOf status metrics
          = Z.of_nat (length (List.filter (Sql.hasStatus status) (calls w))))
    /\ m_total metrics = Z.of_nat (length (calls w))
    /\ m_total metrics
       = m_PENDING metrics + m_IN_PROGRESS metrics + m_COMPLETED metrics
         + m_FAILED metrics + m_EXPIRED metrics.
Proof.
  eexists. split; [reflexivity|].
  pose proof (statuses_partition (calls w)) as Hsum.
  unfold CallRepository.groupByStatus. cbn [map List.filter snd].
  set (c1 := Z.of_nat (length (List.filter (Sql.hasStatus PENDING) (calls w)))) in *.
  set (c2 := Z.of_nat (length (List.filter (Sql.hasStatus IN_PROGRESS) (calls w)))) in *.
  set (c3 := Z.of_nat (length (List.filter (Sql.hasStatus COMPLETED) (calls w)))) in *.
  set (c4 := Z.of_nat (length (List.filter (Sql.hasStatus FAILED) (calls w)))) in *.
  set (c5 := Z.of_nat (length (List.filter (Sql.hasStatus EXPIRED) (calls w)))) in *.
  assert (c1 + c2 + c3 + c4 + c5 = Z.of_nat (length (calls w))) as Hz
    by (subst c1 c2 c3 c4 c5; lia).
  assert (0 <= c1 /\ 0 <= c2 /\ 0 <= c3 /\ 0 <= c4 /\ 0 <= c5) as Hpos
    by (subst c1 c2 c3 c4 c5; lia).
  destruct (0 <? c1) eqn:E1, (0 <? c2) eqn:E2, (0 <? c3) eqn:E3,
    (0 <? c4) eqn:E4, (0 <? c5) eqn:E5;
    rewrite ?Z.ltb_lt, ?Z.ltb_ge in *;
    (split; [intros []|]);
    cbv [foldl CallRepository.addGroup fst snd metricOf m_PENDING m_IN_PROGRESS
         m_COMPLETED m_FAILED m_EXPIRED m_total];
    subst c1 c2 c3 c4 c5; lia.
Qed.

(** ** The claim, one invocation *)

Lemma oldest_least (rows : list CallEntity.t) (p : CallEntity.t) :
  Sql.oldest rows = Some p ->
  forall r, r ∈ rows -> CallEntity.createdAt p <= CallEntity.createdAt r.
Proof.
  revert p. induction rows as [|x rows IH]; intros p Hp r Hr; [by apply elem_of_nil in Hr|].
  simpl in Hp. destruct (Sql.oldest rows) as [r'|] eqn:E.
  - specialize (IH r' eq_refl).
    destruct (CallEntity.createdAt x <=? CallEntity.createdAt r') eqn:Hle;
      injection Hp as <-; apply elem_of_cons in Hr as [->|Hr].
    + lia.
    + apply Z.leb_le in Hle. specialize (IH r Hr). lia.
    + apply Z.leb_gt in Hle. lia.
    + by apply IH.
  - injection Hp as <-. apply oldest_None in E. subst rows.
    apply list_elem_of_singleton in Hr as ->. lia.
Qed.

Lemma selectOldest_spec (tbl : list CallEntity.t) (p : CallEntity.t) :
  Sql.selectOldestWithStatus PENDING tbl = Some p ->
  p ∈ tbl /\ CallEntity.status p = PENDING
  /\ forall r, r ∈ tbl -> CallEntity.status r = PENDING ->
               CallEntity.createdAt p <= CallEntity.createdAt r.
Proof.
  unfold Sql.selectOldestWithStatus. intros Hp.
  pose proof (oldest_elem _ _ Hp) as Hin.
  apply list_elem_of_In, filter_In in Hin as [Hin Hst].
  split; [by apply list_elem_of_In|]. split; [by apply CallStatus_eqb_eq|].
  intros r Hr Hs. apply (oldest_least _ _ Hp).
  apply list_elem_of_In, filter_In. split; [by apply list_elem_of_In|].
  by apply CallStatus_eqb_eq.
Qed.

Lemma selectOldest_None (tbl : list CallEntity.t) :
  Sql.selectOldestWithStatus PENDING tbl = None <->
  forall r, r ∈ tbl -> CallEntity.status r <> PENDING.
Proof.
  unfold Sql.selectOldestWithStatus. split.
  - intros Hnone r Hr Hs. apply oldest_None in Hnone.
    assert (In r (List.filter (Sql.hasStatus PENDING) tbl)) as Hin.
    { apply filter_In. split; [by apply list_elem_of_In|by apply CallStatus_eqb_eq]. }
    rewrite Hnone in Hin. destruct Hin.
  - intros Hno. rewrite filter_none; [reflexivity|].
    intros r Hr. destruct (Sql.hasStatus PENDING r) eqn:E; [|reflexivity].
    apply CallStatus_eqb_eq in E. by destruct (Hno r Hr).
Qed.

(** What the claim does once its SELECT has found [p]. *)
Lemma fetchAndLockPendingCall_found (now : Z) (w : World) (p : CallEntity.t) :
  Sql.selectOldestWithStatus PENDING (calls w) = Some p ->
  CallRepository.fetchAndLockPendingCall now w
  = (Ok (Sql.selectById (ClaimRace.lockedTable (calls w) p now) (CallEntity.id p)),
     {| calls := ClaimRace.lockedTable (calls w) p now; queue := queue w |}).
Proof.
  intros Hsel.
  unfold CallRepository.fetchAndLockPendingCall, mbind, M_bind, getCalls, putCalls.
  rewrite Hsel. cbn [calls queue].
  assert ((snd (Sql.updateWhere now (CallRepository.lockWhere (CallEntity.id p))
                  (CallRepository.lockSet now) (calls w)) =? 0) = false) as ->.
  { apply Z.eqb_neq. simpl. apply selectOldest_spec in Hsel as (Hin & Hst & _).
    assert (In p (List.filter (CallRepository.lockWhere (CallEntity.id p)) (calls w))) as Hp.
    { apply filter_In. split; [by apply list_elem_of_In|].
      unfold CallRepository.lockWhere, Sql.hasStatus.
      by rewrite String.eqb_refl, Hst. }
    destruct (List.filter _ (calls w)); [destruct Hp|simpl; lia]. }
  apply selectOldest_spec in Hsel as (Hin & _ & _).
  destruct (selectById_locked (calls w) p now Hin) as [c Hc].
  fold (ClaimRace.lockedTable (calls w) p now).
  rewrite Hc. by apply findById_found.
Qed.

(** X2: the claim returns none exactly when no call is PENDING, and then it
    writes nothing. *)
Theorem fetchAndLockPendingCall_none_iff (now : Z) (w : World) :
  (fst (CallRepository.fetchAndLockPendingCall now w) = Ok None
   <-> forall r, r ∈ calls w -> CallEntity.status r <> PENDING)
  /\ (fst (CallRepository.fetchAndLockPendingCall now w) = Ok None ->
      snd (CallRepository.fetchAndLockPendingCall now w) = w).
Proof.
  destruct (Sql.selectOldestWithStatus PENDING (calls w)) as [p|] eqn:Hsel.
  - rewrite (fetchAndLockPendingCall_found _ _ _ Hsel). cbn [fst snd].
    pose proof (selectOldest_spec _ _ Hsel) as (Hin & Hst & _).
    destruct (selectById_locked (calls w) p now Hin) as [r ->].
    split; [split|]; try discriminate.
    intros Hno. by destruct (Hno p Hin).
  - assert (CallRepository.fetchAndLockPendingCall now w = (Ok None, w)) as ->.
    { unfold CallRepository.fetchAndLockPendingCall, mbind, M_bind, getCalls.
      by rewrite Hsel. }
    split; [|reflexivity]. split; [|reflexivity].
    intros _. by apply selectOldest_None.
Qed.

Lemma lockedTable_by_id (tbl : list CallEntity.t) (p : CallEntity.t) (now : Z) :
  NoDup (map CallEntity.id tbl) -> p ∈ tbl -> CallEntity.status p = PENDING ->
  ClaimRace.lockedTable tbl p now
  = map (fun r => if String.eqb (CallEntity.id r) (CallEntity.id p)
                  then ClaimRace.claimedRow p now else r) tbl.
Proof.
  intros Hkey Hin Hst. unfold ClaimRace.lockedTable. simpl.
  apply map_ext_in. intros r Hr. apply list_elem_of_In in Hr.
  unfold CallRepository.lockWhere.
  destruct (String.eqb (CallEntity.id r) (CallEntity.id p)) eqn:Hid; [|reflexivity].
  apply String.eqb_eq in Hid.
  assert (r = p) as -> by by apply (primary_key tbl).
  unfold Sql.hasStatus. by rewrite Hst.
Qed.

(** The claim raises the number of IN_PROGRESS rows by the number of rows it
    writes. *)
Lemma inProgress_lockedTable (tbl : list CallEntity.t) (p : CallEntity.t) (now : Z) :
  length (List.filter (Sql.hasStatus IN_PROGRESS) (ClaimRace.lockedTable tbl p now))
  = (length (List.filter (Sql.hasStatus IN_PROGRESS) tbl)
     + length (List.filter (CallRepository.lockWhere (CallEntity.id p)) tbl))%nat.
Proof.
  unfold ClaimRace.lockedTable. simpl.
  induction tbl as [|r tbl IH]; [reflexivity|]. cbn [map List.filter].
  destruct (CallRepository.lockWhere (CallEntity.id p) r) eqn:Hw.
  - apply andb_true_iff in Hw as [_ Hs]. apply CallStatus_eqb_eq in Hs.
    assert (Sql.hasStatus IN_PROGRESS r = false) as ->
      by (unfold Sql.hasStatus; by rewrite Hs).
    change (Sql.hasStatus IN_PROGRESS
              (Sql.setColumns now (CallRepository.lockSet now) r)) with true.
    cbn [length]. rewrite IH. lia.
  - destruct (Sql.hasStatus IN_PROGRESS r); cbn [length]; rewrite IH; lia.
Qed.

(** With a primary key, the WHERE clause of the claim matches at most one
    row. *)
Lemma lockWhere_at_most_one (tbl : list CallEntity.t) (i : string) :
  NoDup (map CallEntity.id tbl) ->
  (length (List.filter (CallRepository.lockWhere i) tbl) <= 1)%nat.
Proof.
  intros Hkey. induction tbl as [|r tbl IH]; [simpl; lia|].
  simpl in Hkey. apply NoDup_cons in Hkey as [Hnotin Hkey]. cbn [List.filter].
  destruct (CallRepository.lockWhere i r) eqn:Hw; [|by apply IH].
  apply andb_true_iff in Hw as [Hid _]. apply String.eqb_eq in Hid.
  rewrite filter_none; [simpl; lia|].
  intros x Hx. unfold CallRepository.lockWhere.
  destruct (String.eqb (CallEntity.id x) i) eqn:Hx'; [|reflexivity].
  exfalso. apply String.eqb_eq in Hx'. apply Hnotin. rewrite Hid, <- Hx'.
  apply list_elem_of_fmap. by exists x.
Qed.

(** X3: with a primary key, a claim that returns a call returns the oldest
    PENDING call, now IN_PROGRESS and started at the time of the claim; it
    writes that row and no other, leaves the queue alone, and there is one
    more IN_PROGRESS row. *)
Theorem fetchAndLockPendingCall_oldest (now : Z) (w w' : World) (claimed : CallEntity.t) :
  NoDup (map CallEntity.id (calls w)) ->
  CallRepository.fetchAndLockPendingCall now w = (Ok (Some claimed), w') ->
  exists p : CallEntity.t,
    p ∈ calls w
    /\ CallEntity.status p = PENDING
    /\ (forall r, r ∈ calls w -> CallEntity.status r = PENDING ->
                  CallEntity.createdAt p <= CallEntity.createdAt r)
    /\ claimed = Sql.setColumns now (CallRepository.lockSet now) p
    /\ CallEntity.status claimed = IN_PROGRESS
    /\ CallEntity.startedAt claimed = Some now
    /\ calls w' = map (fun r => if String.eqb (CallEntity.id r) (CallEntity.id p)
                                then claimed else r) (calls w)
    /\ queue w' = queue w
    /\ length (List.filter (Sql.hasStatus IN_PROGRESS) (calls w'))
       = S (length (List.filter (Sql.hasStatus IN_PROGRESS) (calls w))).
Proof.
  intros Hkey Hrun.
  destruct (Sql.selectOldestWithStatus PENDING (calls w)) as [p|] eqn:Hsel.
  - rewrite (fetchAndLockPendingCall_found _ _ _ Hsel) in Hrun.
    pose proof (selectOldest_spec _ _ Hsel) as (Hin & Hst & Hleast).
    rewrite (lockedTable_by_id _ _ now Hkey Hin Hst) in Hrun.
    rewrite selectById_map in Hrun.
    2:{ intros r. destruct (String.eqb (CallEntity.id r) (CallEntity.id p)) eqn:Hid;
          [|reflexivity].
        apply String.eqb_eq in Hid. by rewrite Hid. }
    rewrite (selectById_key _ _ Hkey Hin) in Hrun. cbn [fmap option_fmap option_map] in Hrun.
    rewrite String.eqb_refl in Hrun. injection Hrun as <- <-.
    exists p. split; [done|]. split; [done|]. split; [done|].
    split; [reflexivity|]. split; [reflexivity|]. split; [reflexivity|].
    split; [reflexivity|]. split; [reflexivity|]. cbn [calls].
    rewrite <- (lockedTable_by_id _ _ now Hkey Hin Hst), inProgress_lockedTable.
    assert (List.filter (CallRepository.lockWhere (CallEntity.id p)) (calls w) <> []) as Hne.
    { intros Hnil.
      assert (In p (List.filter (CallRepository.lockWhere (CallEntity.id p)) (calls w))) as Hp.
      { apply filter_In. split; [by apply list_elem_of_In|].
        unfold CallRepository.lockWhere, Sql.hasStatus. by rewrite String.eqb_refl, Hst. }
      rewrite Hnil in Hp. destruct Hp. }
    pose proof (lockWhere_at_most_one (calls w) (CallEntity.id p) Hkey) as Hle.
    destruct (List.filter (CallRepository.lockWhere (CallEntity.id p)) (calls w))
      as [|x [|y l]]; [done| |simpl in Hle; lia].
    simpl. lia.
  - unfold CallRepository.fetchAndLockPendingCall, mbind, M_bind, getCalls in Hrun.
    rewrite Hsel in Hrun. discriminate.
Qed.

(** ** The concurrency gate and the dispatch loop *)

Lemma countInProgress_run (w : World) :
  CallRepository.countInProgress w
  = (Ok (Z.of_nat (length (List.filter (Sql.hasStatus IN_PROGRESS) (calls w)))), w).
Proof. reflexivity. Qed.

(** X4: [acquireSlot] succeeds exactly when [canAcquireSlot] answers true on
    the same table, and neither of them, nor [releaseSlot], writes
    anything. *)
Theorem acquireSlot_iff_canAcquireSlot (maxConcurrentCalls : Z) (w : World) :
  (ConcurrencyManager.acquireSlot maxConcurrentCalls w = (Ok tt, w)
   <-> ConcurrencyManager.canAcquireSlot maxConcurrentCalls w = (Ok true, w))
  /\ snd (ConcurrencyManager.acquireSlot maxConcurrentCalls w) = w
  /\ snd (ConcurrencyManager.canAcquireSlot maxConcurrentCalls w) = w
  /\ ConcurrencyManager.releaseSlot w = (Ok tt, w).
Proof.
  unfold ConcurrencyManager.acquireSlot, ConcurrencyManager.canAcquireSlot,
    ConcurrencyManager.releaseSlot, mbind, M_bind.
  rewrite countInProgress_run. unfold mret, M_ret, throw.
  set (n := Z.of_nat (length (List.filter (Sql.hasStatus IN_PROGRESS) (calls w)))).
  destruct (maxConcurrentCalls <=? n) eqn:E.
  - apply Z.leb_le in E. assert ((n <? maxConcurrentCalls) = false) as ->
      by (apply Z.ltb_ge; lia).
    repeat split; discriminate.
  - apply Z.leb_gt in E. assert ((n <? maxConcurrentCalls) = true) as ->
      by (apply Z.ltb_lt; lia).
    repeat split.
Qed.

Lemma selected_is_locked (tbl : list CallEntity.t) (p : CallEntity.t) :
  Sql.selectOldestWithStatus PENDING tbl = Some p ->
  (1 <= length (List.filter (CallRepository.lockWhere (CallEntity.id p)) tbl))%nat.
Proof.
  intros Hsel. apply selectOldest_spec in Hsel as (Hin & Hst & _).
  assert (In p (List.filter (CallRepository.lockWhere (CallEntity.id p)) tbl)) as Hp.
  { apply filter_In. split; [by apply list_elem_of_In|].
    unfold CallRepository.lockWhere, Sql.hasStatus. by rewrite String.eqb_refl, Hst. }
  destruct (List.filter _ tbl); [destruct Hp|simpl; lia].
Qed.

(** A turn of the loop, case by case. *)
Lemma processCallQueueTurn_cases (maxConcurrentCalls now : Z) (w : World) :
  let n := Z.of_nat (length (List.filter (Sql.hasStatus IN_PROGRESS) (calls w))) in
  (maxConcurrentCalls <= n
   /\ CallService.processCallQueueTurn maxConcurrentCalls now w = (CallService.AtCapacity, w))
  \/ (n < maxConcurrentCalls
      /\ Sql.selectOldestWithStatus PENDING (calls w) = None
      /\ CallService.processCallQueueTurn maxConcurrentCalls now w
         = (CallService.NoPendingCalls, w))
  \/ (exists (p c : CallEntity.t) (n' : Z),
        n < maxConcurrentCalls
        /\ Sql.selectOldestWithStatus PENDING (calls w) = Some p
        /\ Sql.selectById (ClaimRace.lockedTable (calls w) p now) (CallEntity.id p) = Some c
        /\ n' = Z.of_nat (length (List.filter (Sql.hasStatus IN_PROGRESS)
                                    (ClaimRace.lockedTable (calls w) p now)))
        /\ n + 1 <= n'
        /\ CallService.processCallQueueTurn maxConcurrentCalls now w
           = (if String.eqb (CallEntity.id c) "" then CallService.InvalidEntity
              else if maxConcurrentCalls <=? n' then
                CallService.LoopError
                  {| err_class := PlainError;
                     err_message :=
                       "Cannot acquire slot: maximum concurrent calls ("
                       +:+ pretty maxConcurrentCalls +:+ ") reached" |}
              else CallService.Started c,
              {| calls := ClaimRace.lockedTable (calls w) p now; queue := queue w |})).
Proof.
  cbn zeta.
  set (n := Z.of_nat (length (List.filter (Sql.hasStatus IN_PROGRESS) (calls w)))).
  unfold CallService.processCallQueueTurn, CallService.loopBody,
    ConcurrencyManager.canAcquireSlot, mbind, M_bind.
  rewrite countInProgress_run. fold n. unfold mret, M_ret.
  destruct (n <? maxConcurrentCalls) eqn:En; lazy beta iota; cbn [negb].
  - apply Z.ltb_lt in En. right.
    destruct (Sql.selectOldestWithStatus PENDING (calls w)) as [p|] eqn:Hsel.
    + right. rewrite (fetchAndLockPendingCall_found _ _ _ Hsel).
      pose proof (selectOldest_spec _ _ Hsel) as (Hin & _ & _).
      destruct (selectById_locked (calls w) p now Hin) as [c Hc]. rewrite Hc.
      exists p, c, (Z.of_nat (length (List.filter (Sql.hasStatus IN_PROGRESS)
                                       (ClaimRace.lockedTable (calls w) p now)))).
      split; [done|]. split; [done|]. split; [done|]. split; [done|].
      split.
      { rewrite inProgress_lockedTable. pose proof (selected_is_locked _ _ Hsel).
        subst n. lia. }
      lazy beta iota.
      destruct (String.eqb (CallEntity.id c) ""); [reflexivity|].
      unfold ConcurrencyManager.acquireSlot, mbind, M_bind.
      rewrite countInProgress_run. cbn [calls]. unfold throw.
      by destruct (maxConcurrentCalls <=? _).
    + left. split; [done|]. split; [done|].
      unfold CallRepository.fetchAndLockPendingCall, mbind, M_bind, getCalls.
      rewrite Hsel. reflexivity.
  - apply Z.ltb_ge in En. left. by split.
Qed.

(** X5: with a primary key, a turn starts a call only if, once the call is
    claimed, fewer than [maxConcurrentCalls] rows are IN_PROGRESS: there were
    at least two free slots before the turn.  The started call is the oldest
    PENDING call as the claim has left it, IN_PROGRESS and started at the time
    of the turn, and it is the row of its id. *)
Theorem processCallQueueTurn_started (maxConcurrentCalls now : Z) (w w' : World)
        (c : CallEntity.t) :
  NoDup (map CallEntity.id (calls w)) ->
  CallService.processCallQueueTurn maxConcurrentCalls now w = (CallService.Started c, w') ->
  Z.of_nat (length (List.filter (Sql.hasStatus IN_PROGRESS) (calls w))) + 2
  <= maxConcurrentCalls
  /\ Z.of_nat (length (List.filter (Sql.hasStatus IN_PROGRESS) (calls w')))
     < maxConcurrentCalls
  /\ Sql.selectById (calls w') (CallEntity.id c) = Some c
  /\ CallEntity.status c = IN_PROGRESS
  /\ CallEntity.startedAt c = Some now
  /\ (exists p : CallEntity.t,
        p ∈ calls w
        /\ CallEntity.status p = PENDING
        /\ (forall r, r ∈ calls w -> CallEntity.status r = PENDING ->
                      CallEntity.createdAt p <= CallEntity.createdAt r)
        /\ c = Sql.setColumns now (CallRepository.lockSet now) p)
  /\ CallEntity.id c <> ""%string
  /\ queue w' = queue w.
Proof.
  intros Hkey Hrun.
  destruct (processCallQueueTurn_cases maxConcurrentCalls now w)
    as [[_ H]|[(_ & _ & H)|(p & c0 & n' & Hn & Hsel & Hc & -> & Hn' & H)]];
    rewrite H in Hrun; try discriminate.
  destruct (String.eqb (CallEntity.id c0) "") eqn:Hid; [discriminate|].
  destruct (maxConcurrentCalls <=? _) eqn:Hmax; [discriminate|].
  injection Hrun as -> <-. apply Z.leb_gt in Hmax. cbn [calls queue].
  pose proof (selectOldest_spec _ _ Hsel) as (Hp & Hpst & Hold).
  pose proof (reload_claimed (calls w) p Hkey Hp Hpst now) as Hreload.
  rewrite Hreload in Hc. injection Hc as <-.
  split; [lia|]. split; [lia|]. split; [exact Hreload|].
  split; [reflexivity|]. split; [reflexivity|]. split.
  - exists p. by repeat split.
  - split; [by apply String.eqb_neq|reflexivity].
Qed.

(** X6: with one free slot and a PENDING call, the turn claims the oldest
    PENDING call and then fails to acquire the slot: the call is left
    IN_PROGRESS, [processCall] is not started for it, and the loop sleeps
    five seconds. *)
Theorem processCallQueueTurn_last_slot (maxConcurrentCalls now : Z) (w : World)
        (pending : CallEntity.t) :
  NoDup (map CallEntity.id (calls w)) ->
  (forall r, r ∈ calls w -> CallEntity.id r <> ""%string) ->
  pending ∈ calls w ->
  CallEntity.status pending = PENDING ->
  Z.of_nat (length (List.filter (Sql.hasStatus IN_PROGRESS) (calls w))) + 1
  = maxConcurrentCalls ->
  exists (p : CallEntity.t) (error : JsError) (w' : World),
    CallService.processCallQueueTurn maxConcurrentCalls now w
    = (CallService.LoopError error, w')
    /\ CallService.sleepAfter (CallService.LoopError error) = Some 5000
    /\ err_message error
       = "Cannot acquire slot: maximum concurrent calls ("
         +:+ pretty maxConcurrentCalls +:+ ") reached"
    /\ p ∈ calls w
    /\ CallEntity.status p = PENDING
    /\ (forall r, r ∈ calls w -> CallEntity.status r = PENDING ->
                  CallEntity.createdAt p <= CallEntity.createdAt r)
    /\ Sql.selectById (calls w') (CallEntity.id p)
       = Some (Sql.setColumns now (CallRepository.lockSet now) p)
    /\ CallEntity.status (Sql.setColumns now (CallRepository.lockSet now) p) = IN_PROGRESS
    /\ Z.of_nat (length (List.filter (Sql.hasStatus IN_PROGRESS) (calls w')))
       = maxConcurrentCalls.
Proof.
  intros Hkey Hids Hin Hst Hcount.
  destruct (processCallQueueTurn_cases maxConcurrentCalls now w)
    as [[Hfull _]|[(_ & Hnone & _)|(p & c & n' & Hn & Hsel & Hc & Hn'eq & Hn' & H)]].
  - lia.
  - exfalso. by apply (proj1 (selectOldest_None _) Hnone pending Hin).
  - pose proof (selectOldest_spec _ _ Hsel) as (Hp & Hpst & Hold).
    pose proof (reload_claimed (calls w) p Hkey Hp Hpst now) as Hreload.
    assert (n' = maxConcurrentCalls) as Hn'max.
    { pose proof (lockWhere_at_most_one (calls w) (CallEntity.id p) Hkey) as Hle.
      rewrite Hn'eq, inProgress_lockedTable. pose proof (selected_is_locked _ _ Hsel). lia. }
    rewrite Hreload in Hc. injection Hc as <-.
    assert (String.eqb (CallEntity.id (ClaimRace.claimedRow p now)) "" = false) as Hid.
    { apply String.eqb_neq. apply (Hids p Hp). }
    rewrite Hid in H.
    assert ((maxConcurrentCalls <=? n') = true) as Hfull by (apply Z.leb_le; lia).
    rewrite Hfull in H.
    eexists p, _, _. split; [exact H|]. split; [reflexivity|]. split; [reflexivity|].
    split; [done|]. split; [done|]. split; [exact Hold|]. cbn [calls].
    split; [exact Hreload|]. split; [reflexivity|].
    by rewrite <- Hn'eq.
Qed.

(** X7: at capacity the turn claims nothing, also when calls are PENDING, and
    sleeps five seconds; below capacity with no PENDING call it writes nothing
    and sleeps two seconds. *)
Theorem processCallQueueTurn_idle (maxConcurrentCalls now : Z) (w : World) :
  (maxConcurrentCalls
   <= Z.of_nat (length (List.filter (Sql.hasStatus IN_PROGRESS) (calls w))) ->
   CallService.processCallQueueTurn maxConcurrentCalls now w = (CallService.AtCapacity, w)
   /\ CallService.sleepAfter CallService.AtCapacity = Some 5000)
  /\ (Z.of_nat (length (List.filter (Sql.hasStatus IN_PROGRESS) (calls w)))
      < maxConcurrentCalls ->
      (forall r, r ∈ calls w -> CallEntity.status r <> PENDING) ->
      CallService.processCallQueueTurn maxConcurrentCalls now w
      = (CallService.NoPendingCalls, w)
      /\ CallService.sleepAfter CallService.NoPendingCalls = Some 2000).
Proof.
  split.
  - intros Hfull.
    destruct (processCallQueueTurn_cases maxConcurrentCalls now w)
      as [[_ H]|[(Hn & _)|(p & c & n' & Hn & _)]]; [by split|lia|lia].
  - intros Hfree Hnone. apply selectOldest_None in Hnone.
    destruct (processCallQueueTurn_cases maxConcurrentCalls now w)
      as [[Hn _]|[(_ & _ & H)|(p & c & n' & _ & Hsel & _)]]; [lia|by split|].
    rewrite Hnone in Hsel. discriminate.
Qed.

(** ** Dispatch *)

(** What [handleCallFailure] leaves behind, in both of its branches. *)
Lemma handleCallFailure_outcome (maxRetryAttempts now : Z) (callEntity stored : CallEntity.t)
      (error : JsError) (w : World) :
  CallEntity.id callEntity <> ""%string ->
  Sql.selectById (calls w) (CallEntity.id callEntity) = Some stored ->
  exists (w' : World) (updated : CallEntity.t),
    CallService.handleCallFailure maxRetryAttempts now callEntity error w = (Ok tt, w')
    /\ Sql.selectById (calls w') (CallEntity.id callEntity) = Some updated
    /\ CallEntity.status updated
       = (if instanceof_RetryableError error
             && (CallEntity.attempts callEntity + 1 <? maxRetryAttempts)
          then PENDING else FAILED)
    /\ CallEntity.attempts updated = CallEntity.attempts callEntity + 1
    /\ CallEntity.lastError updated = Some (err_message error)
    /\ CallEntity.endedAt updated
       = (if instanceof_RetryableError error
             && (CallEntity.attempts callEntity + 1 <? maxRetryAttempts)
          then CallEntity.endedAt stored else Some now)
    /\ CallEntity.externalCallId updated = CallEntity.externalCallId stored
    /\ queue w'
       = (if instanceof_RetryableError error
             && (CallEntity.attempts callEntity + 1 <? maxRetryAttempts)
          then queue w ++ [{| qi_callId := CallEntity.id callEntity;
                              qi_scheduledAt :=
                                now + 2 ^ (CallEntity.attempts callEntity + 1) * 1000 |}]
          else queue w).
Proof.
  intros Hid Hsel. unfold CallService.handleCallFailure.
  rewrite (id_nonempty _ Hid), or_default_number.
  destruct (instanceof_RetryableError error
            && (CallEntity.attempts callEntity + 1 <? maxRetryAttempts));
    unfold mbind, M_bind; rewrite (updateById_run _ _ _ _ _ Hsel);
    (eexists _, _; split; [reflexivity|]); cbn [calls queue];
    rewrite (selectById_updateWhere_id _ _ _ _ _ Hsel);
    (split; [reflexivity|]); cbn;
    destruct (CallEntity.endedAt stored), (CallEntity.externalCallId stored);
    repeat split; reflexivity.
Qed.

(** X8: a call whose payload lacks [to] or [scriptId] is not sent to the
    provider: whatever the provider would answer and however few attempts the
    call has had, it becomes FAILED with one attempt more, and nothing is
    enqueued. *)
Theorem processCall_invalid_payload (maxRetryAttempts now : Z)
        (callEntity stored : CallEntity.t) (outcome : AICallService.AxiosOutcome)
        (w : World) :
  CallEntity.id callEntity <> ""%string ->
  Sql.selectById (calls w) (CallEntity.id callEntity) = Some stored ->
  CallService.truthy (CallEntity.payload callEntity !! "to"%string) = false
  \/ CallService.truthy (CallEntity.payload callEntity !! "scriptId"%string) = false ->
  exists (w' : World) (updated : CallEntity.t),
    CallService.processCall maxRetryAttempts now callEntity outcome w = (Ok tt, w')
    /\ Sql.selectById (calls w') (CallEntity.id callEntity) = Some updated
    /\ CallEntity.status updated = FAILED
    /\ CallEntity.attempts updated = CallEntity.attempts callEntity + 1
    /\ CallEntity.lastError updated
       = Some "Invalid call entity: missing required payload data"%string
    /\ CallEntity.endedAt updated = Some now
    /\ queue w' = queue w.
Proof.
  intros Hid Hsel Hbad. unfold CallService.processCall.
  assert (negb (CallService.truthy (CallEntity.payload callEntity !! "to"%string))
          || negb (CallService.truthy (CallEntity.payload callEntity !! "scriptId"%string))
          = true) as ->.
  { destruct Hbad as [-> | ->]; [reflexivity|apply orb_true_r]. }
  destruct (handleCallFailure_outcome maxRetryAttempts now callEntity stored
              {| err_class := PlainError;
                 err_message := "Invalid call entity: missing required payload data" |}
              w Hid Hsel)
    as (w' & updated & Hrun & Hsel' & Hst & Hatt & Herr & Hend & _ & Hq).
  exists w', updated. by repeat split.
Qed.

(** X9: dispatch and retry compose.  For a call with a valid payload, a
    rejected request makes the call PENDING when the classifier finds the
    error retryable and the new attempt count is below [maxRetryAttempts], and
    FAILED otherwise; a response that resolves with a status other than 202
    (a 200, say) always makes it FAILED.  Either way [attempts] grows by one
    and [lastError] is the message of the error. *)
Theorem processCall_failure (maxRetryAttempts now : Z) (callEntity stored : CallEntity.t)
        (w : World) :
  CallEntity.id callEntity <> ""%string ->
  Sql.selectById (calls w) (CallEntity.id callEntity) = Some stored ->
  CallService.truthy (CallEntity.payload callEntity !! "to"%string) = true ->
  CallService.truthy (CallEntity.payload callEntity !! "scriptId"%string) = true ->
  (forall error : AICallService.CaughtError,
      exists (w' : World) (updated : CallEntity.t),
        CallService.processCall maxRetryAttempts now callEntity
          (AICallService.Rejected error) w = (Ok tt, w')
        /\ Sql.selectById (calls w') (CallEntity.id callEntity) = Some updated
        /\ CallEntity.status updated
           = (if AICallService.isRetryableError error
                 && (CallEntity.attempts callEntity + 1 <? maxRetryAttempts)
              then PENDING else FAILED)
        /\ CallEntity.attempts updated = CallEntity.attempts callEntity + 1
        /\ CallEntity.lastError updated = Some (AICallService.message error))
  /\ (forall (status : Z) (data : AICallResponse),
        status <> 202 ->
        exists (w' : World) (updated : CallEntity.t),
          CallService.processCall maxRetryAttempts now callEntity
            (AICallService.Resolved status data) w = (Ok tt, w')
          /\ Sql.selectById (calls w') (CallEntity.id callEntity) = Some updated
          /\ CallEntity.status updated = FAILED
          /\ CallEntity.attempts updated = CallEntity.attempts callEntity + 1
          /\ CallEntity.lastError updated
             = Some ("Unexpected response status: " +:+ AICallService.decimal status)
          /\ queue w' = queue w).
Proof.
  intros Hid Hsel Hto Hscript. unfold CallService.processCall.
  rewrite Hto, Hscript. cbn [negb orb]. split.
  - intros error. cbn [AICallService.initiateCall].
    destruct (handleCallFailure_outcome maxRetryAttempts now callEntity stored
                (AICallService.classify error) w Hid Hsel)
      as (w' & updated & Hrun & Hsel' & Hst & Hatt & Herr & _).
    exists w', updated. split; [exact Hrun|]. split; [exact Hsel'|].
    unfold AICallService.classify in *.
    destruct (AICallService.isRetryableError error); by repeat split.
  - intros status data Hstatus. cbn [AICallService.initiateCall].
    assert ((status =? 202) = false) as -> by by apply Z.eqb_neq.
    destruct (handleCallFailure_outcome maxRetryAttempts now callEntity stored
                (AICallService.classify
                   {| AICallService.code := None;
                      AICallService.response_status := None;
                      AICallService.message :=
                        "Unexpected response status: " +:+ AICallService.decimal status |})
                w Hid Hsel)
      as (w' & updated & Hrun & Hsel' & Hst & Hatt & Herr & _ & _ & Hq).
    exists w', updated. by repeat split.
Qed.

Lemma find_map_new {A : Type} (p q : A -> bool) (f : A -> A) (l : list A) :
  (forall x, x ∈ l -> p (f x) = q x) ->
  find p (map f l) = f <$> find q l.
Proof.
  induction l as [|x l IH]; intros Hp; simpl; [reflexivity|].
  rewrite (Hp x) by apply list_elem_of_here.
  destruct (q x); [reflexivity|].
  apply IH. intros y Hy. apply Hp. by apply list_elem_of_further.
Qed.

(** X10: when the provider accepts the call (202), the row gets the call id
    that the body carries and no other column but [updatedAt] changes; a body
    that carries no call id is accepted as well, and then the row keeps the
    external call id it had.  Nothing is enqueued.  If the body carries a call
    id that no row had before, a completion signal with that id now finds this
    call, and delivering it makes the call COMPLETED or FAILED with [endedAt]
    the signal's [completedAt]. *)
Theorem processCall_accepted_then_callback (maxRetryAttempts now later : Z)
        (callEntity stored : CallEntity.t) (data : AICallResponse) (w : World) :
  Sql.selectById (calls w) (CallEntity.id callEntity) = Some stored ->
  CallService.truthy (CallEntity.payload callEntity !! "to"%string) = true ->
  CallService.truthy (CallEntity.payload callEntity !! "scriptId"%string) = true ->
  exists (w1 : World) (accepted : CallEntity.t),
    CallService.processCall maxRetryAttempts now callEntity
      (AICallService.Resolved 202 data) w = (Ok tt, w1)
    /\ Sql.selectById (calls w1) (CallEntity.id callEntity) = Some accepted
    /\ content accepted
       = (CallEntity.id stored, CallEntity.payload stored, CallEntity.status stored,
          CallEntity.attempts stored, CallEntity.lastError stored,
          CallEntity.createdAt stored, CallEntity.startedAt stored,
          CallEntity.endedAt stored,
          match ai_callId data with
          | Some callId => Some callId
          | None => CallEntity.externalCallId stored
          end)
    /\ queue w1 = queue w
    /\ forall (callId : string) (payload : WebhookCallbackPayload),
         ai_callId data = Some callId ->
         (forall r, r ∈ calls w -> CallEntity.externalCallId r <> Some callId) ->
         wh_callId payload = callId ->
         exists (w2 : World) (final : CallEntity.t),
           fst (CallRepository.findByExternalCallId callId w1) = Ok (Some accepted)
           /\ CallService.handleWebhookCallback later payload w1 = (Ok tt, w2)
           /\ Sql.selectById (calls w2) (CallEntity.id callEntity) = Some final
           /\ CallEntity.status final
              = match wh_status payload with P_COMPLETED => COMPLETED | _ => FAILED end
           /\ CallEntity.endedAt final = Some (wh_completedAt payload)
           /\ CallEntity.externalCallId final = Some callId.
Proof.
  intros Hsel Hto Hscript.
  unfold CallService.processCall. rewrite Hto, Hscript. cbn [negb orb].
  cbn [AICallService.initiateCall Z.eqb Pos.eqb].
  set (u := {| Partial.payload := None; Partial.status := None; Partial.attempts := None;
               Partial.lastError := None; Partial.startedAt := None;
               Partial.endedAt := None;
               Partial.externalCallId := ai_callId data |}).
  rewrite (updateById_run _ _ _ _ _ Hsel).
  pose proof (selectById_updateWhere_id now u _ _ _ Hsel) as Hsel1.
  eexists _, _. split; [reflexivity|]. cbn [calls queue].
  split; [exact Hsel1|]. split; [reflexivity|]. split; [reflexivity|].
  intros callId payload Hdata Hfresh Hcid.
  assert (find (fun r => match CallEntity.externalCallId r with
                         | Some x => String.eqb x callId
                         | None => false
                         end)
               (fst (Sql.updateWhere now
                       (fun r => String.eqb (CallEntity.id r) (CallEntity.id callEntity))
                       u (calls w)))
          = Some (Sql.setColumns now u stored)) as Hfind.
  { cbn [fst Sql.updateWhere].
    rewrite (find_map_new _ (fun r => String.eqb (CallEntity.id r) (CallEntity.id callEntity))).
    - fold (Sql.selectById (calls w) (CallEntity.id callEntity)). rewrite Hsel.
      cbn [fmap option_fmap option_map].
      apply selectById_Some in Hsel as [_ Hid]. apply String.eqb_eq in Hid.
      by rewrite Hid.
    - intros x Hx.
      destruct (String.eqb (CallEntity.id x) (CallEntity.id callEntity)).
      + cbn. rewrite Hdata. apply String.eqb_refl.
      + specialize (Hfresh x Hx). destruct (CallEntity.externalCallId x) as [e|]; [|done].
        apply String.eqb_neq. congruence. }
  assert (CallEntity.id stored = CallEntity.id callEntity) as Hids
    by (by apply selectById_Some in Hsel as [_ ?]).
  unfold CallService.handleWebhookCallback.
  unfold mbind at 1, M_bind at 1.
  unfold CallRepository.findByExternalCallId, mbind, M_bind, getCalls.
  unfold mret at 1 2, M_ret at 1 2. cbn [calls fst]. rewrite Hcid, Hfind.
  rewrite setColumns_id, Hids.
  erewrite updateById_run; [|exact Hsel1]. unfold mret, M_ret.
  eexists _, _. split; [reflexivity|]. split; [reflexivity|]. cbn [calls queue].
  rewrite (selectById_updateWhere_id _ _ _ _ _ Hsel1).
  split; [reflexivity|]. cbn. rewrite Hdata. by destruct (wh_status payload).
Qed.

(** ** The in-memory queue *)

(** X11: [dequeueCall] hands out the first item of the queue that is due:
    every item before it is not due yet, that item alone leaves the queue,
    and the table is not touched.  It returns none exactly when no item is
    due, which is when [getReadyCallsCount] is 0, and then the queue stays as
    it is. *)
Theorem dequeueCall_first_due (now : Z) (w : World) :
  (forall (callId : string) (w' : World),
      QueueService.dequeueCall now w = (Ok (Some callId), w') ->
      exists (i : nat) (item : QueueItem),
        queue w !! i = Some item
        /\ qi_callId item = callId
        /\ qi_scheduledAt item <= now
        /\ (forall (j : nat) (other : QueueItem),
              queue w !! j = Some other -> (j < i)%nat -> now < qi_scheduledAt other)
        /\ queue w' = delete i (queue w)
        /\ (length (queue w') + 1 = length (queue w))%nat
        /\ calls w' = calls w)
  /\ (fst (QueueService.dequeueCall now w) = Ok None
      <-> forall item, item ∈ queue w -> now < qi_scheduledAt item)
  /\ (fst (QueueService.dequeueCall now w) = Ok None
      <-> fst (QueueService.getReadyCallsCount now w) = Ok 0)
  /\ (fst (QueueService.dequeueCall now w) = Ok None ->
      snd (QueueService.dequeueCall now w) = w).
Proof.
  unfold QueueService.dequeueCall, QueueService.getReadyCallsCount.
  destruct (list_find (fun item => qi_scheduledAt item <= now) (queue w))
    as [[i item]|] eqn:Hfind.
  - apply list_find_Some in Hfind as (Hi & Hdue & Hbefore).
    split; [|split; [|split]].
    + intros callId w' [= <- <-]. exists i, item. cbn [queue calls].
      split; [done|]. split; [done|]. split; [done|].
      split; [intros j other Hj Hlt; specialize (Hbefore j other Hj Hlt); lia|].
      split; [done|]. split; [|done].
      rewrite length_delete by by eexists.
      apply lookup_lt_Some in Hi. lia.
    + cbn [fst]. split; [discriminate|]. intros Hnone.
      assert (item ∈ queue w) as Hin by (apply list_elem_of_lookup; by exists i).
      specialize (Hnone item Hin). lia.
    + cbn [fst]. split; [discriminate|]. intros [= Hzero]. exfalso.
      assert (In item (List.filter (fun item0 => qi_scheduledAt item0 <=? now) (queue w)))
        as Hin.
      { apply filter_In. split.
        - apply list_elem_of_In, list_elem_of_lookup. by exists i.
        - by apply Z.leb_le. }
      destruct (List.filter _ (queue w)); [destruct Hin|simpl in Hzero; lia].
    + discriminate.
  - apply list_find_None in Hfind. rewrite Forall_forall in Hfind.
    split; [|split; [|split]].
    + discriminate.
    + cbn [fst]. split; [|reflexivity]. intros _ item Hin.
      specialize (Hfind item Hin). lia.
    + cbn [fst]. split; [|reflexivity]. intros _. f_equal.
      rewrite filter_none; [reflexivity|].
      intros item Hin. specialize (Hfind item Hin). apply Z.leb_gt. lia.
    + reflexivity.
Qed.

(** X12: an entry enqueued with a delay comes out of a queue with nothing
    else due exactly from [now + delayMs] on: a [dequeueCall] before that time
    returns none, one at or after it returns the call and leaves the queue as
    it was before the entry was added. *)
Theorem enqueueCallWithDelay_dequeueCall (now delayMs t : Z) (callId : string) (w : World) :
  (forall item, item ∈ queue w -> t < qi_scheduledAt item) ->
  (now + delayMs <= t ->
   QueueService.dequeueCall t (snd (QueueService.enqueueCallWithDelay now callId delayMs w))
   = (Ok (Some callId), w))
  /\ (t < now + delayMs ->
      QueueService.dequeueCall t (snd (QueueService.enqueueCallWithDelay now callId delayMs w))
      = (Ok None, snd (QueueService.enqueueCallWithDelay now callId delayMs w))).
Proof.
  intros Hnone.
  assert (list_find (fun item => qi_scheduledAt item <= t) (queue w) = None) as Hq.
  { apply list_find_None, Forall_forall. intros item Hin. specialize (Hnone item Hin). lia. }
  unfold QueueService.enqueueCallWithDelay, pushQueue, QueueService.dequeueCall.
  cbn [snd queue calls]. rewrite (list_find_app_r _ _ _ Hq). split; intros Ht.
  - cbn [list_find]. case_decide as Hn; [|cbn in Hn; lia].
    cbn [fmap option_fmap option_map prod_map fst snd id Nat.add qi_callId].
    rewrite delete_middle, app_nil_r. by destruct w.
  - cbn [list_find]. case_decide as Hn; [cbn in Hn; lia|].
    reflexivity.
Qed.

(** ** The rate limiter *)

(** Inside a window, with [c] requests counted so far. *)
Lemma serve_in_window (maxRequests windowMs : Z) (clientIp : string) (times : list Z) :
  forall (requestCounts : gmap string Middleware.ClientData) (c R : Z),
    requestCounts !! clientIp
    = Some {| Middleware.count := c; Middleware.resetTime := R |} ->
    Forall (fun t => t <= R) times ->
    fst (Middleware.serve maxRequests windowMs clientIp times requestCounts)
    = replicate (Nat.min (length times) (Z.to_nat (maxRequests - c))) Middleware.Next
      ++ replicate (length times - Z.to_nat (maxRequests - c)) Middleware.TooManyRequests.
Proof.
  induction times as [|t times IH]; intros requestCounts c R Hlook Htimes; [reflexivity|].
  apply Forall_cons in Htimes as [Ht Htimes].
  cbn [Middleware.serve fst snd]. unfold Middleware.rateLimiter. rewrite Hlook.
  cbn [Middleware.resetTime Middleware.count].
  assert ((R <? t) = false) as -> by (apply Z.ltb_ge; lia).
  destruct (maxRequests <=? c) eqn:Hfull.
  - apply Z.leb_le in Hfull. cbn [fst snd].
    rewrite (IH requestCounts c R Hlook Htimes).
    replace (Z.to_nat (maxRequests - c)) with 0%nat by lia.
    rewrite !Nat.min_0_r, !Nat.sub_0_r. reflexivity.
  - apply Z.leb_gt in Hfull. cbn [fst snd].
    rewrite (IH _ (c + 1) R (lookup_insert_eq _ _ _) Htimes).
    replace (Z.to_nat (maxRequests - c)) with (S (Z.to_nat (maxRequests - (c + 1)))) by lia.
    reflexivity.
Qed.

(** X13: the requests of a client that arrive within [windowMs] of its first
    request.  The first request passes whatever [maxRequests] is; in all, the
    first [maxRequests] of them pass (the first one alone when [maxRequests]
    is below 1), and every later one is refused with 429. *)
Theorem rateLimiter_window (maxRequests windowMs : Z) (clientIp : string)
        (first : Z) (later : list Z) (requestCounts : gmap string Middleware.ClientData) :
  requestCounts !! clientIp = None ->
  Forall (fun t => t <= first + windowMs) later ->
  fst (Middleware.serve maxRequests windowMs clientIp (first :: later) requestCounts)
  = replicate (Nat.min (S (length later)) (Z.to_nat (Z.max 1 maxRequests))) Middleware.Next
    ++ replicate (S (length later) - Z.to_nat (Z.max 1 maxRequests))
         Middleware.TooManyRequests.
Proof.
  intros Hnew Hlater.
  cbn [Middleware.serve fst snd]. unfold Middleware.rateLimiter at 1 2. rewrite Hnew.
  cbn [fst snd].
  rewrite (serve_in_window _ _ _ later _ 1 (first + windowMs) (lookup_insert_eq _ _ _) Hlater).
  replace (Z.to_nat (Z.max 1 maxRequests)) with (S (Z.to_nat (maxRequests - 1))) by lia.
  reflexivity.
Qed.

(** X14: the limiter keeps one counter per client: a request of one client
    leaves the entry of every other client as it is; a refused request changes
    nothing at all; and a request that arrives after the window of its client
    has ended passes and opens a new window. *)
Theorem rateLimiter_per_client (maxRequests windowMs : Z) (clientIp : string) (now : Z)
        (requestCounts : gmap string Middleware.ClientData) :
  (forall other : string,
      other <> clientIp ->
      snd (Middleware.rateLimiter maxRequests windowMs clientIp now requestCounts) !! other
      = requestCounts !! other)
  /\ (fst (Middleware.rateLimiter maxRequests windowMs clientIp now requestCounts)
      = Middleware.TooManyRequests ->
      snd (Middleware.rateLimiter maxRequests windowMs clientIp now requestCounts)
      = requestCounts)
  /\ (forall clientData : Middleware.ClientData,
        requestCounts !! clientIp = Some clientData ->
        Middleware.resetTime clientData < now ->
        Middleware.rateLimiter maxRequests windowMs clientIp now requestCounts
        = (Middleware.Next,
           <[clientIp := {| Middleware.count := 1;
                            Middleware.resetTime := now + windowMs |}]> requestCounts)).
Proof.
  unfold Middleware.rateLimiter. split; [|split].
  - intros other Hne.
    destruct (requestCounts !! clientIp) as [d|]; cbn [snd].
    + destruct (Middleware.resetTime d <? now); cbn [snd];
        [by rewrite lookup_insert_ne|].
      destruct (maxRequests <=? Middleware.count d); cbn [snd];
        [reflexivity|by rewrite lookup_insert_ne].
    + by rewrite lookup_insert_ne.
  - destruct (requestCounts !! clientIp) as [d|]; [|discriminate].
    destruct (Middleware.resetTime d <? now); [discriminate|].
    destruct (maxRequests <=? Middleware.count d); [reflexivity|discriminate].
  - intros d -> Hlate. by assert ((Middleware.resetTime d <? now) = true) as ->
        by by apply Z.ltb_lt.
Qed.

(** ** Creation and the one-call-per-destination rule *)

Lemma find_snoc {A : Type} (p : A -> bool) (l : list A) (x : A) :
  find p (l ++ [x]) = match find p l with
                      | Some y => Some y
                      | None => if p x then Some x else None
                      end.
Proof.
  induction l as [|y l IH]; simpl; [reflexivity|].
  destruct (p y); [reflexivity|exact IH].
Qed.

Lemma findActiveCallByPhoneNumber_run (phoneNumber : string) (w : World) :
  CallRepository.findActiveCallByPhoneNumber phoneNumber w
  = (Ok (find (CallRepository.isActiveFor phoneNumber) (calls w)), w).
Proof. reflexivity. Qed.

Lemma createCall_run (newId : string) (now : Z) (request : CreateCallRequest) (w : World) :
  find (CallRepository.isActiveFor (req_to request)) (calls w) = None ->
  CallService.createCall newId now request w
  = (Ok (CallService.entityToCall (createdRow newId now request)),
     {| calls := calls w ++ [createdRow newId now request]; queue := queue w |}).
Proof.
  intros Hfind. unfold CallService.createCall, mbind, M_bind.
  by rewrite findActiveCallByPhoneNumber_run, Hfind.
Qed.

Lemma createdRow_active (newId : string) (now : Z) (request : CreateCallRequest) :
  CallRepository.isActiveFor (req_to request) (createdRow newId now request) = true.
Proof.
  unfold CallRepository.isActiveFor, createdRow, CallService.newPayload.
  cbn [CallEntity.payload CallEntity.status Sql.hasStatus CallStatus_eqb orb andb].
  destruct (req_metadata request).
  - rewrite lookup_insert_ne by done. rewrite lookup_insert_eq. cbn.
    apply String.eqb_refl.
  - rewrite lookup_insert_eq. cbn. apply String.eqb_refl.
Qed.


(** X16: once a call has been created for a destination, a second create
    request for that destination is refused with an error, whatever else it
    carries, and inserts nothing. *)
Theorem createCall_twice_refused (newId newId' : string) (now now' : Z)
        (request request' : CreateCallRequest) (w : World) :
  find (CallRepository.isActiveFor (req_to request)) (calls w) = None ->
  req_to request' = req_to request ->
  exists (call : Call.t) (w' : World) (error : JsError),
    CallService.createCall newId now request w = (Ok call, w')
    /\ CallService.createCall newId' now' request' w' = (Throw error, w')
    /\ err_message error
       = "Call already active for phone number: " +:+ req_to request
         +:+ " (Status: PENDING)".
Proof.
  intros Hfind Hto. rewrite (createCall_run _ _ _ _ Hfind).
  eexists _, _, _. split; [reflexivity|].
  unfold CallService.createCall, mbind, M_bind.
  rewrite findActiveCallByPhoneNumber_run. cbn [calls].
  rewrite Hto, find_snoc, Hfind, createdRow_active.
  split; reflexivity.
Qed.

(** X17: [createCall] keeps the rule that no two PENDING or IN_PROGRESS calls
    have the same destination. *)
Theorem createCall_keeps_one_active (newId : string) (now : Z) (request : CreateCallRequest)
        (w : World) :
  oneActivePerDestination (calls w) ->
  oneActivePerDestination (calls (snd (CallService.createCall newId now request w))).
Proof.
  intros Hone.
  destruct (find (CallRepository.isActiveFor (req_to request)) (calls w)) as [e|] eqn:Hfind.
  - unfold CallService.createCall, mbind, M_bind.
    by rewrite findActiveCallByPhoneNumber_run, Hfind.
  - rewrite (createCall_run _ _ _ _ Hfind). cbn [snd calls].
    assert (forall k r d, calls w !! k = Some r -> isActive r = true ->
                          destination r = Some d ->
                          destination (createdRow newId now request) = Some d -> False)
      as Hclash.
    { intros k r d Hk Hact Hd Hd'.
      assert (In r (calls w)) as Hin
        by (apply list_elem_of_In, list_elem_of_lookup; by exists k).
      pose proof (find_none _ _ Hfind r Hin) as Hno.
      pose proof (createdRow_active newId now request) as Hnew.
      unfold CallRepository.isActiveFor in Hno, Hnew.
      unfold isActive in Hact. rewrite Hact in Hno.
      unfold destination in Hd, Hd'. rewrite Hd in Hno. rewrite Hd' in Hnew.
      cbn in Hno, Hnew. congruence. }
    intros i j r1 r2 d Hi Hj Ha1 Ha2 Hd1 Hd2.
    apply lookup_snoc_Some in Hi as [[Hi1 Hi2]|[-> <-]];
      apply lookup_snoc_Some in Hj as [[Hj1 Hj2]|[-> <-]].
    + by apply (Hone i j r1 r2 d).
    + exfalso. by apply (Hclash i r1 d).
    + exfalso. by apply (Hclash j r2 d).
    + reflexivity.
Qed.

(** X18: [updateCall] does not look for other calls to the new destination:
    moving a PENDING call to the destination of another PENDING or
    IN_PROGRESS call succeeds and leaves two active calls for that
    destination. *)
Theorem updateCall_breaks_one_active (now : Z) (w : World) (i j : nat)
        (r1 r2 : CallEntity.t) (d : string) :
  NoDup (map CallEntity.id (calls w)) ->
  calls w !! i = Some r1 -> calls w !! j = Some r2 -> i <> j ->
  CallEntity.status r1 = PENDING ->
  isActive r2 = true -> destination r2 = Some d ->
  exists (call : Call.t) (w' : World),
    CallService.updateCall now (CallEntity.id r1)
      {| upd_payload := Some {[ "to"%string := JString d ]} |} w = (Ok (Some call), w')
    /\ Call.status call = PENDING
    /\ Call.payload call !! "to"%string = Some (JString d)
    /\ calls w' !! j = Some r2
    /\ ~ oneActivePerDestination (calls w').
Proof.
  intros Hkey Hi Hj Hne Hst Hact Hd.
  assert (r1 ∈ calls w) as Hin1 by (apply list_elem_of_lookup; by exists i).
  assert (r2 ∈ calls w) as Hin2 by (apply list_elem_of_lookup; by exists j).
  pose proof (selectById_key _ _ Hkey Hin1) as Hsel.
  assert (String.eqb (CallEntity.id r2) (CallEntity.id r1) = false) as Hid.
  { apply String.eqb_neq. intros Hid. apply Hne.
    apply (NoDup_lookup (map CallEntity.id (calls w)) i j (CallEntity.id r1)); [done| |].
    - by rewrite lookup_map, Hi.
    - rewrite lookup_map, Hj. cbn. by rewrite Hid. }
  unfold CallService.updateCall, mbind, M_bind.
  rewrite (findById_found _ _ _ Hsel), Hst. cbn [CallStatus_eqb negb].
  rewrite (updateById_run _ _ _ _ _ Hsel), (selectById_updateWhere_id _ _ _ _ _ Hsel).
  eexists _, _. split; [reflexivity|]. cbn [calls fst Sql.updateWhere].
  split; [exact Hst|].
  assert (CallService.spread (CallEntity.payload r1) (Some {[ "to"%string := JString d ]})
          !! "to"%string = Some (JString d)) as Hto.
  { unfold CallService.spread. cbn [default]. apply lookup_union_Some_l.
    apply lookup_singleton_eq. }
  split; [exact Hto|].
  set (u := {| Partial.payload :=
                 Some (CallService.spread (CallEntity.payload r1)
                         (Some {[ "to"%string := JString d ]}));
               Partial.status := None; Partial.attempts := None;
               Partial.lastError := None; Partial.startedAt := None;
               Partial.endedAt := None; Partial.externalCallId := None |}).
  set (tbl' := map (fun r => if String.eqb (CallEntity.id r) (CallEntity.id r1)
                             then Sql.setColumns now u r else r) (calls w)).
  assert (tbl' !! j = Some r2) as Hj'.
  { subst tbl'. rewrite lookup_map, Hj. cbn. by rewrite Hid. }
  assert (tbl' !! i = Some (Sql.setColumns now u r1)) as Hi'.
  { subst tbl'. rewrite lookup_map, Hi. cbn. by rewrite String.eqb_refl. }
  split; [exact Hj'|].
  intros Hone. apply Hne.
  apply (Hone i j (Sql.setColumns now u r1) r2 d Hi' Hj'); [|exact Hact| |exact Hd].
  - unfold isActive, Sql.hasStatus. cbn. by rewrite Hst.
  - change (destination (Sql.setColumns now u r1))
      with (CallService.spread (CallEntity.payload r1)
              (Some {[ "to"%string := JString d ]}) !! "to"%string ≫= json_text).
    by rewrite Hto.
Qed.

(** ** The answer to a create request *)

Lemma prefix_hasChar (c : ascii) (sub s : string) :
  String.prefix sub s = true -> hasChar c sub = true -> hasChar c s = true.
Proof.
  revert s. induction sub as [|a sub IH]; intros s Hpre Hc; [discriminate Hc|].
  destruct s as [|b s]; [discriminate Hpre|]. simpl in Hpre.
  destruct (Ascii.ascii_dec a b) as [->|Hne]; [|discriminate].
  simpl in *. apply orb_true_iff in Hc as [Hc|Hc].
  - by rewrite Hc.
  - rewrite (IH s Hpre Hc). apply orb_true_r.
Qed.

Lemma includes_hasChar (c : ascii) (s sub : string) :
  CallController.includes s sub = true -> hasChar c sub = true -> hasChar c s = true.
Proof.
  intros Hinc Hc. induction s as [|b s IH].
  - cbn [CallController.includes] in Hinc.
    destruct (String.prefix sub "") eqn:Hp; [|discriminate Hinc].
    by apply (prefix_hasChar c sub "").
  - cbn [CallController.includes] in Hinc.
    destruct (String.prefix sub (String b s)) eqn:Hp.
    + by apply (prefix_hasChar c sub).
    + simpl. rewrite (IH Hinc). apply orb_true_r.
Qed.

Lemma hasChar_append (c : ascii) (s1 s2 : string) :
  hasChar c (s1 +:+ s2) = hasChar c s1 || hasChar c s2.
Proof.
  induction s1 as [|a s1 IH]; [reflexivity|].
  simpl. by rewrite IH, orb_assoc.
Qed.

Lemma digits_no_g (s : string) :
  Validation.allDigits s = true -> hasChar "g" s = false.
Proof.
  induction s as [|a s IH]; [reflexivity|]. simpl.
  intros Hd. apply andb_true_iff in Hd as [Ha Hs]. rewrite (IH Hs), orb_false_r.
  destruct (Ascii.eqb a "g") eqn:E; [|reflexivity].
  apply Ascii.eqb_eq in E. subst a. discriminate Ha.
Qed.

Lemma internationalNumber_no_g (s : string) :
  Validation.isInternationalNumber s = true -> hasChar "g" s = false.
Proof.
  unfold Validation.isInternationalNumber.
  destruct s as [|a s]; [discriminate|].
  destruct (Ascii.ascii_dec a "+") as [->|Hne].
  - intros H. apply andb_true_iff in H as [Hd _]. simpl. by apply digits_no_g.
  - destruct a as [[] [] [] [] [] [] [] []]; try discriminate. by destruct Hne.
Qed.

Lemma validateCreateCall_to (body : CreateCallRequest) :
  Validation.validateCreateCall body = [] ->
  Validation.isInternationalNumber (req_to body) = true.
Proof.
  unfold Validation.validateCreateCall. intros H.
  apply app_eq_nil in H as [H _].
  destruct (String.eqb (req_to body) ""); [discriminate|].
  by destruct (Validation.isInternationalNumber (req_to body)).
Qed.

(** X19: POST /calls never answers 409.  The answer is 400 for a body that
    fails validation, 201 when the destination has no active call, and 500
    "Internal server error" when it has one, in which case nothing is
    written. *)
Theorem createCall_never_409 (newId : string) (now : Z) (body : CreateCallRequest)
        (w : World) :
  CallController.res_status (fst (CallController.createCall newId now body w)) <> 409
  /\ (Validation.validateCreateCall body <> [] ->
      CallController.res_status (fst (CallController.createCall newId now body w)) = 400
      /\ snd (CallController.createCall newId now body w) = w)
  /\ (Validation.validateCreateCall body = [] ->
      forall existing : CallEntity.t,
        find (CallRepository.isActiveFor (req_to body)) (calls w) = Some existing ->
        CallController.createCall newId now body w
        = ({| CallController.res_status := 500;
              CallController.res_body :=
                CallController.ErrorBody "Internal server error" "Failed to create call" |},
           w))
  /\ (Validation.validateCreateCall body = [] ->
      find (CallRepository.isActiveFor (req_to body)) (calls w) = None ->
      CallController.res_status (fst (CallController.createCall newId now body w)) = 201).
Proof.
  assert (Validation.validateCreateCall body = [] ->
          forall existing : CallEntity.t,
            find (CallRepository.isActiveFor (req_to body)) (calls w) = Some existing ->
            CallController.createCall newId now body w
            = ({| CallController.res_status := 500;
                  CallController.res_body :=
                    CallController.ErrorBody "Internal server error"
                                             "Failed to create call" |}, w)) as Hconflict.
  { intros Hvalid existing Hfind. unfold CallController.createCall. rewrite Hvalid.
    unfold CallService.createCall, mbind, M_bind.
    rewrite findActiveCallByPhoneNumber_run, Hfind. unfold throw. cbn [err_message].
    destruct (CallController.includes _ "already in progress") eqn:Hinc; [|reflexivity].
    exfalso. apply (includes_hasChar "g") in Hinc; [|reflexivity].
    rewrite !hasChar_append in Hinc.
    rewrite (internationalNumber_no_g _ (validateCreateCall_to _ Hvalid)) in Hinc.
    by destruct (CallEntity.status existing). }
  assert (Validation.validateCreateCall body = [] ->
          find (CallRepository.isActiveFor (req_to body)) (calls w) = None ->
          CallController.res_status (fst (CallController.createCall newId now body w)) = 201)
    as Hcreated.
  { intros Hvalid Hfind. unfold CallController.createCall.
    by rewrite Hvalid, (createCall_run _ _ _ _ Hfind). }
  assert (Validation.validateCreateCall body <> [] ->
          CallController.res_status (fst (CallController.createCall newId now body w)) = 400
          /\ snd (CallController.createCall newId now body w) = w) as Hinvalid.
  { intros Hbad. unfold CallController.createCall.
    by destruct (Validation.validateCreateCall body). }
  split; [|split; [exact Hinvalid|split; [exact Hconflict|exact Hcreated]]].
  destruct (Validation.validateCreateCall body) as [|m ms] eqn:Hvalid.
  - destruct (find (CallRepository.isActiveFor (req_to body)) (calls w)) as [e|] eqn:Hfind.
    + by rewrite (Hconflict eq_refl e eq_refl).
    + by rewrite (Hcreated eq_refl eq_refl).
  - destruct Hinvalid as [-> _]; done.
Qed.

(** ** Listings *)

Lemma insertDesc_perm (r : CallEntity.t) (rows : list CallEntity.t) :
  Sql.insertDesc r rows ≡ₚ r :: rows.
Proof.
  induction rows as [|x rows IH]; [reflexivity|]. simpl.
  destruct (CallEntity.createdAt x <? CallEntity.createdAt r); [reflexivity|].
  rewrite IH. apply Permutation_swap.
Qed.

Lemma orderByCreatedAtDesc_perm (rows : list CallEntity.t) :
  Sql.orderByCreatedAtDesc rows ≡ₚ rows.
Proof.
  unfold Sql.orderByCreatedAtDesc. induction rows as [|x rows IH]; [reflexivity|].
  simpl. by rewrite insertDesc_perm, IH.
Qed.

Lemma insertDesc_sorted (r : CallEntity.t) (rows : list CallEntity.t) :
  StronglySorted newerFirst rows -> StronglySorted newerFirst (Sql.insertDesc r rows).
Proof.
  induction rows as [|x rows IH]; intros Hs; simpl.
  - repeat constructor.
  - apply StronglySorted_inv in Hs as [Hs Hall].
    destruct (CallEntity.createdAt x <? CallEntity.createdAt r) eqn:E.
    + apply Z.ltb_lt in E. constructor; [by constructor|].
      constructor; [unfold newerFirst; lia|].
      eapply Forall_impl; [exact Hall|]. unfold newerFirst. intros y Hy. lia.
    + apply Z.ltb_ge in E. constructor; [by apply IH|].
      rewrite insertDesc_perm. by constructor.
Qed.

Lemma orderByCreatedAtDesc_sorted (rows : list CallEntity.t) :
  StronglySorted newerFirst (Sql.orderByCreatedAtDesc rows).
Proof.
  unfold Sql.orderByCreatedAtDesc. induction rows as [|x rows IH]; [constructor|].
  simpl. by apply insertDesc_sorted.
Qed.

(** The rows a listing is drawn from. *)
Lemma findWithPagination_run (status : option CallStatus) (page limit : Z) (w : World) :
  1 <= page -> 1 <= limit ->
  CallRepository.findWithPagination
    {| q_status := status; q_page := Some page; q_limit := Some limit |} w
  = (Ok (take (Z.to_nat limit)
           (drop (Z.to_nat ((page - 1) * limit))
              (Sql.orderByCreatedAtDesc
                 match status with
                 | Some s => List.filter (Sql.hasStatus s) (calls w)
                 | None => calls w
                 end)),
         Z.of_nat (length match status with
                          | Some s => List.filter (Sql.hasStatus s) (calls w)
                          | None => calls w
                          end)), w).
Proof.
  intros Hpage Hlimit.
  unfold CallRepository.findWithPagination, mbind, M_bind, getCalls.
  cbn [q_status q_page q_limit default calls]. unfold CallRepository.skipTake.
  change (Datatypes.id page) with page. change (Datatypes.id limit) with limit.
  assert (((page - 1) * limit <? 0) = false) as -> by (apply Z.ltb_ge; nia).
  assert ((limit <? 0) = false) as -> by (apply Z.ltb_ge; lia).
  assert ((limit =? 0) = false) as -> by (apply Z.eqb_neq; lia).
  reflexivity.
Qed.

(** X20: a page of a listing, for a page number and a limit of at least 1:
    [total] is the number of calls of the requested status, whatever the
    page; the page holds at most [limit] calls, all of them rows of the table
    with the requested status, newest first; and a page beyond the last one
    is empty. *)
Theorem findWithPagination_page (status : option CallStatus) (page limit : Z) (w : World) :
  1 <= page -> 1 <= limit ->
  exists rows : list CallEntity.t,
    CallRepository.findWithPagination
      {| q_status := status; q_page := Some page; q_limit := Some limit |} w
    = (Ok (rows,
           Z.of_nat (length match status with
                            | Some s => List.filter (Sql.hasStatus s) (calls w)
                            | None => calls w
                            end)), w)
    /\ Z.of_nat (length rows) <= limit
    /\ (forall r, r ∈ rows ->
          r ∈ calls w /\ forall s, status = Some s -> CallEntity.status r = s)
    /\ StronglySorted newerFirst rows
    /\ (Z.of_nat (length match status with
                         | Some s => List.filter (Sql.hasStatus s) (calls w)
                         | None => calls w
                         end) <= (page - 1) * limit ->
        rows = []).
Proof.
  intros Hpage Hlimit. rewrite (findWithPagination_run _ _ _ _ Hpage Hlimit).
  set (matching := match status with
                   | Some s => List.filter (Sql.hasStatus s) (calls w)
                   | None => calls w
                   end).
  set (sorted := Sql.orderByCreatedAtDesc matching).
  eexists. split; [reflexivity|]. split; [|split; [|split]].
  - rewrite length_take. lia.
  - intros r Hr. apply subseteq_take, subseteq_drop in Hr.
    subst sorted. rewrite orderByCreatedAtDesc_perm in Hr. subst matching.
    destruct status as [s|].
    + apply list_elem_of_In, filter_In in Hr as [Hr Hs].
      split; [by apply list_elem_of_In|]. intros s' [= <-]. by apply CallStatus_eqb_eq.
    + split; [done|]. discriminate.
  - pose proof (orderByCreatedAtDesc_sorted matching) as Hs. fold sorted in Hs.
    rewrite <- (take_drop (Z.to_nat ((page - 1) * limit)) sorted) in Hs.
    apply StronglySorted_app_1_r in Hs.
    rewrite <- (take_drop (Z.to_nat limit) (drop _ sorted)) in Hs.
    by apply StronglySorted_app_1_l in Hs.
  - intros Hbeyond. rewrite drop_ge; [apply take_nil|].
    subst sorted. rewrite orderByCreatedAtDesc_perm. lia.
Qed.

Lemma pageOf_run (status : option CallStatus) (limit : Z) (w : World) (p : nat) :
  (1 <= p)%nat -> 1 <= limit ->
  pageOf status limit w p
  = take (Z.to_nat limit)
      (drop ((p - 1) * Z.to_nat limit)
         (map CallService.entityToCall
            (Sql.orderByCreatedAtDesc
               match status with
               | Some s => List.filter (Sql.hasStatus s) (calls w)
               | None => calls w
               end))).
Proof.
  intros Hp Hlimit. unfold pageOf, CallService.getCallsByStatus, mbind, M_bind.
  rewrite findWithPagination_run by lia. cbn [fst CallService.pg_calls mret M_ret].
  replace (Z.to_nat ((Z.of_nat p - 1) * limit)) with ((p - 1) * Z.to_nat limit)%nat by nia.
  change (map CallService.entityToCall) with (fmap (M:=list) CallService.entityToCall).
  by rewrite fmap_take, fmap_drop.
Qed.

Lemma pages_concat (A : Type) (l : list A) (size n : nat) :
  concat (map (fun p => take size (drop ((p - 1) * size) l)) (seq 1 n)) = take (n * size) l.
Proof.
  induction n as [|n IH]; [reflexivity|].
  rewrite seq_S, map_app, concat_app, IH. cbn [map concat Nat.add].
  rewrite app_nil_r. replace (S n - 1)%nat with n by lia.
  rewrite take_take_drop. f_equal. lia.
Qed.

(** X21: walking through the pages 1 to [totalPages] of a listing returns
    every call of the requested status once, newest first: the pages, one
    after the other, are the sorted list of these calls. *)
Theorem pages_cover_listing (status : option CallStatus) (limit : Z) (w : World) :
  1 <= limit ->
  let matching :=
    match status with
    | Some s => List.filter (Sql.hasStatus s) (calls w)
    | None => calls w
    end in
  let totalPages := CallController.Math_ceil_div (Z.of_nat (length matching)) limit in
  concat (map (pageOf status limit w) (seq 1 (Z.to_nat totalPages)))
  = map CallService.entityToCall (Sql.orderByCreatedAtDesc matching)
  /\ Sql.orderByCreatedAtDesc matching ≡ₚ matching
  /\ StronglySorted newerFirst (Sql.orderByCreatedAtDesc matching).
Proof.
  intros Hlimit matching totalPages.
  split; [|split; [apply orderByCreatedAtDesc_perm|apply orderByCreatedAtDesc_sorted]].
  rewrite (map_ext_in _ (fun p => take (Z.to_nat limit)
                                    (drop ((p - 1) * Z.to_nat limit)
                                       (map CallService.entityToCall
                                          (Sql.orderByCreatedAtDesc matching))))).
  - rewrite pages_concat. apply take_ge.
    rewrite length_map, orderByCreatedAtDesc_perm.
    pose proof (Math_ceil_div_spec (Z.of_nat (length matching)) limit ltac:(lia)) as [_ Hup].
    fold totalPages in Hup. nia.
  - intros p Hp. apply in_seq in Hp. apply pageOf_run; lia.
Qed.

(** ** What the correlator and the update request leave alone *)

(** X22: a completion signal never raises an error and never touches the
    queue; it leaves [id], [payload], [attempts], [createdAt], [startedAt]
    and [externalCallId] of every row as they are; a signal with an unknown
    id writes nothing at all, and a signal that finds a call leaves every row
    of another id as it is. *)
Theorem handleWebhookCallback_frame (now : Z) (payload : WebhookCallbackPayload) (w : World) :
  exists w' : World,
    CallService.handleWebhookCallback now payload w = (Ok tt, w')
    /\ queue w' = queue w
    /\ map keptByCallback (calls w') = map keptByCallback (calls w)
    /\ (fst (CallRepository.findByExternalCallId (wh_callId payload) w) = Ok None -> w' = w)
    /\ (forall found : CallEntity.t,
          fst (CallRepository.findByExternalCallId (wh_callId payload) w) = Ok (Some found) ->
          forall (k : nat) (r : CallEntity.t),
            calls w !! k = Some r -> CallEntity.id r <> CallEntity.id found ->
            calls w' !! k = Some r).
Proof.
  unfold CallService.handleWebhookCallback, mbind, M_bind.
  destruct (CallRepository.findByExternalCallId (wh_callId payload) w) as [res w0] eqn:Hrun.
  assert (w0 = w) as -> by (by inversion Hrun).
  assert (exists o, res = Ok o) as [[c|] ->] by (inversion Hrun; by eexists).
  - assert (c ∈ calls w) as Hin.
    { inversion Hrun as [Hfind]. apply find_some in Hfind as [Hin _].
      by apply list_elem_of_In. }
    destruct (selectById_elem _ _ Hin) as [stored Hsel].
    rewrite (updateById_run _ _ _ _ _ Hsel). unfold mret, M_ret.
    eexists. split; [reflexivity|]. cbn [calls queue fst Sql.updateWhere].
    split; [reflexivity|]. split; [|split; [discriminate|]].
    + rewrite map_map. apply map_ext. intros r.
      destruct (String.eqb (CallEntity.id r) (CallEntity.id c)); [|reflexivity].
      unfold keptByCallback. cbn.
      by destruct (CallEntity.startedAt r), (CallEntity.externalCallId r).
    + intros found [= <-] k r Hk Hne. rewrite lookup_map, Hk. cbn.
      by assert (String.eqb (CallEntity.id r) (CallEntity.id c) = false) as ->
          by by apply String.eqb_neq.
  - exists w. split; [reflexivity|]. split; [reflexivity|]. split; [reflexivity|].
    split; [reflexivity|]. discriminate.
Qed.

(** The forms of a uuid that the database reads, and some that it refuses. *)
Lemma isUuid_forms :
  Sql.isUuid "123e4567-e89b-12d3-a456-426614174000" = true
  /\ Sql.isUuid "123E4567E89B12D3A456426614174000" = true
  /\ Sql.isUuid "{123e4567-e89b-12d3-a456-426614174000}" = true
  /\ Sql.isUuid "123e4567-e89b-12d3-a456-42661417400" = false
  /\ Sql.isUuid "123e4567-e89b-12d3-a456-426614174000 " = false
  /\ Sql.isUuid "g23e4567-e89b-12d3-a456-426614174000" = false
  /\ Sql.isUuid "42" = false
  /\ Sql.isUuid "" = false.
Proof. vm_compute. repeat split; reflexivity. Qed.


(** ** Retries until exhaustion *)

Lemma handleCallFailure_kept (maxRetryAttempts now : Z) (callEntity : CallEntity.t)
      (error : JsError) (w : World) :
  map keptByFailure
      (calls (snd (CallService.handleCallFailure maxRetryAttempts now callEntity error w)))
  = map keptByFailure (calls w).
Proof.
  unfold CallService.handleCallFailure.
  destruct (String.eqb (CallEntity.id callEntity) ""); [reflexivity|].
  destruct (instanceof_RetryableError error && _);
    unfold mbind, M_bind;
    match goal with
    | |- context [CallRepository.updateById ?n ?i ?u ?w0] =>
        destruct (updateById_cases n i u w0) as [[o ->]|[e ->]]
    end;
    cbn [snd calls fst Sql.updateWhere QueueService.enqueueCallWithDelay pushQueue mret M_ret];
    rewrite map_map; apply map_ext; intros r;
    (destruct (String.eqb (CallEntity.id r) (CallEntity.id callEntity)); [|reflexivity]);
    unfold keptByFailure; cbn;
    by destruct (CallEntity.startedAt r), (CallEntity.externalCallId r).
Qed.

Lemma claim_single (now : Z) (w : World) (r : CallEntity.t) :
  calls w = [r] -> CallEntity.status r = PENDING ->
  CallRepository.fetchAndLockPendingCall now w
  = (Ok (Some (ClaimRace.claimedRow r now)),
     {| calls := [ClaimRace.claimedRow r now]; queue := queue w |}).
Proof.
  intros Hw Hst.
  assert (Sql.selectOldestWithStatus PENDING (calls w) = Some r) as Hsel.
  { rewrite Hw. unfold Sql.selectOldestWithStatus, Sql.hasStatus. cbn [List.filter].
    by rewrite Hst. }
  rewrite (fetchAndLockPendingCall_found _ _ _ Hsel), Hw.
  assert (ClaimRace.lockedTable [r] r now = [ClaimRace.claimedRow r now]) as ->.
  { unfold ClaimRace.lockedTable, CallRepository.lockWhere, Sql.hasStatus.
    cbn [Sql.updateWhere fst map]. by rewrite String.eqb_refl, Hst. }
  unfold Sql.selectById. cbn [find ClaimRace.claimedRow Sql.setColumns CallEntity.id].
  by rewrite String.eqb_refl.
Qed.

Lemma dispatchTurn_not_pending (maxRetryAttempts now : Z)
      (outcome : AICallService.AxiosOutcome) (w : World) (r : CallEntity.t) :
  calls w = [r] -> CallEntity.status r <> PENDING ->
  dispatchTurn maxRetryAttempts outcome w now = w.
Proof.
  intros Hw Hst. unfold dispatchTurn.
  assert (CallRepository.fetchAndLockPendingCall now w = (Ok None, w)) as ->; [|reflexivity].
  unfold CallRepository.fetchAndLockPendingCall, mbind, M_bind, getCalls.
  rewrite Hw. unfold Sql.selectOldestWithStatus, Sql.hasStatus. cbn [List.filter].
  destruct (CallStatus_eqb (CallEntity.status r) PENDING) eqn:E; [|reflexivity].
  by apply CallStatus_eqb_eq in E.
Qed.

(** One turn for the only call of the table, the provider refusing with a
    retryable error. *)
Lemma dispatchTurn_retryable (maxRetryAttempts now : Z) (error : AICallService.CaughtError)
      (w : World) (r : CallEntity.t) :
  calls w = [r] -> CallEntity.status r = PENDING ->
  CallEntity.id r <> ""%string ->
  CallService.truthy (CallEntity.payload r !! "to"%string) = true ->
  CallService.truthy (CallEntity.payload r !! "scriptId"%string) = true ->
  AICallService.isRetryableError error = true ->
  exists r' : CallEntity.t,
    calls (dispatchTurn maxRetryAttempts (AICallService.Rejected error) w now) = [r']
    /\ CallEntity.id r' = CallEntity.id r
    /\ CallEntity.payload r' = CallEntity.payload r
    /\ CallEntity.attempts r' = CallEntity.attempts r + 1
    /\ CallEntity.status r'
       = (if CallEntity.attempts r + 1 <? maxRetryAttempts then PENDING else FAILED).
Proof.
  intros Hw Hst Hid Hto Hscript Hretry. unfold dispatchTurn.
  rewrite (claim_single now w r Hw Hst).
  set (c := ClaimRace.claimedRow r now).
  set (w1 := {| calls := [c]; queue := queue w |}).
  assert (CallService.processCall maxRetryAttempts now c (AICallService.Rejected error) w1
          = CallService.handleCallFailure maxRetryAttempts now c
              (AICallService.classify error) w1) as ->.
  { unfold CallService.processCall.
    change (CallEntity.payload c) with (CallEntity.payload r).
    by rewrite Hto, Hscript. }
  assert (Sql.selectById (calls w1) (CallEntity.id c) = Some c) as Hsel.
  { unfold Sql.selectById. cbn [calls w1 find]. by rewrite String.eqb_refl. }
  destruct (handleCallFailure_outcome maxRetryAttempts now c c
              (AICallService.classify error) w1 Hid Hsel)
    as (w' & updated & Hrun & Hsel' & Hstatus & Hatt & _).
  pose proof (handleCallFailure_kept maxRetryAttempts now c
                (AICallService.classify error) w1) as Hkept.
  rewrite Hrun in Hkept. cbn [snd] in Hkept. rewrite Hrun. cbn [snd].
  destruct (calls w') as [|x [|y l]] eqn:Hcalls; try discriminate Hkept.
  cbn [calls w1 map] in Hkept.
  assert (CallEntity.id x = CallEntity.id r /\ CallEntity.payload x = CallEntity.payload r)
    as [Hi Hp].
  { unfold keptByFailure in Hkept. injection Hkept as H1 H2 H3 H4 H5.
    split; [exact H1|exact H2]. }
  unfold Sql.selectById in Hsel'. cbn [find] in Hsel'.
  destruct (String.eqb (CallEntity.id x) (CallEntity.id c)); [|discriminate].
  injection Hsel' as ->.
  exists updated. split; [reflexivity|].
  split; [exact Hi|]. split; [exact Hp|]. split; [exact Hatt|].
  rewrite Hstatus. unfold AICallService.classify. rewrite Hretry. reflexivity.
Qed.

Lemma dispatchTurns_failed (maxRetryAttempts : Z) (outcome : AICallService.AxiosOutcome)
      (times : list Z) (w : World) (r : CallEntity.t) :
  calls w = [r] -> CallEntity.status r = FAILED ->
  dispatchTurns maxRetryAttempts outcome times w = w.
Proof.
  intros Hw Hst. unfold dispatchTurns.
  induction times as [|t times IH]; [reflexivity|]. cbn [foldl].
  rewrite (dispatchTurn_not_pending _ _ _ _ r Hw); [exact IH|].
  rewrite Hst. discriminate.
Qed.

(** X24: the one call of a table, PENDING with fewer than [maxRetryAttempts]
    attempts, is dispatched again and again and the provider refuses each time
    with a retryable error.  After [n] turns the call has had [n] more
    attempts, up to [maxRetryAttempts] in all: it is PENDING as long as the
    attempts are below [maxRetryAttempts], and from then on FAILED, and
    further turns leave it alone. *)
Theorem retries_until_exhausted (maxRetryAttempts : Z) (error : AICallService.CaughtError)
        (times : list Z) :
  forall (w : World) (r : CallEntity.t),
    calls w = [r] -> CallEntity.status r = PENDING ->
    CallEntity.id r <> ""%string ->
    CallService.truthy (CallEntity.payload r !! "to"%string) = true ->
    CallService.truthy (CallEntity.payload r !! "scriptId"%string) = true ->
    AICallService.isRetryableError error = true ->
    CallEntity.attempts r < maxRetryAttempts ->
    exists r' : CallEntity.t,
      calls (dispatchTurns maxRetryAttempts (AICallService.Rejected error) times w) = [r']
      /\ CallEntity.id r' = CallEntity.id r
      /\ CallEntity.payload r' = CallEntity.payload r
      /\ CallEntity.attempts r'
         = Z.min (CallEntity.attempts r + Z.of_nat (length times)) maxRetryAttempts
      /\ CallEntity.status r'
         = (if CallEntity.attempts r + Z.of_nat (length times) <? maxRetryAttempts
            then PENDING else FAILED).
Proof.
  induction times as [|t times IH]; intros w r Hw Hst Hid Hto Hscript Hretry Hbelow.
  - exists r. cbn [length dispatchTurns foldl]. rewrite Z.add_0_r.
    split; [exact Hw|]. split; [reflexivity|]. split; [reflexivity|].
    split; [lia|]. by assert ((CallEntity.attempts r <? maxRetryAttempts) = true) as ->
        by by apply Z.ltb_lt.
  - destruct (dispatchTurn_retryable maxRetryAttempts t error w r Hw Hst Hid Hto Hscript Hretry)
      as (r1 & Hw1 & Hid1 & Hp1 & Hatt1 & Hst1).
    change (dispatchTurns maxRetryAttempts (AICallService.Rejected error) (t :: times) w)
      with (dispatchTurns maxRetryAttempts (AICallService.Rejected error) times
              (dispatchTurn maxRetryAttempts (AICallService.Rejected error) w t)).
    cbn [length]. rewrite Nat2Z.inj_succ.
    destruct (CallEntity.attempts r + 1 <? maxRetryAttempts) eqn:Hmore.
    + apply Z.ltb_lt in Hmore.
      destruct (IH _ r1 Hw1 Hst1) as (r' & Hw' & Hid' & Hp' & Hatt' & Hst');
        [congruence|congruence|congruence|exact Hretry|lia|].
      exists r'. split; [exact Hw'|]. split; [congruence|]. split; [congruence|].
      rewrite Hatt', Hst', Hatt1.
      replace (CallEntity.attempts r + 1 + Z.of_nat (length times))
        with (CallEntity.attempts r + Z.succ (Z.of_nat (length times))) by lia.
      by split.
    + apply Z.ltb_ge in Hmore.
      rewrite (dispatchTurns_failed _ _ _ _ r1 Hw1 Hst1).
      exists r1. split; [exact Hw1|]. split; [exact Hid1|]. split; [exact Hp1|].
      split; [lia|].
      by assert ((CallEntity.attempts r + Z.succ (Z.of_nat (length times))
                  <? maxRetryAttempts) = false) as -> by (apply Z.ltb_ge; lia).
Qed.

(** ** Two create requests at once *)

(** The two statements of one invocation, issued without interruption, are
    [createCall]. *)
Lemma steps_are_createCall (newId : string) (now : Z) (request : CreateCallRequest)
      (w : World) :
  let s1 := CreateRace.step newId now request w CreateRace.AtCheck in
  let s2 := CreateRace.step newId now request (fst s1) (snd s1) in
  exists result : Result Call.t,
    snd s2 = CreateRace.Returned result
    /\ CallService.createCall newId now request w = (result, fst s2).
Proof.
  cbn zeta. unfold CallService.createCall, mbind, M_bind. cbn [CreateRace.step].
  rewrite findActiveCallByPhoneNumber_run.
  destruct (find (CallRepository.isActiveFor (req_to request)) (calls w)) as [e|].
  - cbn [fst snd CreateRace.step]. by eexists.
  - cbn [fst snd CreateRace.step]. by eexists.
Qed.

(** X25: the check and the insert of [createCall] are two statements.  When
    two requests for one destination both run their check before either runs
    its insert, both succeed, and the table holds two PENDING calls for the
    destination. *)
Theorem createCall_race (idA idB : string) (nowA nowB : Z)
        (requestA requestB : CreateCallRequest) (w : World) :
  find (CallRepository.isActiveFor (req_to requestA)) (calls w) = None ->
  req_to requestB = req_to requestA ->
  let a1 := CreateRace.step idA nowA requestA w CreateRace.AtCheck in
  let b1 := CreateRace.step idB nowB requestB (fst a1) CreateRace.AtCheck in
  let a2 := CreateRace.step idA nowA requestA (fst b1) (snd a1) in
  let b2 := CreateRace.step idB nowB requestB (fst a2) (snd b1) in
  exists callA callB : Call.t,
    snd a2 = CreateRace.Returned (Ok callA)
    /\ snd b2 = CreateRace.Returned (Ok callB)
    /\ Call.status callA = PENDING /\ Call.status callB = PENDING
    /\ Call.payload callA !! "to"%string = Some (JString (req_to requestA))
    /\ Call.payload callB !! "to"%string = Some (JString (req_to requestA))
    /\ length (calls (fst b2)) = S (S (length (calls w)))
    /\ ~ oneActivePerDestination (calls (fst b2)).
Proof.
  intros Hfind Hto a1 b1 a2 b2.
  assert (a1 = (w, CreateRace.AtInsert)) as Ha1.
  { unfold a1, CreateRace.step. by rewrite findActiveCallByPhoneNumber_run, Hfind. }
  assert (b1 = (w, CreateRace.AtInsert)) as Hb1.
  { unfold b1. rewrite Ha1. cbn [fst]. unfold CreateRace.step.
    by rewrite findActiveCallByPhoneNumber_run, Hto, Hfind. }
  assert (a2 = ({| calls := calls w ++ [createdRow idA nowA requestA]; queue := queue w |},
                CreateRace.Returned
                  (Ok (CallService.entityToCall (createdRow idA nowA requestA))))) as Ha2.
  { unfold a2. rewrite Hb1, Ha1. reflexivity. }
  assert (b2 = ({| calls := (calls w ++ [createdRow idA nowA requestA])
                            ++ [createdRow idB nowB requestB];
                   queue := queue w |},
                CreateRace.Returned
                  (Ok (CallService.entityToCall (createdRow idB nowB requestB))))) as Hb2.
  { unfold b2. rewrite Ha2, Hb1. reflexivity. }
  rewrite Ha2, Hb2. cbn [fst snd calls].
  pose proof (createdRow_active idA nowA requestA) as HA.
  pose proof (createdRow_active idB nowB requestB) as HB.
  unfold CallRepository.isActiveFor in HA, HB.
  apply andb_true_iff in HA as [HactA HtoA]. apply andb_true_iff in HB as [HactB HtoB].
  assert (destination (createdRow idA nowA requestA) = Some (req_to requestA)) as HdA.
  { unfold destination.
    destruct (CallEntity.payload (createdRow idA nowA requestA) !! "to"%string ≫= json_text)
      as [t|]; [|discriminate]. apply String.eqb_eq in HtoA. by subst. }
  assert (destination (createdRow idB nowB requestB) = Some (req_to requestA)) as HdB.
  { unfold destination.
    destruct (CallEntity.payload (createdRow idB nowB requestB) !! "to"%string ≫= json_text)
      as [t|]; [|discriminate]. apply String.eqb_eq in HtoB. subst. by rewrite Hto. }
  assert (forall (i : string) (t : Z) (q : CreateCallRequest),
             CallService.newPayload q !! "to"%string = Some (JString (req_to q))) as Hpay.
  { intros _ _ q. unfold CallService.newPayload. destruct (req_metadata q).
    - rewrite lookup_insert_ne by done. apply lookup_insert_eq.
    - apply lookup_insert_eq. }
  eexists _, _. split; [reflexivity|]. split; [reflexivity|].
  split; [reflexivity|]. split; [reflexivity|].
  split; [apply (Hpay idA nowA)|]. split; [rewrite <- Hto; apply (Hpay idB nowB)|].
  split; [rewrite !length_app; simpl; lia|].
  intros Hone.
  assert (length (calls w) = S (length (calls w))) as Habs; [|lia].
  apply (Hone (length (calls w)) (S (length (calls w)))
              (createdRow idA nowA requestA) (createdRow idB nowB requestB)
              (req_to requestA)); try done.
  - rewrite <- app_assoc. by apply list_lookup_middle.
  - rewrite lookup_app_r by (rewrite length_app; simpl; lia).
    rewrite length_app. cbn [length]. by replace (_ - _)%nat with 0%nat by lia.
Qed.

(** ** Instances of the further properties *)

Lemma fetchAndLockPendingCall_oldest_witness :
  let w := {| calls := [otherCall; waitingCall]; queue := [] |} in
  let claimed := Sql.setColumns 1000 (CallRepository.lockSet 1000) waitingCall in
  let w' := {| calls := [otherCall; claimed]; queue := [] |} in
  exists p : CallEntity.t,
    p ∈ calls w
    /\ CallEntity.status p = PENDING
    /\ (forall r, r ∈ calls w -> CallEntity.status r = PENDING ->
                  CallEntity.createdAt p <= CallEntity.createdAt r)
    /\ claimed = Sql.setColumns 1000 (CallRepository.lockSet 1000) p
    /\ CallEntity.status claimed = IN_PROGRESS
    /\ CallEntity.startedAt claimed = Some 1000
    /\ calls w' = map (fun r => if String.eqb (CallEntity.id r) (CallEntity.id p)
                                then claimed else r) (calls w)
    /\ queue w' = queue w
    /\ length (List.filter (Sql.hasStatus IN_PROGRESS) (calls w'))
       = S (length (List.filter (Sql.hasStatus IN_PROGRESS) (calls w))).
Proof.
  intros w claimed w'.
  apply (fetchAndLockPendingCall_oldest 1000 w w' claimed).
  - apply NoDup_cons. split; [by intros ?%list_elem_of_singleton|apply NoDup_singleton].
  - reflexivity.
Defined.

Lemma processCallQueueTurn_started_witness :
  let w := {| calls := [otherCall; waitingCall]; queue := [] |} in
  let c := Sql.setColumns 1000 (CallRepository.lockSet 1000) waitingCall in
  let w' := {| calls := [otherCall; c]; queue := [] |} in
  Z.of_nat (length (List.filter (Sql.hasStatus IN_PROGRESS) (calls w))) + 2 <= 30
  /\ Z.of_nat (length (List.filter (Sql.hasStatus IN_PROGRESS) (calls w'))) < 30
  /\ Sql.selectById (calls w') (CallEntity.id c) = Some c
  /\ CallEntity.status c = IN_PROGRESS
  /\ CallEntity.startedAt c = Some 1000
  /\ (exists p : CallEntity.t,
        p ∈ calls w
        /\ CallEntity.status p = PENDING
        /\ (forall r, r ∈ calls w -> CallEntity.status r = PENDING ->
                      CallEntity.createdAt p <= CallEntity.createdAt r)
        /\ c = Sql.setColumns 1000 (CallRepository.lockSet 1000) p)
  /\ CallEntity.id c <> ""%string
  /\ queue w' = queue w.
Proof.
  intros w c w'. apply (processCallQueueTurn_started 30 1000 w w' c).
  - apply NoDup_cons. split; [by intros ?%list_elem_of_singleton|apply NoDup_singleton].
  - reflexivity.
Defined.

Lemma processCallQueueTurn_last_slot_witness :
  let w := {| calls := [waitingCall]; queue := [] |} in
  exists (p : CallEntity.t) (error : JsError) (w' : World),
    CallService.processCallQueueTurn 1 1000 w = (CallService.LoopError error, w')
    /\ CallService.sleepAfter (CallService.LoopError error) = Some 5000
    /\ err_message error
       = "Cannot acquire slot: maximum concurrent calls (" +:+ pretty 1 +:+ ") reached"
    /\ p ∈ calls w
    /\ CallEntity.status p = PENDING
    /\ (forall r, r ∈ calls w -> CallEntity.status r = PENDING ->
                  CallEntity.createdAt p <= CallEntity.createdAt r)
    /\ Sql.selectById (calls w') (CallEntity.id p)
       = Some (Sql.setColumns 1000 (CallRepository.lockSet 1000) p)
    /\ CallEntity.status (Sql.setColumns 1000 (CallRepository.lockSet 1000) p) = IN_PROGRESS
    /\ Z.of_nat (length (List.filter (Sql.hasStatus IN_PROGRESS) (calls w'))) = 1.
Proof.
  intros w. apply (processCallQueueTurn_last_slot 1 1000 w waitingCall).
  - apply NoDup_singleton.
  - intros r Hr. apply list_elem_of_singleton in Hr as ->. discriminate.
  - apply list_elem_of_here.
  - reflexivity.
  - reflexivity.
Defined.

Lemma processCall_invalid_payload_witness :
  let w := {| calls := [thirdFailure]; queue := [] |} in
  let outcome :=
    AICallService.Resolved 202
      {| ai_callId := Some "ext-1"%string; ai_status := Some "queued"%string |} in
  exists (w' : World) (updated : CallEntity.t),
    CallService.processCall 3 9500 thirdFailure outcome w = (Ok tt, w')
    /\ Sql.selectById (calls w') (CallEntity.id thirdFailure) = Some updated
    /\ CallEntity.status updated = FAILED
    /\ CallEntity.attempts updated = CallEntity.attempts thirdFailure + 1
    /\ CallEntity.lastError updated
       = Some "Invalid call entity: missing required payload data"%string
    /\ CallEntity.endedAt updated = Some 9500
    /\ queue w' = queue w.
Proof.
  intros w outcome.
  apply (processCall_invalid_payload 3 9500 thirdFailure thirdFailure outcome w).
  - discriminate.
  - reflexivity.
  - left. reflexivity.
Defined.

Lemma processCall_failure_witness :
  let w := {| calls := [firstAttempt]; queue := [] |} in
  (forall error : AICallService.CaughtError,
      exists (w' : World) (updated : CallEntity.t),
        CallService.processCall 3 1000 firstAttempt (AICallService.Rejected error) w
        = (Ok tt, w')
        /\ Sql.selectById (calls w') (CallEntity.id firstAttempt) = Some updated
        /\ CallEntity.status updated
           = (if AICallService.isRetryableError error
                 && (CallEntity.attempts firstAttempt + 1 <? 3)
              then PENDING else FAILED)
        /\ CallEntity.attempts updated = CallEntity.attempts firstAttempt + 1
        /\ CallEntity.lastError updated = Some (AICallService.message error))
  /\ (forall (status : Z) (data : AICallResponse),
        status <> 202 ->
        exists (w' : World) (updated : CallEntity.t),
          CallService.processCall 3 1000 firstAttempt
            (AICallService.Resolved status data) w = (Ok tt, w')
          /\ Sql.selectById (calls w') (CallEntity.id firstAttempt) = Some updated
          /\ CallEntity.status updated = FAILED
          /\ CallEntity.attempts updated = CallEntity.attempts firstAttempt + 1
          /\ CallEntity.lastError updated
             = Some ("Unexpected response status: " +:+ AICallService.decimal status)
          /\ queue w' = queue w).
Proof.
  intros w. apply (processCall_failure 3 1000 firstAttempt firstAttempt w).
  - discriminate.
  - reflexivity.
  - vm_compute. reflexivity.
  - vm_compute. reflexivity.
Defined.

Lemma processCall_accepted_then_callback_witness :
  let w := {| calls := [firstAttempt]; queue := [] |} in
  let data := {| ai_callId := Some "ext-1"%string; ai_status := Some "queued"%string |} in
  exists (w1 : World) (accepted : CallEntity.t),
    CallService.processCall 3 1000 firstAttempt (AICallService.Resolved 202 data) w
    = (Ok tt, w1)
    /\ Sql.selectById (calls w1) (CallEntity.id firstAttempt) = Some accepted
    /\ content accepted
       = (CallEntity.id firstAttempt, CallEntity.payload firstAttempt,
          CallEntity.status firstAttempt, CallEntity.attempts firstAttempt,
          CallEntity.lastError firstAttempt, CallEntity.createdAt firstAttempt,
          CallEntity.startedAt firstAttempt, CallEntity.endedAt firstAttempt,
          match ai_callId data with
          | Some callId => Some callId
          | None => CallEntity.externalCallId firstAttempt
          end)
    /\ queue w1 = queue w
    /\ forall (callId : string) (payload : WebhookCallbackPayload),
         ai_callId data = Some callId ->
         (forall r, r ∈ calls w -> CallEntity.externalCallId r <> Some callId) ->
         wh_callId payload = callId ->
         exists (w2 : World) (final : CallEntity.t),
           fst (CallRepository.findByExternalCallId callId w1) = Ok (Some accepted)
           /\ CallService.handleWebhookCallback 8100 payload w1 = (Ok tt, w2)
           /\ Sql.selectById (calls w2) (CallEntity.id firstAttempt) = Some final
           /\ CallEntity.status final
              = match wh_status payload with P_COMPLETED => COMPLETED | _ => FAILED end
           /\ CallEntity.endedAt final = Some (wh_completedAt payload)
           /\ CallEntity.externalCallId final = Some callId.
Proof.
  intros w data.
  apply (processCall_accepted_then_callback 3 1000 8100 firstAttempt firstAttempt data w).
  - reflexivity.
  - vm_compute. reflexivity.
  - vm_compute. reflexivity.
Defined.

Lemma enqueueCallWithDelay_dequeueCall_witness :
  let w := {| calls := [waitingCall];
              queue := [{| qi_callId := "c9"; qi_scheduledAt := 9000 |}] |} in
  (1000 + 2000 <= 3500 ->
   QueueService.dequeueCall 3500 (snd (QueueService.enqueueCallWithDelay 1000 "c1" 2000 w))
   = (Ok (Some "c1"%string), w))
  /\ (3500 < 1000 + 2000 ->
      QueueService.dequeueCall 3500 (snd (QueueService.enqueueCallWithDelay 1000 "c1" 2000 w))
      = (Ok None, snd (QueueService.enqueueCallWithDelay 1000 "c1" 2000 w))).
Proof.
  intros w. apply (enqueueCallWithDelay_dequeueCall 1000 2000 3500 "c1" w).
  intros item Hitem. apply list_elem_of_singleton in Hitem as ->. simpl. lia.
Defined.

Lemma rateLimiter_window_witness :
  fst (Middleware.serve 0 60000 "10.0.0.7" [1000; 1500; 2000; 61000] ∅)
  = replicate (Nat.min 4 (Z.to_nat (Z.max 1 0))) Middleware.Next
    ++ replicate (4 - Z.to_nat (Z.max 1 0)) Middleware.TooManyRequests.
Proof.
  apply (rateLimiter_window 0 60000 "10.0.0.7" 1000 [1500; 2000; 61000] ∅).
  - reflexivity.
  - repeat constructor; lia.
Defined.


Lemma createCall_twice_refused_witness :
  let w := {| calls := [waitingCall]; queue := [] |} in
  exists (call : Call.t) (w' : World) (error : JsError),
    CallService.createCall "c7" 2000 newRequest w = (Ok call, w')
    /\ CallService.createCall "c8" 2500 newRequest w' = (Throw error, w')
    /\ err_message error
       = "Call already active for phone number: " +:+ req_to newRequest
         +:+ " (Status: PENDING)".
Proof.
  intros w. apply (createCall_twice_refused "c7" "c8" 2000 2500 newRequest newRequest w).
  - vm_compute. reflexivity.
  - reflexivity.
Defined.

Lemma createCall_keeps_one_active_witness :
  oneActivePerDestination
    (calls (snd (CallService.createCall "c7" 2000 newRequest
                   {| calls := [waitingCall]; queue := [] |}))).
Proof.
  apply (createCall_keeps_one_active "c7" 2000 newRequest
           {| calls := [waitingCall]; queue := [] |}).
  intros i j r1 r2 d Hi Hj _ _ _ _. cbn [calls] in Hi, Hj.
  apply list_lookup_singleton_Some in Hi as [-> _].
  apply list_lookup_singleton_Some in Hj as [-> _]. reflexivity.
Defined.

Lemma updateCall_breaks_one_active_witness :
  let w := {| calls := [otherCall; waitingCall]; queue := [] |} in
  exists (call : Call.t) (w' : World),
    CallService.updateCall 3000 (CallEntity.id otherCall)
      {| upd_payload := Some {[ "to"%string := JString "+966501234567" ]} |} w
    = (Ok (Some call), w')
    /\ Call.status call = PENDING
    /\ Call.payload call !! "to"%string = Some (JString "+966501234567")
    /\ calls w' !! 1%nat = Some waitingCall
    /\ ~ oneActivePerDestination (calls w').
Proof.
  intros w.
  apply (updateCall_breaks_one_active 3000 w 0 1 otherCall waitingCall "+966501234567").
  - apply NoDup_cons. split; [by intros ?%list_elem_of_singleton|apply NoDup_singleton].
  - reflexivity.
  - reflexivity.
  - lia.
  - reflexivity.
  - reflexivity.
  - vm_compute. reflexivity.
Defined.

Lemma findWithPagination_page_witness :
  let w := {| calls := [otherCall; waitingCall; completedCall]; queue := [] |} in
  exists rows : list CallEntity.t,
    CallRepository.findWithPagination
      {| q_status := Some PENDING; q_page := Some 2; q_limit := Some 1 |} w
    = (Ok (rows, Z.of_nat (length (List.filter (Sql.hasStatus PENDING) (calls w)))), w)
    /\ Z.of_nat (length rows) <= 1
    /\ (forall r, r ∈ rows ->
          r ∈ calls w /\ forall s, Some PENDING = Some s -> CallEntity.status r = s)
    /\ StronglySorted newerFirst rows
    /\ (Z.of_nat (length (List.filter (Sql.hasStatus PENDING) (calls w))) <= (2 - 1) * 1 ->
        rows = []).
Proof.
  intros w. apply (findWithPagination_page (Some PENDING) 2 1 w); lia.
Defined.

Lemma pages_cover_listing_witness :
  let w := {| calls := [otherCall; waitingCall; completedCall]; queue := [] |} in
  let matching := List.filter (Sql.hasStatus PENDING) (calls w) in
  let totalPages := CallController.Math_ceil_div (Z.of_nat (length matching)) 1 in
  concat (map (pageOf (Some PENDING) 1 w) (seq 1 (Z.to_nat totalPages)))
  = map CallService.entityToCall (Sql.orderByCreatedAtDesc matching)
  /\ Sql.orderByCreatedAtDesc matching ≡ₚ matching
  /\ StronglySorted newerFirst (Sql.orderByCreatedAtDesc matching).
Proof.
  intros w. apply (pages_cover_listing (Some PENDING) 1 w). lia.
Defined.

Lemma retries_until_exhausted_witness :
  let w := {| calls := [waitingCall]; queue := [] |} in
  let times := [1000; 4000; 9000; 20000] in
  exists r' : CallEntity.t,
    calls (dispatchTurns 3 (AICallService.Rejected unavailable) times w) = [r']
    /\ CallEntity.id r' = CallEntity.id waitingCall
    /\ CallEntity.payload r' = CallEntity.payload waitingCall
    /\ CallEntity.attempts r'
       = Z.min (CallEntity.attempts waitingCall + Z.of_nat (length times)) 3
    /\ CallEntity.status r'
       = (if CallEntity.attempts waitingCall + Z.of_nat (length times) <? 3
          then PENDING else FAILED).
Proof.
  intros w times.
  apply (retries_until_exhausted 3 unavailable times w waitingCall).
  - reflexivity.
  - reflexivity.
  - discriminate.
  - vm_compute. reflexivity.
  - vm_compute. reflexivity.
  - reflexivity.
  - simpl. lia.
Defined.

Lemma createCall_race_witness :
  let w := {| calls := [waitingCall]; queue := [] |} in
  let a1 := CreateRace.step "c7" 2000 newRequest w CreateRace.AtCheck in
  let b1 := CreateRace.step "c8" 2001 newRequest (fst a1) CreateRace.AtCheck in
  let a2 := CreateRace.step "c7" 2000 newRequest (fst b1) (snd a1) in
  let b2 := CreateRace.step "c8" 2001 newRequest (fst a2) (snd b1) in
  exists callA callB : Call.t,
    snd a2 = CreateRace.Returned (Ok callA)
    /\ snd b2 = CreateRace.Returned (Ok callB)
    /\ Call.status callA = PENDING /\ Call.status callB = PENDING
    /\ Call.payload callA !! "to"%string = Some (JString (req_to newRequest))
    /\ Call.payload callB !! "to"%string = Some (JString (req_to newRequest))
    /\ length (calls (fst b2)) = S (S (length (calls w)))
    /\ ~ oneActivePerDestination (calls (fst b2)).
Proof.
  intros w.
  apply (createCall_race "c7" "c8" 2000 2001 newRequest newRequest w).
  - vm_compute. reflexivity.
  - reflexivity.
Defined.
